(** * BR Underwriting Dashboard: the cell-mapping extraction engine

    A shallow embedding of
      - [src/data_extraction/error_handling_system.py]  (the [ErrorHandler])
      - [src/data_extraction/excel_extraction_system.py]
        ([CellMappingParser], [ExcelDataExtractor], [BatchFileProcessor])
    followed by the properties of the engine stated over that embedding.

    Conventions of the embedding.
      - A Python [str] is a [string]; the text handled is ASCII.  Case
        mapping touches the letters A-Z / a-z only, white space is what
        [str.isspace] accepts below code point 128, digits are 0-9.
      - A Python exception is the [Raise] alternative of [Result]; the
        mutable [ErrorHandler] object is threaded explicitly, and a state
        change made before an exception is raised is kept.
      - Logging calls, [print] calls, wall-clock time stamps and elapsed
        time carry no data of the extraction and are left out. *)

From Stdlib Require Import String Ascii List ZArith Bool Arith Lia.
From Stdlib Require Import Floats.SpecFloat DecimalString.
From Stdlib Require Import Permutation Sorted.
Import ListNotations.
Open Scope string_scope.
Open Scope nat_scope.

(* ===================================================================== *)
(** ** Python strings *)
(* ===================================================================== *)

Definition ord (c : ascii) : nat := nat_of_ascii c.

(** [c.isspace()] on the ASCII range: TAB, LF, VT, FF, CR, FS, GS, RS, US
    and the blank. *)
Definition isspace (c : ascii) : bool :=
  ((9 <=? ord c) && (ord c <=? 13)) || ((28 <=? ord c) && (ord c <=? 32)).

(** The character class [[A-Z]]. *)
Definition is_AZ (c : ascii) : bool := (65 <=? ord c) && (ord c <=? 90).

Definition is_az (c : ascii) : bool := (97 <=? ord c) && (ord c <=? 122).

(** The character class [\d]. *)
Definition isdigit (c : ascii) : bool := (48 <=? ord c) && (ord c <=? 57).

Definition lower_char (c : ascii) : ascii :=
  if is_AZ c then ascii_of_nat (ord c + 32) else c.

Definition upper_char (c : ascii) : ascii :=
  if is_az c then ascii_of_nat (ord c - 32) else c.

Fixpoint map_chars (f : ascii -> ascii) (s : string) : string :=
  match s with
  | EmptyString => EmptyString
  | String c s' => String (f c) (map_chars f s')
  end.

Fixpoint all_chars (p : ascii -> bool) (s : string) : bool :=
  match s with
  | EmptyString => true
  | String c s' => p c && all_chars p s'
  end.

(** [s.lower()] and [s.upper()]. *)
Definition lower (s : string) : string := map_chars lower_char s.
Definition upper (s : string) : string := map_chars upper_char s.

Fixpoint lstrip (s : string) : string :=
  match s with
  | EmptyString => EmptyString
  | String c s' => if isspace c then lstrip s' else s
  end.

Fixpoint rstrip (s : string) : string :=
  match s with
  | EmptyString => EmptyString
  | String c s' =>
      match rstrip s' with
      | EmptyString => if isspace c then EmptyString else String c EmptyString
      | t => String c t
      end
  end.

(** [s.strip()]. *)
Definition strip (s : string) : string := rstrip (lstrip s).

(** [needle in hay]. *)
Fixpoint contains (needle hay : string) : bool :=
  prefix needle hay ||
  match hay with
  | EmptyString => false
  | String _ hay' => contains needle hay'
  end.

(** [s.replace(old, new)] for a non-empty [old] (every use in the source):
    occurrences are replaced from the left and do not overlap; [skip] counts
    the characters of the occurrence just replaced that are still to be
    passed over. *)
Fixpoint replace_from (old new : string) (skip : nat) (s : string) : string :=
  match s with
  | EmptyString => EmptyString
  | String c s' =>
      match skip with
      | S k => replace_from old new k s'
      | O =>
          if prefix old s
          then new ++ replace_from old new (String.length old - 1) s'
          else String c (replace_from old new 0 s')
      end
  end.

Definition replace (old new s : string) : string := replace_from old new 0 s.

(** [s.split()]: the maximal runs of characters that are not white space. *)
Fixpoint split_from (word : string) (s : string) : list string :=
  match s with
  | EmptyString => match word with EmptyString => [] | _ => [word] end
  | String c s' =>
      if isspace c
      then match word with
           | EmptyString => split_from EmptyString s'
           | _ => word :: split_from EmptyString s'
           end
      else split_from (word ++ String c EmptyString) s'
  end.

Definition split (s : string) : list string := split_from EmptyString s.

(** [sep.join(l)]. *)
Definition join (sep : string) (l : list string) : string := String.concat sep l.

(** [int(s)] on a run of decimal digits. *)
Definition digit_value (c : ascii) : Z := Z.of_nat (ord c - 48).

Fixpoint int_from (acc : Z) (s : string) : Z :=
  match s with
  | EmptyString => acc
  | String c s' => int_from (acc * 10 + digit_value c) s'
  end.

Definition int_of_digits (s : string) : Z := int_from 0 s.

(** [str(n)] for an integer. *)
Definition str_of_Z (z : Z) : string := NilZero.string_of_int (Z.to_int z).
Definition str_of_nat (n : nat) : string := str_of_Z (Z.of_nat n).

(** The longest prefix of [s] whose characters satisfy [p], and the rest. *)
Fixpoint span (p : ascii -> bool) (s : string) : string * string :=
  match s with
  | EmptyString => (EmptyString, EmptyString)
  | String c s' =>
      if p c
      then let '(a, b) := span p s' in (String c a, b)
      else (EmptyString, s)
  end.

(* ===================================================================== *)
(** ** Exceptions *)
(* ===================================================================== *)

(** The outcome of a call that may raise: a value or the text [str(e)] of
    the exception. *)
Inductive Result (A : Type) : Type :=
| Ok (a : A)
| Raise (msg : string).
Arguments Ok {A} a.
Arguments Raise {A} msg.

(* ===================================================================== *)
(** ** Cell values *)
(* ===================================================================== *)

(** What a cell read hands to the engine.  [VOther] is a value of any other
    type, given by what [str(value)] does: [Some s] when it returns [s],
    [None] when it raises. *)
Inductive PyValue : Type :=
| VNone
| VStr (s : string)
| VInt (z : Z)
| VFloat (f : spec_float)
| VBool (b : bool)
| VDatetime (iso : string)
| VOther (str_result : option string).

(** [np.nan], the canonical missing marker. *)
Definition np_nan : PyValue := VFloat S754_nan.

(** [pd.isna(value) or np.isinf(value)] on a number. *)
Definition float_non_finite (f : spec_float) : bool :=
  match f with
  | S754_nan => true
  | S754_infinity _ => true
  | _ => false
  end.

(** [str(value)] as used by f-strings and by the fall-back conversion.  The
    digits printed for a finite float are not modelled (no path of the engine
    formats one); the text stands for them. *)
Definition py_str (v : PyValue) : Result string :=
  match v with
  | VNone => Ok "None"
  | VStr s => Ok s
  | VInt z => Ok (str_of_Z z)
  | VFloat S754_nan => Ok "nan"
  | VFloat (S754_infinity false) => Ok "inf"
  | VFloat (S754_infinity true) => Ok "-inf"
  | VFloat _ => Ok "<float>"
  | VBool true => Ok "True"
  | VBool false => Ok "False"
  | VDatetime iso => Ok iso
  | VOther (Some s) => Ok s
  | VOther None => Raise "str() failed"
  end.

(* ===================================================================== *)
(** ** error_handling_system.py *)
(* ===================================================================== *)

(** [class ErrorCategory(Enum)]. *)
Inductive ErrorCategory : Type :=
| MISSING_SHEET
| INVALID_CELL_ADDRESS
| CELL_NOT_FOUND
| FORMULA_ERROR
| DATA_TYPE_ERROR
| EMPTY_VALUE
| FILE_ACCESS_ERROR
| PARSING_ERROR
| UNKNOWN_ERROR.

(** The members of the enumeration, in declaration order (the order in which
    [for cat in ErrorCategory] visits them). *)
Definition all_categories : list ErrorCategory :=
  [MISSING_SHEET; INVALID_CELL_ADDRESS; CELL_NOT_FOUND; FORMULA_ERROR;
   DATA_TYPE_ERROR; EMPTY_VALUE; FILE_ACCESS_ERROR; PARSING_ERROR;
   UNKNOWN_ERROR].

Definition category_eqb (a b : ErrorCategory) : bool :=
  match a, b with
  | MISSING_SHEET, MISSING_SHEET
  | INVALID_CELL_ADDRESS, INVALID_CELL_ADDRESS
  | CELL_NOT_FOUND, CELL_NOT_FOUND
  | FORMULA_ERROR, FORMULA_ERROR
  | DATA_TYPE_ERROR, DATA_TYPE_ERROR
  | EMPTY_VALUE, EMPTY_VALUE
  | FILE_ACCESS_ERROR, FILE_ACCESS_ERROR
  | PARSING_ERROR, PARSING_ERROR
  | UNKNOWN_ERROR, UNKNOWN_ERROR => true
  | _, _ => false
  end.

(** [category.value]. *)
Definition category_value (cat : ErrorCategory) : string :=
  match cat with
  | MISSING_SHEET => "missing_sheet"
  | INVALID_CELL_ADDRESS => "invalid_cell_address"
  | CELL_NOT_FOUND => "cell_not_found"
  | FORMULA_ERROR => "formula_error"
  | DATA_TYPE_ERROR => "data_type_error"
  | EMPTY_VALUE => "empty_value"
  | FILE_ACCESS_ERROR => "file_access_error"
  | PARSING_ERROR => "parsing_error"
  | UNKNOWN_ERROR => "unknown_error"
  end.

(** [@dataclass class ExtractionError]; the [timestamp] field is wall-clock
    time and is left out. *)
Record ExtractionError : Type := mkExtractionError {
  category : ErrorCategory;
  field_name : string;
  sheet_name : string;
  cell_address : string;
  error_message : string;
  original_value : option PyValue;
  suggested_fix : option string
}.

(** The state of an [ErrorHandler] object: [self.errors] and
    [self.error_counts], a dict with one key per category. *)
Record ErrorHandler : Type := mkErrorHandler {
  errors : list ExtractionError;
  error_counts : ErrorCategory -> nat
}.

(** [ErrorHandler.__init__]. *)
Definition ErrorHandler_init : ErrorHandler :=
  {| errors := []; error_counts := fun _ => 0 |}.

(** [ErrorHandler.reset]. *)
Definition reset (h : ErrorHandler) : ErrorHandler :=
  {| errors := []; error_counts := fun _ => 0 |}.

(** [ErrorHandler._log_error]. *)
Definition _log_error (error : ExtractionError) (h : ErrorHandler) : ErrorHandler :=
  {| errors := errors h ++ [error];
     error_counts := fun cat =>
       if category_eqb cat (category error)
       then error_counts h cat + 1
       else error_counts h cat |}.

(** [set(a).intersection(set(b))] and [set(a).union(set(b))], by size. *)
Definition word_set (l : list string) : list string := nodup string_dec l.

Definition intersection_size (a b : list string) : nat :=
  List.length (filter (fun w => existsb (String.eqb w) b) (word_set a)).

Definition union_size (a b : list string) : nat :=
  List.length (word_set (a ++ b)).

(** The loop of [ErrorHandler._find_similar_sheets] with the list
    [similar_sheets] built so far.  The test [similarity >= threshold] with
    the default threshold 0.6 compares the float quotient of two small
    counts with the float nearest to 3/5; it is written on the counts as
    [3 * union <= 5 * intersection]. *)
Fixpoint find_similar_loop (target_lower : string) (available_sheets : list string)
    (similar_sheets : list string) : list string :=
  match available_sheets with
  | [] => similar_sheets
  | sheet :: rest =>
      let sheet_lower := lower sheet in
      if String.eqb target_lower sheet_lower then [sheet]
      else if contains target_lower sheet_lower || contains sheet_lower target_lower
      then find_similar_loop target_lower rest (similar_sheets ++ [sheet])
      else
        let target_words := split target_lower in
        let sheet_words := split sheet_lower in
        match target_words, sheet_words with
        | _ :: _, _ :: _ =>
            if 3 * union_size target_words sheet_words
                 <=? 5 * intersection_size target_words sheet_words
            then find_similar_loop target_lower rest (similar_sheets ++ [sheet])
            else find_similar_loop target_lower rest similar_sheets
        | _, _ => find_similar_loop target_lower rest similar_sheets
        end
  end.

Definition _find_similar_sheets (target_sheet : string) (available_sheets : list string)
    : list string :=
  find_similar_loop (lower target_sheet) available_sheets [].

(** [ErrorHandler.handle_missing_sheet]. *)
Definition handle_missing_sheet (field sheet : string) (available_sheets : list string)
    (h : ErrorHandler) : PyValue * ErrorHandler :=
  let similar_sheets := _find_similar_sheets sheet available_sheets in
  let fix_text :=
    match similar_sheets with
    | [] => None
    | _ => Some ("Similar sheets found: " ++ join ", " (firstn 3 similar_sheets))
    end in
  let error :=
    {| category := MISSING_SHEET;
       field_name := field;
       sheet_name := sheet;
       cell_address := "N/A";
       error_message := "Sheet '" ++ sheet ++ "' not found in workbook";
       original_value := None;
       suggested_fix := fix_text |} in
  (np_nan, _log_error error h).

(** [ErrorHandler.handle_invalid_cell_address]. *)
Definition handle_invalid_cell_address (field sheet address error_msg : string)
    (h : ErrorHandler) : PyValue * ErrorHandler :=
  let error :=
    {| category := INVALID_CELL_ADDRESS;
       field_name := field;
       sheet_name := sheet;
       cell_address := address;
       error_message := "Invalid cell address format: " ++ error_msg;
       original_value := None;
       suggested_fix := Some "Check cell address format (e.g., 'A1', 'B10', '$C$5')" |} in
  (np_nan, _log_error error h).

(** [ErrorHandler.handle_cell_not_found]; [sheet_size] is the optional pair
    [(max_row, max_col)]. *)
Definition handle_cell_not_found (field sheet address : string)
    (sheet_size : option (nat * Z)) (h : ErrorHandler) : PyValue * ErrorHandler :=
  let fix_text :=
    match sheet_size with
    | Some (max_row, max_col) =>
        "Sheet has " ++ str_of_nat max_row ++ " rows and " ++ str_of_Z max_col ++ " columns"
    | None => "Check if cell address is within sheet bounds"
    end in
  let error :=
    {| category := CELL_NOT_FOUND;
       field_name := field;
       sheet_name := sheet;
       cell_address := address;
       error_message := "Cell " ++ address ++ " not found or outside sheet bounds";
       original_value := None;
       suggested_fix := Some fix_text |} in
  (np_nan, _log_error error h).

(** The dict [error_meanings] of [handle_formula_error], with its default. *)
Definition error_meaning (formula_error : string) : string :=
  if String.eqb formula_error "#REF!" then "Invalid cell reference"
  else if String.eqb formula_error "#VALUE!" then "Wrong data type for operation"
  else if String.eqb formula_error "#DIV/0!" then "Division by zero"
  else if String.eqb formula_error "#NAME?" then "Unrecognized function or name"
  else if String.eqb formula_error "#N/A" then "Value not available"
  else if String.eqb formula_error "#NULL!" then "Incorrect range operator"
  else if String.eqb formula_error "#NUM!" then "Invalid numeric value"
  else "Unknown formula error".

(** [ErrorHandler.handle_formula_error]. *)
Definition handle_formula_error (field sheet address formula_error : string)
    (h : ErrorHandler) : PyValue * ErrorHandler :=
  let error :=
    {| category := FORMULA_ERROR;
       field_name := field;
       sheet_name := sheet;
       cell_address := address;
       error_message :=
         "Formula error " ++ formula_error ++ ": " ++ error_meaning formula_error;
       original_value := Some (VStr formula_error);
       suggested_fix := Some ("Fix formula causing " ++ formula_error ++ " error") |} in
  (np_nan, _log_error error h).

(** [ErrorHandler.handle_data_type_error].  The message formats [value] with
    an f-string, which calls [str(value)] and raises when that raises. *)
Definition handle_data_type_error (field sheet address : string) (value : PyValue)
    (expected_type : string) (h : ErrorHandler) : Result PyValue * ErrorHandler :=
  match py_str value with
  | Raise msg => (Raise msg, h)
  | Ok text =>
      let error :=
        {| category := DATA_TYPE_ERROR;
           field_name := field;
           sheet_name := sheet;
           cell_address := address;
           error_message := "Cannot convert '" ++ text ++ "' to " ++ expected_type;
           original_value := Some value;
           suggested_fix := Some ("Ensure cell contains valid " ++ expected_type ++ " data") |} in
      (Ok np_nan, _log_error error h)
  end.

(** [ErrorHandler.handle_empty_value]. *)
Definition handle_empty_value (field sheet address : string) (treat_as_error : bool)
    (h : ErrorHandler) : PyValue * ErrorHandler :=
  if treat_as_error
  then
    let error :=
      {| category := EMPTY_VALUE;
         field_name := field;
         sheet_name := sheet;
         cell_address := address;
         error_message := "Cell is empty or contains null value";
         original_value := None;
         suggested_fix := Some "Verify if this field should contain data" |} in
    (np_nan, _log_error error h)
  else (np_nan, h).

(** [ErrorHandler.handle_parsing_error]. *)
Definition handle_parsing_error (field sheet address error_msg : string)
    (h : ErrorHandler) : PyValue * ErrorHandler :=
  let error :=
    {| category := PARSING_ERROR;
       field_name := field;
       sheet_name := sheet;
       cell_address := address;
       error_message := "Parsing error: " ++ error_msg;
       original_value := None;
       suggested_fix := Some "Check cell content format and data validity" |} in
  (np_nan, _log_error error h).

(** [ErrorHandler.handle_file_access_error]. *)
Definition handle_file_access_error (field error_msg : string)
    (h : ErrorHandler) : PyValue * ErrorHandler :=
  let error :=
    {| category := FILE_ACCESS_ERROR;
       field_name := field;
       sheet_name := "N/A";
       cell_address := "N/A";
       error_message := "File access error: " ++ error_msg;
       original_value := None;
       suggested_fix := Some "Check file path, permissions, and file format" |} in
  (np_nan, _log_error error h).

(** [ErrorHandler.handle_unknown_error]. *)
Definition handle_unknown_error (field sheet address error_msg : string)
    (h : ErrorHandler) : PyValue * ErrorHandler :=
  let error :=
    {| category := UNKNOWN_ERROR;
       field_name := field;
       sheet_name := sheet;
       cell_address := address;
       error_message := "Unexpected error: " ++ error_msg;
       original_value := None;
       suggested_fix := Some "Contact support with error details" |} in
  (np_nan, _log_error error h).

(** The lists [excel_errors] and [missing_indicators] of
    [process_cell_value]. *)
Definition excel_errors : list string :=
  ["#REF!"; "#VALUE!"; "#DIV/0!"; "#NAME?"; "#N/A"; "#NULL!"; "#NUM!"].

Definition missing_indicators : list string :=
  ["n/a"; "na"; "null"; "none"; ""; "-"; "tbd"; "tba"].

(** [x in l] for a list of strings. *)
Definition str_in (x : string) (l : list string) : bool := existsb (String.eqb x) l.

(** Lifting a handler that cannot raise. *)
Definition returned {A S : Type} (r : A * S) : Result A * S := (Ok (fst r), snd r).

(** [ErrorHandler.process_cell_value].  [bool] is a subclass of [int], so a
    boolean leaves through the numeric branch. *)
Definition process_cell_value (value : PyValue) (field sheet address : string)
    (h : ErrorHandler) : Result PyValue * ErrorHandler :=
  match value with
  | VNone => returned (handle_empty_value field sheet address false h)
  | VStr s =>
      if String.eqb s "" then returned (handle_empty_value field sheet address false h)
      else
        match find (fun error_code => contains error_code s) excel_errors with
        | Some error_code =>
            returned (handle_formula_error field sheet address error_code h)
        | None =>
            if str_in (strip (lower s)) missing_indicators
            then returned (handle_empty_value field sheet address false h)
            else (Ok (VStr (strip s)), h)
        end
  | VInt _ => (Ok value, h)
  | VFloat f =>
      if float_non_finite f
      then returned (handle_empty_value field sheet address false h)
      else (Ok value, h)
  | VBool _ => (Ok value, h)
  | VDatetime _ => (Ok value, h)
  | VOther str_result =>
      match str_result with
      | Some s => (Ok (VStr s), h)
      | None => handle_data_type_error field sheet address value "string" h
      end
  end.

(** One entry of [most_common_errors]. *)
Record CommonError : Type := mkCommonError {
  ce_category : string;
  ce_message : string;
  ce_count : nat;
  ce_example_field : string;
  ce_suggested_fix : option string
}.

(** One entry of [detailed_errors] (without its time stamp). *)
Record DetailedError : Type := mkDetailedError {
  de_field_name : string;
  de_category : string;
  de_sheet_name : string;
  de_cell_address : string;
  de_error_message : string;
  de_suggested_fix : option string
}.

(** The texts appended by [_generate_recommendations], by subject. *)
Inductive Recommendation : Type :=
| RecMissingSheets
| RecFormulaErrors
| RecInvalidAddresses
| RecManyEmptyValues
| RecDataTypeIssues
| RecReviewDetailedList.

(** [ErrorHandler._generate_recommendations]. *)
Definition _generate_recommendations (h : ErrorHandler) : list Recommendation :=
  (if 0 <? error_counts h MISSING_SHEET then [RecMissingSheets] else []) ++
  (if 0 <? error_counts h FORMULA_ERROR then [RecFormulaErrors] else []) ++
  (if 0 <? error_counts h INVALID_CELL_ADDRESS then [RecInvalidAddresses] else []) ++
  (if 5 <? error_counts h EMPTY_VALUE then [RecManyEmptyValues] else []) ++
  (if 0 <? error_counts h DATA_TYPE_ERROR then [RecDataTypeIssues] else []) ++
  (if 0 <? List.length (errors h) then [RecReviewDetailedList] else []).

(** The dict [error_messages] of [get_error_summary], keyed by
    [f"{category.value}_{message}"], in insertion order. *)
Fixpoint count_message (key : string) (error : ExtractionError)
    (error_messages : list (string * CommonError)) : list (string * CommonError) :=
  match error_messages with
  | [] =>
      [(key, {| ce_category := category_value (category error);
                ce_message := error_message error;
                ce_count := 1;
                ce_example_field := field_name error;
                ce_suggested_fix := suggested_fix error |})]
  | (k, e) :: rest =>
      if String.eqb k key
      then (k, {| ce_category := ce_category e;
                  ce_message := ce_message e;
                  ce_count := ce_count e + 1;
                  ce_example_field := ce_example_field e;
                  ce_suggested_fix := ce_suggested_fix e |}) :: rest
      else (k, e) :: count_message key error rest
  end.

Definition message_key (error : ExtractionError) : string :=
  category_value (category error) ++ "_" ++ error_message error.

Definition group_messages (l : list ExtractionError) : list (string * CommonError) :=
  fold_left (fun acc error => count_message (message_key error) error acc) l [].

(** [sorted(..., key=lambda x: x["count"], reverse=True)]: a stable sort by
    decreasing count. *)
Fixpoint insert_by_count (x : CommonError) (l : list CommonError) : list CommonError :=
  match l with
  | [] => [x]
  | y :: ys =>
      if ce_count y <=? ce_count x then x :: y :: ys
      else y :: insert_by_count x ys
  end.

Definition sort_by_count (l : list CommonError) : list CommonError :=
  fold_right insert_by_count [] l.

(** The dict returned by [get_error_summary].  In [error_breakdown_by_category]
    the percentage is [round(count / total_errors * 100, 1)], a float computed
    from the two counts kept here. *)
Inductive ErrorSummary : Type :=
| NoErrorsSummary
| FullSummary
    (total_errors : nat)
    (error_breakdown_by_category : list (string * nat))
    (most_common_errors : list CommonError)
    (recommendations : list Recommendation)
    (detailed_errors : list DetailedError).

Definition detail_of (error : ExtractionError) : DetailedError :=
  {| de_field_name := field_name error;
     de_category := category_value (category error);
     de_sheet_name := sheet_name error;
     de_cell_address := cell_address error;
     de_error_message := error_message error;
     de_suggested_fix := suggested_fix error |}.

(** [ErrorHandler.get_error_summary]. *)
Definition get_error_summary (h : ErrorHandler) : ErrorSummary :=
  match errors h with
  | [] => NoErrorsSummary
  | _ =>
      FullSummary
        (List.length (errors h))
        (flat_map (fun cat =>
                     if 0 <? error_counts h cat
                     then [(category_value cat, error_counts h cat)]
                     else [])
                  all_categories)
        (firstn 10 (sort_by_count (map snd (group_messages (errors h)))))
        (_generate_recommendations h)
        (map detail_of (errors h))
  end.

(** The number of diagnostics a summary reports. *)
Definition summary_total (s : ErrorSummary) : nat :=
  match s with
  | NoErrorsSummary => 0
  | FullSummary total _ _ _ _ => total
  end.

(** The diagnostics a summary lists. *)
Definition summary_details (s : ErrorSummary) : list DetailedError :=
  match s with
  | NoErrorsSummary => []
  | FullSummary _ _ _ _ details => details
  end.

(* ===================================================================== *)
(** ** excel_extraction_system.py: the mapping table *)
(* ===================================================================== *)

(** A Python dict with string keys: an association list in insertion order
    with no key twice.  [dict_set] is [d[key] = value]. *)
Section Dict.
Context {V : Type}.

Fixpoint dict_set (key : string) (value : V) (d : list (string * V)) : list (string * V) :=
  match d with
  | [] => [(key, value)]
  | (k, x) :: rest =>
      if String.eqb k key then (k, value) :: rest
      else (k, x) :: dict_set key value rest
  end.
End Dict.

Module Mapping.
(** [@dataclass class CellMapping]. *)
Record CellMapping : Type := mkCellMapping {
  category : string;
  description : string;
  sheet_name : string;
  cell_address : string;
  field_name : string
}.
End Mapping.

(** A cell of the data frame read from the reference file: missing ([NaN]),
    a string, or another scalar given by its [str]. *)
Inductive PdCell : Type :=
| PdNaN
| PdStr (s : string)
| PdScalar (text : string).

Definition pd_notna (x : PdCell) : bool :=
  match x with PdNaN => false | _ => true end.

Definition pd_str (x : PdCell) : string :=
  match x with PdNaN => "nan" | PdStr s => s | PdScalar text => text end.

(** A row of the data frame at the four columns [load_mappings] reads:
    B (category), C (description), D (sheet) and G (cell). *)
Record ReferenceRow : Type := mkReferenceRow {
  row_category : PdCell;
  row_description : PdCell;
  row_sheet : PdCell;
  row_cell : PdCell
}.

(** The loop [while "__" in clean_name: clean_name = clean_name.replace("__", "_")],
    run for at most [fuel] rounds. *)
Fixpoint collapse_underscores (fuel : nat) (clean_name : string) : string :=
  match fuel with
  | O => clean_name
  | S fuel' =>
      if contains "__" clean_name
      then collapse_underscores fuel' (replace "__" "_" clean_name)
      else clean_name
  end.

(** [CellMappingParser._clean_field_name]. *)
Definition _clean_field_name (description : string) : string :=
  let clean_name := strip description in
  let clean_name := replace " " "_" clean_name in
  let clean_name := replace "-" "_" clean_name in
  let clean_name := replace "(" "" clean_name in
  let clean_name := replace ")" "" clean_name in
  let clean_name := replace "/" "_" clean_name in
  let clean_name := replace "." "" clean_name in
  let clean_name := upper clean_name in
  collapse_underscores (String.length clean_name) clean_name.

(** Whether the loop of [load_mappings] takes a row. *)
Definition row_loaded (row : ReferenceRow) : bool :=
  pd_notna (row_description row) && pd_notna (row_cell row).

(** The [CellMapping] built from a row that is taken. *)
Definition mapping_of_row (row : ReferenceRow) : Mapping.CellMapping :=
  {| Mapping.category :=
       if pd_notna (row_category row) then pd_str (row_category row)
       else "Uncategorized";
     Mapping.description := pd_str (row_description row);
     Mapping.sheet_name := pd_str (row_sheet row);
     Mapping.cell_address := upper (strip (pd_str (row_cell row)));
     Mapping.field_name := _clean_field_name (pd_str (row_description row)) |}.

(** The body of [CellMappingParser.load_mappings] once the data frame is
    read: the loop over the rows, updating [self.mappings]. *)
Fixpoint load_rows (rows : list ReferenceRow) (mappings : list (string * Mapping.CellMapping))
    : list (string * Mapping.CellMapping) :=
  match rows with
  | [] => mappings
  | row :: rest =>
      if row_loaded row
      then
        let mapping := mapping_of_row row in
        load_rows rest (dict_set (Mapping.field_name mapping) mapping mappings)
      else load_rows rest mappings
  end.

(** [CellMappingParser.load_mappings] on a fresh parser; [frame] is the
    outcome of [pd.read_excel], whose exception is raised again. *)
Definition load_mappings (frame : Result (list ReferenceRow))
    : Result (list (string * Mapping.CellMapping)) :=
  match frame with
  | Raise msg => Raise msg
  | Ok rows => Ok (load_rows rows [])
  end.

(* ===================================================================== *)
(** ** excel_extraction_system.py: workbooks *)
(* ===================================================================== *)

Module pyxlsb.
(** A cell as the row iterator yields it: native 0-based row and column,
    and the value. *)
Record Cell : Type := mkCell { r : Z; c : Z; v : PyValue }.

(** What [sheet.rows()] yields: the rows in order, and the exception the
    iterator raises after them, if any. *)
Record Sheet : Type := mkSheet {
  rows : list (list Cell);
  rows_raise : option string
}.

(** An open [.xlsb] workbook: the sheet names and [get_sheet]. *)
Record Workbook : Type := mkWorkbook {
  sheets : list string;
  get_sheet : string -> Result Sheet
}.
End pyxlsb.

Module openpyxl.
(** An open [.xlsx]/[.xlsm] workbook: the sheet names, and what
    [workbook[sheet_name][cell_address].value] evaluates to or raises. *)
Record Workbook : Type := mkWorkbook {
  sheetnames : list string;
  cell_value : string -> string -> Result PyValue
}.
End openpyxl.

(** The two kinds of handle, told apart in the source by
    [hasattr(workbook, 'sheets')]. *)
Inductive Workbook : Type :=
| Xlsb (wb : pyxlsb.Workbook)
| Xlsx (wb : openpyxl.Workbook).

Definition newline : string := String (ascii_of_nat 10) EmptyString.

(** [re.match(r'^([A-Z]+)(\d+)$', clean_address)] and [match.groups()]: the
    two classes are disjoint, so the greedy runs are the only candidates; a
    Python [$] also matches just before one final line feed. *)
Definition match_address (clean_address : string) : option (string * string) :=
  let '(col_str, rest) := span is_AZ clean_address in
  let '(row_str, tail) := span isdigit rest in
  match col_str, row_str with
  | String _ _, String _ _ =>
      if String.eqb tail "" || String.eqb tail newline
      then Some (col_str, row_str)
      else None
  | _, _ => None
  end.

(** The loop [for char in col_str: target_col = target_col * 26 + (ord(char) - ord('A') + 1)]. *)
Fixpoint column_from (target_col : Z) (col_str : string) : Z :=
  match col_str with
  | EmptyString => target_col
  | String char rest =>
      column_from (target_col * 26 + (Z.of_nat (ord char) - Z.of_nat (ord "A"%char) + 1))%Z rest
  end.

(** The native pair [(target_row, target_col)] computed from the groups. *)
Definition native_target (col_str row_str : string) : Z * Z :=
  ((int_of_digits row_str - 1)%Z, (column_from 0 col_str - 1)%Z).

(** The inner loop [for cell in row_data]. *)
Fixpoint find_in_row (target_row target_col : Z) (row_data : list pyxlsb.Cell)
    : option PyValue :=
  match row_data with
  | [] => None
  | cell :: rest =>
      if (pyxlsb.r cell =? target_row)%Z && (pyxlsb.c cell =? target_col)%Z
      then Some (pyxlsb.v cell)
      else find_in_row target_row target_col rest
  end.

(** The first loop over [sheet.rows()]: empty rows are skipped and not
    counted; the result is the first matching value, if any, and
    [rows_checked]. *)
Fixpoint first_scan (target_row target_col : Z) (rows : list (list pyxlsb.Cell))
    (rows_checked : nat) : option PyValue * nat :=
  match rows with
  | [] => (None, rows_checked)
  | [] :: rest => first_scan target_row target_col rest rows_checked
  | row_data :: rest =>
      match find_in_row target_row target_col row_data with
      | Some found_value => (Some found_value, S rows_checked)
      | None => first_scan target_row target_col rest (S rows_checked)
      end
  end.

(** The second loop, over a fresh [sheet.rows()]. *)
Fixpoint second_scan (target_row target_col : Z) (rows : list (list pyxlsb.Cell))
    : option PyValue :=
  match rows with
  | [] => None
  | row :: rest =>
      match find_in_row target_row target_col row with
      | Some value => Some value
      | None => second_scan target_row target_col rest
      end
  end.

Definition invalid_format_text : string :=
  "Invalid format - expected format like 'A1', 'B10'".

(** The [pyxlsb] branch of the [try] block of [_extract_cell_value]. *)
Definition extract_xlsb (wb : pyxlsb.Workbook) (sheet address field : string)
    (h : ErrorHandler) : Result PyValue * ErrorHandler :=
  if negb (str_in sheet (pyxlsb.sheets wb))
  then returned (handle_missing_sheet field sheet (pyxlsb.sheets wb) h)
  else
    let clean_address := upper (replace "$" "" address) in
    match match_address clean_address with
    | None =>
        returned (handle_invalid_cell_address field sheet address invalid_format_text h)
    | Some (col_str, row_str) =>
        let '(target_row, target_col) := native_target col_str row_str in
        match pyxlsb.get_sheet wb sheet with
        | Raise msg => (Raise msg, h)
        | Ok opened =>
            match first_scan target_row target_col (pyxlsb.rows opened) 0 with
            | (Some found_value, _) =>
                process_cell_value found_value field sheet address h
            | (None, rows_checked) =>
                match pyxlsb.rows_raise opened with
                | Some msg => (Raise msg, h)
                | None =>
                    match pyxlsb.get_sheet wb sheet with
                    | Raise msg => (Raise msg, h)
                    | Ok reopened =>
                        match second_scan target_row target_col (pyxlsb.rows reopened) with
                        | Some value => process_cell_value value field sheet address h
                        | None =>
                            match pyxlsb.rows_raise reopened with
                            | Some msg => (Raise msg, h)
                            | None =>
                                returned (handle_cell_not_found field sheet address
                                            (Some (rows_checked, (target_col + 1)%Z)) h)
                            end
                        end
                    end
                end
            end
        end
    end.

(** The [openpyxl] branch of the [try] block. *)
Definition extract_xlsx (wb : openpyxl.Workbook) (sheet address field : string)
    (h : ErrorHandler) : Result PyValue * ErrorHandler :=
  if negb (str_in sheet (openpyxl.sheetnames wb))
  then returned (handle_missing_sheet field sheet (openpyxl.sheetnames wb) h)
  else
    match openpyxl.cell_value wb sheet address with
    | Raise msg => (Raise msg, h)
    | Ok value => process_cell_value value field sheet address h
    end.

(** The [try] block of [ExcelDataExtractor._extract_cell_value]. *)
Definition extract_cell_try (workbook : Workbook) (sheet address field : string)
    (h : ErrorHandler) : Result PyValue * ErrorHandler :=
  match workbook with
  | Xlsb wb => extract_xlsb wb sheet address field h
  | Xlsx wb => extract_xlsx wb sheet address field h
  end.

(** [ExcelDataExtractor._extract_cell_value]: the [try] block under
    [except Exception as e], which hands [str(e)] to [handle_unknown_error]. *)
Definition _extract_cell_value (workbook : Workbook) (sheet address field : string)
    (h : ErrorHandler) : Result PyValue * ErrorHandler :=
  match extract_cell_try workbook sheet address field h with
  | (Raise msg, h') => returned (handle_unknown_error field sheet address msg h')
  | done => done
  end.

(* ===================================================================== *)
(** ** excel_extraction_system.py: one workbook, many workbooks *)
(* ===================================================================== *)

(** One entry of [extracted_data['_extraction_errors']]. *)
Record FieldError : Type := mkFieldError {
  fe_field : string;
  fe_sheet : string;
  fe_cell : string;
  fe_error : string
}.

(** [extracted_data['_extraction_metadata']] (without [duration_seconds]). *)
Record ExtractionMetadata : Type := mkExtractionMetadata {
  total_fields : nat;
  successful : nat;
  failed : nat;
  error_summary : ErrorSummary
}.

(** The dict [extracted_data] returned by [extract_from_file]: the entries
    under the reserved keys, and the entries keyed by field name in
    [field_values] (without [_extraction_timestamp]). *)
Record ExtractionRecord : Type := mkExtractionRecord {
  _file_path : string;
  field_values : list (string * PyValue);
  _extraction_errors : list FieldError;
  _extraction_metadata : ExtractionMetadata
}.

(** The state of an [ExcelDataExtractor] object. *)
Record ExcelDataExtractor : Type := mkExcelDataExtractor {
  mappings : list (string * Mapping.CellMapping);
  error_handler : ErrorHandler
}.

(** [ExcelDataExtractor.__init__]. *)
Definition ExcelDataExtractor_init (cell_mappings : list (string * Mapping.CellMapping))
    : ExcelDataExtractor :=
  {| mappings := cell_mappings; error_handler := ErrorHandler_init |}.

(** The variables the loop over [self.mappings.items()] updates. *)
Record LoopState : Type := mkLoopState {
  ls_values : list (string * PyValue);
  ls_errors : list FieldError;
  successful_extractions : nat;
  failed_extractions : nat
}.

(** The loop [for field_name, mapping in self.mappings.items()] with its
    [try]/[except] around the call of [_extract_cell_value]. *)
Fixpoint extract_fields (workbook : Workbook) (items : list (string * Mapping.CellMapping))
    (st : LoopState) (h : ErrorHandler) : LoopState * ErrorHandler :=
  match items with
  | [] => (st, h)
  | (field, mapping) :: rest =>
      match _extract_cell_value workbook (Mapping.sheet_name mapping)
              (Mapping.cell_address mapping) field h with
      | (Ok value, h') =>
          extract_fields workbook rest
            {| ls_values := dict_set field value (ls_values st);
               ls_errors := ls_errors st;
               successful_extractions := successful_extractions st + 1;
               failed_extractions := failed_extractions st |} h'
      | (Raise msg, h') =>
          extract_fields workbook rest
            {| ls_values := dict_set field np_nan (ls_values st);
               ls_errors := ls_errors st ++
                 [{| fe_field := field;
                     fe_sheet := Mapping.sheet_name mapping;
                     fe_cell := Mapping.cell_address mapping;
                     fe_error := msg |}];
               successful_extractions := successful_extractions st;
               failed_extractions := failed_extractions st + 1 |} h'
      end
  end.

(** [ExcelDataExtractor.extract_from_file].  [loaded] is the outcome of the
    existence check and of [_load_xlsb] / [_load_xlsx] on the file: the open
    workbook, or the exception, which is raised again. *)
Definition extract_from_file (self : ExcelDataExtractor) (file_path : string)
    (loaded : Result Workbook) : Result ExtractionRecord * ExcelDataExtractor :=
  match loaded with
  | Raise msg => (Raise msg, self)
  | Ok workbook =>
      let '(st, h) :=
        extract_fields workbook (mappings self)
          {| ls_values := []; ls_errors := [];
             successful_extractions := 0; failed_extractions := 0 |}
          (error_handler self) in
      (Ok {| _file_path := file_path;
             field_values := ls_values st;
             _extraction_errors := ls_errors st;
             _extraction_metadata :=
               {| total_fields := List.length (mappings self);
                  successful := successful_extractions st;
                  failed := failed_extractions st;
                  error_summary := get_error_summary h |} |},
       {| mappings := mappings self; error_handler := h |})
  end.

(** An element of [file_list]: the path, the outcome of opening the file,
    and the deal data copied into the result. *)
Record FileInfo : Type := mkFileInfo {
  fi_file_path : string;
  fi_loaded : Result Workbook;
  fi_deal_name : option string;
  fi_deal_stage : option string;
  fi_modified_date : option string
}.

(** What [_process_single_file] returns: the record and the three keys it
    adds. *)
Record ProcessedFile : Type := mkProcessedFile {
  extracted_data : ExtractionRecord;
  _deal_name : option string;
  _deal_stage : option string;
  _file_modified_date : option string
}.

(** [BatchFileProcessor._process_single_file]. *)
Definition _process_single_file (extractor : ExcelDataExtractor) (file_info : FileInfo)
    : Result ProcessedFile * ExcelDataExtractor :=
  match extract_from_file extractor (fi_file_path file_info) (fi_loaded file_info) with
  | (Raise msg, extractor') => (Raise msg, extractor')
  | (Ok data, extractor') =>
      (Ok {| extracted_data := data;
             _deal_name := fi_deal_name file_info;
             _deal_stage := fi_deal_stage file_info;
             _file_modified_date := fi_modified_date file_info |},
       extractor')
  end.

(** [BatchFileProcessor.process_files] with the files handled one after the
    other in list order (the schedule of a pool of one worker): the results
    collected in [processed_results], the failures in [failed_files], and
    the extractor [self.extractor] they all share.  The source submits the
    files to a [ThreadPoolExecutor] and collects with [as_completed], so the
    order in which results and failures are appended is the order in which
    the files complete, not the order of [file_list]: the list given here
    stands for that order, and what is stated of the order of a batch is
    stated for every rearrangement of the files.  Runs in which the calls of
    several workers interleave on the shared handler are not among the runs
    of this function. *)
Fixpoint process_files_from (extractor : ExcelDataExtractor) (file_list : list FileInfo)
    (processed_results : list ProcessedFile) (failed_files : list (FileInfo * string))
    : list ProcessedFile * list (FileInfo * string) * ExcelDataExtractor :=
  match file_list with
  | [] => (processed_results, failed_files, extractor)
  | file_info :: rest =>
      match _process_single_file extractor file_info with
      | (Ok result, extractor') =>
          process_files_from extractor' rest (processed_results ++ [result]) failed_files
      | (Raise msg, extractor') =>
          process_files_from extractor' rest processed_results
            (failed_files ++ [(file_info, msg)])
      end
  end.

Definition process_files (extractor : ExcelDataExtractor) (file_list : list FileInfo)
    : list ProcessedFile :=
  fst (fst (process_files_from extractor file_list [] [])).

(* ===================================================================== *)
(** ** Specification-side notions and sample workbooks *)
(* ===================================================================== *)

(** [logs_one cat h h']: going from [h] to [h'] appended exactly one
    diagnostic, of category [cat], and added one to the counter of [cat]
    and to no other. *)
Definition logs_one (cat : ErrorCategory) (h h' : ErrorHandler) : Prop :=
  (exists error, errors h' = (errors h ++ [error])%list /\ category error = cat) /\
  error_counts h' cat = error_counts h cat + 1 /\
  (forall other, other <> cat -> error_counts h' other = error_counts h other).

(** [logs_at_most_one h h']: nothing was recorded, or one diagnostic was. *)
Definition logs_at_most_one (h h' : ErrorHandler) : Prop :=
  h' = h \/ exists cat, logs_one cat h h'.

(** A value that is there: not [None], not [NaN], not an infinity. *)
Definition is_present (value : PyValue) : bool :=
  match value with
  | VNone => false
  | VFloat f => negb (float_non_finite f)
  | _ => true
  end.

(** [occurs x s]: the character [x] is somewhere in [s]. *)
Fixpoint occurs (x : ascii) (s : string) : bool :=
  match s with
  | EmptyString => false
  | String ch s' => Ascii.eqb ch x || occurs x s'
  end.

(** The null sentinels as the specification lists them. *)
Definition null_sentinels : list string :=
  ["n/a"; "na"; "null"; "none"; ""; "-"; "tbd"; "tba"].

(** The raw values the specification calls empty: null; a string which,
    trimmed and then lower-cased, is a null sentinel; a number that is NaN
    or infinite. *)
Inductive MissingInput : PyValue -> Prop :=
| missing_null : MissingInput VNone
| missing_sentinel (s : string) :
    In (lower (strip s)) null_sentinels -> MissingInput (VStr s)
| missing_nan : MissingInput (VFloat S754_nan)
| missing_infinite (sign : bool) : MissingInput (VFloat (S754_infinity sign)).

(** The seven formula error codes as the specification lists them. *)
Definition formula_error_codes : list string :=
  ["#REF!"; "#VALUE!"; "#DIV/0!"; "#NAME?"; "#N/A"; "#NULL!"; "#NUM!"].

(** A handler call [r] made in state [h] classifies under [cat]: it returns
    the NaN marker, appends one diagnostic of that category and adds one to
    that counter alone. *)
Definition classifies (cat : ErrorCategory) (h : ErrorHandler)
    (r : PyValue * ErrorHandler) : Prop :=
  fst r = np_nan /\ logs_one cat h (snd r).

(** The claim as the specification words it for the EmptyValue
    classification of [process_cell_value]: one [EMPTY_VALUE] diagnostic is
    appended and that counter goes up by one. *)
Definition empty_classification_recorded (value : PyValue)
    (field sheet address : string) (h : ErrorHandler) : Prop :=
  logs_one EMPTY_VALUE h (snd (process_cell_value value field sheet address h)).

(** The addresses [match_address] accepts: a non-empty run of letters A-Z,
    then a non-empty run of digits, then nothing or one final line feed. *)
Definition well_formed_address (s col_str row_str : string) : Prop :=
  col_str <> "" /\ all_chars is_AZ col_str = true /\
  row_str <> "" /\ all_chars isdigit row_str = true /\
  (s = col_str ++ row_str \/ s = col_str ++ row_str ++ newline).



(** The value of the first enumerated cell whose native coordinates are
    [(row, col)], if there is one. *)
Definition cell_at (row col : Z) (rows : list (list pyxlsb.Cell)) : option PyValue :=
  find_in_row row col (concat rows).

(** The number of rows that hold at least one cell. *)
Definition nonempty_rows (rows : list (list pyxlsb.Cell)) : nat :=
  List.length (filter (fun row => match row with [] => false | _ => true end) rows).

(** A workbook of the first kind with one sheet, ["Summary"], holding the
    number 154 at native row 5, column 3. *)
Definition summary_xlsb : pyxlsb.Workbook :=
  {| pyxlsb.sheets := ["Summary"];
     pyxlsb.get_sheet := fun _ =>
       Ok {| pyxlsb.rows :=
               [[]; [{| pyxlsb.r := 5%Z; pyxlsb.c := 3%Z;
                        pyxlsb.v := VFloat (S754_finite false 77 1) |}]];
             pyxlsb.rows_raise := None |} |}.

(** The claim as the specification words it, for one lookup: the address
    that fails the match is classified [INVALID_CELL_ADDRESS]. *)
Definition invalid_address_classified (workbook : Workbook)
    (sheet address field : string) (h : ErrorHandler) : Prop :=
  exists error,
    errors (snd (_extract_cell_value workbook sheet address field h))
      = (errors h ++ [error])%list /\
    category error = INVALID_CELL_ADDRESS.

(** A workbook of the second kind with one sheet, ["Summary"]; the lookup of
    ["6D"] raises as the library does for a string that is no coordinate. *)
Definition summary_xlsx : openpyxl.Workbook :=
  {| openpyxl.sheetnames := ["Summary"];
     openpyxl.cell_value := fun _ address =>
       if String.eqb address "6D"
       then Raise "6D is not a valid coordinate or range"
       else Ok VNone |}.

(** One mapping entry, [UNITS] at [Summary!D6]. *)
Definition units_mapping : list (string * Mapping.CellMapping) :=
  [("UNITS",
    {| Mapping.category := "General";
       Mapping.description := "Units";
       Mapping.sheet_name := "Summary";
       Mapping.cell_address := "D6";
       Mapping.field_name := "UNITS" |})].

(** A workbook of the first kind without the sheet ["Summary"]. *)
Definition rent_roll_xlsb : pyxlsb.Workbook :=
  {| pyxlsb.sheets := ["Rent Roll"];
     pyxlsb.get_sheet := fun _ => Ok {| pyxlsb.rows := []; pyxlsb.rows_raise := None |} |}.

(** The diagnostic content of a record: category and message of every entry
    of the attached summary. *)
Definition diagnostic_content (record : ExtractionRecord) : list (string * string) :=
  map (fun d => (de_category d, de_error_message d))
      (summary_details (error_summary (_extraction_metadata record))).




(** The number of diagnostics of category [cat] in a list. *)
Definition recorded (cat : ErrorCategory) (l : list ExtractionError) : nat :=
  List.length (filter (fun error => category_eqb (category error) cat) l).

(** The counters of a handler agree with its diagnostic list: each counter
    is the number of diagnostics of its category. *)
Definition counters_agree (h : ErrorHandler) : Prop :=
  forall cat, error_counts h cat = recorded cat (errors h).

(** The categories a cell lookup can record. *)
Definition lookup_categories : list ErrorCategory :=
  [MISSING_SHEET; INVALID_CELL_ADDRESS; CELL_NOT_FOUND; FORMULA_ERROR; UNKNOWN_ERROR].

(** One cell lookup took the handler from [h] to [h']: nothing recorded, or
    one diagnostic of a lookup category. *)
Definition lookup_step (h h' : ErrorHandler) : Prop :=
  h' = h \/ exists cat, In cat lookup_categories /\ logs_one cat h h'.

(** A sequence of cell lookups took the handler from [h] to [h']. *)
Inductive lookup_steps : ErrorHandler -> ErrorHandler -> Prop :=
| lookup_steps_refl (h : ErrorHandler) : lookup_steps h h
| lookup_steps_next (h h1 h2 : ErrorHandler) :
    lookup_step h h1 -> lookup_steps h1 h2 -> lookup_steps h h2.

(** [d.get(key)] on a dict: the value stored under [key], if any. *)
Fixpoint dict_get {V : Type} (key : string) (d : list (string * V)) : option V :=
  match d with
  | [] => None
  | (k, x) :: rest => if String.eqb k key then Some x else dict_get key rest
  end.

(** [list(d.keys())]. *)
Definition dict_keys {V : Type} (d : list (string * V)) : list string := map fst d.

(** The field name [load_mappings] derives for a row. *)
Definition row_field_name (row : ReferenceRow) : string :=
  _clean_field_name (pd_str (row_description row)).

(** Two rows whose descriptions differ only in case. *)
Definition units_row_first : ReferenceRow :=
  {| row_category := PdStr "General";
     row_description := PdStr "Units";
     row_sheet := PdStr "Summary";
     row_cell := PdStr "G6" |}.

Definition units_row_second : ReferenceRow :=
  {| row_category := PdStr "Rent Roll";
     row_description := PdStr "units";
     row_sheet := PdStr "Rent Roll";
     row_cell := PdStr "B2" |}.

(** The module-level function [process_cell_value_with_error_handling]: a
    new handler is made when none is passed; the value is returned, and the
    handler passed, if any, has been updated. *)
Definition process_cell_value_with_error_handling (value : PyValue)
    (field sheet address : string) (error_handler : option ErrorHandler)
    : Result PyValue * option ErrorHandler :=
  match error_handler with
  | None => (fst (process_cell_value value field sheet address ErrorHandler_init), None)
  | Some h =>
      (fst (process_cell_value value field sheet address h),
       Some (snd (process_cell_value value field sheet address h)))
  end.

(** [ExcelDataExtractor._process_cell_value], the earlier value cleaner of
    the extractor. *)
Definition _process_cell_value (value : PyValue) : PyValue :=
  match value with
  | VNone => np_nan
  | VStr s =>
      if String.eqb s "" then np_nan
      else if existsb (fun err => contains err s) excel_errors then np_nan
      else value
  | _ => value
  end.

(** The diagnostics of a list whose category and message give the key
    [key]. *)
Definition with_key (key : string) (l : list ExtractionError) : list ExtractionError :=
  filter (fun error => String.eqb (message_key error) key) l.

(** The order of [most_common_errors]: the count does not increase. *)
Definition by_count_desc (a b : CommonError) : Prop := ce_count b <= ce_count a.

(** The sum of the counts of a list of groups. *)
Definition total_count (l : list CommonError) : nat :=
  fold_right Nat.add 0 (map ce_count l).

(** What is known of the groups [groups] built from the diagnostics [done]:
    no key twice, the counts add up to the number of diagnostics, and the
    group under a key counts the diagnostics with that key and carries the
    category and the message the key is made of. *)
Definition groups_count (groups : list (string * CommonError))
    (done : list ExtractionError) : Prop :=
  NoDup (dict_keys groups) /\
  total_count (map snd groups) = List.length done /\
  forall key,
    match dict_get key groups with
    | Some e =>
        ce_count e = List.length (with_key key done) /\
        0 < ce_count e /\
        key = ce_category e ++ "_" ++ ce_message e
    | None => with_key key done = []
    end.

(** The dict [summary] built by [_generate_processing_summary] (without the
    average of the durations) before it is logged and written out. *)
Record ProcessingSummary : Type := mkProcessingSummary {
  total_processed : nat;
  total_failed : nat;
  total_fields_extracted : nat;
  summary_failed_files : list string
}.

(** [BatchFileProcessor._generate_processing_summary]. *)
Definition _generate_processing_summary (results : list ProcessedFile)
    (failed_files : list (FileInfo * string)) : ProcessingSummary :=
  {| total_processed := List.length results;
     total_failed := List.length failed_files;
     total_fields_extracted :=
       list_sum (map (fun r => successful (_extraction_metadata (extracted_data r)))
                     results);
     summary_failed_files := map (fun f => fi_file_path (fst f)) failed_files |}.

(** Whether a file of the list opens. *)
Definition opens (file_info : FileInfo) : bool :=
  match fi_loaded file_info with Ok _ => true | Raise _ => false end.

(** [pd.isna(value)] on a scalar. *)
Definition pd_isna (value : PyValue) : bool :=
  match value with
  | VNone => true
  | VFloat S754_nan => true
  | _ => false
  end.

(** The module-level function [validate_extracted_data]: the required
    fields that are not in [data] or hold a missing value, in the order
    asked, and whether there is none. *)
Definition validate_extracted_data (data : list (string * PyValue))
    (required_fields : list string) : bool * list string :=
  let missing_fields :=
    filter (fun field =>
              match dict_get field data with
              | None => true
              | Some value => pd_isna value
              end) required_fields in
  (Nat.eqb (List.length missing_fields) 0, missing_fields).

(** The row [_insert_extraction_metadata] of [src/database/data_loader.py]
    inserts for the metadata of a record (without the extraction id and the
    duration).  The metadata dict built by [extract_from_file] has no key
    ['errors'] and no key ['warnings'], so both [metadata.get(..., [])]
    give the empty list. *)
Record MetadataRow : Type := mkMetadataRow {
  total_fields_attempted : Z;
  successful_extractions_stored : Z;
  failed_extractions_stored : Z;
  error_count : nat;
  warnings_count : nat
}.

Definition _insert_extraction_metadata (metadata : ExtractionMetadata) : MetadataRow :=
  {| total_fields_attempted := Z.of_nat (total_fields metadata);
     successful_extractions_stored := Z.of_nat (successful metadata);
     failed_extractions_stored :=
       (Z.of_nat (total_fields metadata) - Z.of_nat (successful metadata))%Z;
     error_count := List.length (@nil string);
     warnings_count := List.length (@nil string) |}.

(** The lookup reads the raw value [value] at the address: on a [pyxlsb]
    workbook the sheet is there, the cleaned address matches, the sheet
    opens and the first cell enumerated at the native target holds [value];
    on an [openpyxl] workbook the sheet is there and the library returns
    [value] for the address. *)
Inductive cell_read : Workbook -> string -> string -> PyValue -> Prop :=
| read_xlsb (wb : pyxlsb.Workbook) (sheet address col_str row_str : string)
    (opened : pyxlsb.Sheet) (value : PyValue) :
    str_in sheet (pyxlsb.sheets wb) = true ->
    match_address (upper (replace "$" "" address)) = Some (col_str, row_str) ->
    pyxlsb.get_sheet wb sheet = Ok opened ->
    cell_at (fst (native_target col_str row_str)) (snd (native_target col_str row_str))
            (pyxlsb.rows opened) = Some value ->
    cell_read (Xlsb wb) sheet address value
| read_xlsx (wb : openpyxl.Workbook) (sheet address : string) (value : PyValue) :
    str_in sheet (openpyxl.sheetnames wb) = true ->
    openpyxl.cell_value wb sheet address = Ok value ->
    cell_read (Xlsx wb) sheet address value.

(** The failures of a lookup other than an empty value, each with the
    category the code files it under: the sheet is not in the workbook; the
    cleaned address fails the match ([pyxlsb] branch); the sheet was
    enumerated to its end without the target cell ([pyxlsb] branch); the
    text read holds a formula error code; the [try] block raised. *)
Inductive lookup_failure (field : string) (h : ErrorHandler)
    : Workbook -> string -> string -> ErrorCategory -> Prop :=
| failure_missing_sheet_xlsb (wb : pyxlsb.Workbook) (sheet address : string) :
    str_in sheet (pyxlsb.sheets wb) = false ->
    lookup_failure field h (Xlsb wb) sheet address MISSING_SHEET
| failure_missing_sheet_xlsx (wb : openpyxl.Workbook) (sheet address : string) :
    str_in sheet (openpyxl.sheetnames wb) = false ->
    lookup_failure field h (Xlsx wb) sheet address MISSING_SHEET
| failure_address (wb : pyxlsb.Workbook) (sheet address : string) :
    str_in sheet (pyxlsb.sheets wb) = true ->
    match_address (upper (replace "$" "" address)) = None ->
    lookup_failure field h (Xlsb wb) sheet address INVALID_CELL_ADDRESS
| failure_cell_not_found (wb : pyxlsb.Workbook) (sheet address col_str row_str : string)
    (opened : pyxlsb.Sheet) :
    str_in sheet (pyxlsb.sheets wb) = true ->
    match_address (upper (replace "$" "" address)) = Some (col_str, row_str) ->
    pyxlsb.get_sheet wb sheet = Ok opened ->
    cell_at (fst (native_target col_str row_str)) (snd (native_target col_str row_str))
            (pyxlsb.rows opened) = None ->
    pyxlsb.rows_raise opened = None ->
    lookup_failure field h (Xlsb wb) sheet address CELL_NOT_FOUND
| failure_formula (workbook : Workbook) (sheet address s error_code : string) :
    cell_read workbook sheet address (VStr s) ->
    In error_code excel_errors ->
    contains error_code s = true ->
    lookup_failure field h workbook sheet address FORMULA_ERROR
| failure_exception (workbook : Workbook) (sheet address msg : string)
    (h0 : ErrorHandler) :
    extract_cell_try workbook sheet address field h = (Raise msg, h0) ->
    lookup_failure field h workbook sheet address UNKNOWN_ERROR.

(** The three ways a cell resolution started in state [h] ends with the
    value [out] and the state [h']: a value was read that is not empty and
    comes back as a value that is there, nothing recorded; an empty value
    was read and the NaN marker comes back, nothing recorded; a failure
    other than an empty value, and the NaN marker comes back together with
    exactly one diagnostic, of the category of that failure, which is one
    of the enumerated categories. *)
Inductive resolution_outcome (workbook : Workbook) (sheet address field : string)
    (h : ErrorHandler) : PyValue -> ErrorHandler -> Prop :=
| outcome_value (value out : PyValue) :
    cell_read workbook sheet address value ->
    ~ MissingInput value ->
    is_present out = true ->
    resolution_outcome workbook sheet address field h out h
| outcome_empty (value : PyValue) :
    cell_read workbook sheet address value ->
    MissingInput value ->
    resolution_outcome workbook sheet address field h np_nan h
| outcome_diagnostic (cat : ErrorCategory) (h' : ErrorHandler) :
    lookup_failure field h workbook sheet address cat ->
    In cat all_categories ->
    logs_one cat h h' ->
    resolution_outcome workbook sheet address field h np_nan h'.

(** The claim as the specification words it, for one resolution: whenever
    the NaN marker comes back, a diagnostic was recorded with it. *)
Definition marker_comes_with_diagnostic (workbook : Workbook)
    (sheet address field : string) (h : ErrorHandler) : Prop :=
  forall out h',
    _extract_cell_value workbook sheet address field h = (Ok out, h') ->
    out = np_nan ->
    exists cat, logs_one cat h h'.




(** A row without a sheet name. *)
Definition sheetless_row : ReferenceRow :=
  {| row_category := PdStr "General";
     row_description := PdStr "Units";
     row_sheet := PdNaN;
     row_cell := PdStr "D6" |}.

(** Three files of a batch: two that open and one that does not. *)
Definition rent_roll_file : FileInfo :=
  {| fi_file_path := "a.xlsb"; fi_loaded := Ok (Xlsb rent_roll_xlsb);
     fi_deal_name := None; fi_deal_stage := None; fi_modified_date := None |}.

Definition summary_file : FileInfo :=
  {| fi_file_path := "b.xlsx"; fi_loaded := Ok (Xlsx summary_xlsx);
     fi_deal_name := None; fi_deal_stage := None; fi_modified_date := None |}.

Definition unreadable_file : FileInfo :=
  {| fi_file_path := "c.xlsb"; fi_loaded := Raise "File is not a zip file";
     fi_deal_name := None; fi_deal_stage := None; fi_modified_date := None |}.

(* ===================================================================== *)
(** * Properties *)
(* ===================================================================== *)

(** ** The error handler *)

Lemma category_eqb_refl (cat : ErrorCategory) : category_eqb cat cat = true.
Proof. destruct cat; reflexivity. Qed.

Lemma category_eqb_eq (a b : ErrorCategory) : category_eqb a b = true <-> a = b.
Proof. destruct a, b; simpl; split; intro H; try reflexivity; discriminate. Qed.

Lemma category_eqb_neq (a b : ErrorCategory) : a <> b -> category_eqb a b = false.
Proof.
  intro H. destruct (category_eqb a b) eqn:E; [|reflexivity].
  apply category_eqb_eq in E. contradiction.
Qed.

Lemma category_enumerated (cat : ErrorCategory) : In cat all_categories.
Proof. destruct cat; simpl; tauto. Qed.

Lemma log_error_logs_one (error : ExtractionError) (h : ErrorHandler) :
  logs_one (category error) h (_log_error error h).
Proof.
  unfold logs_one, _log_error; simpl. repeat split.
  - exists error. split; reflexivity.
  - now rewrite category_eqb_refl.
  - intros other Hneq. now rewrite (category_eqb_neq _ _ Hneq).
Qed.

Ltac handler_logs :=
  match goal with
  | |- logs_one _ ?h (snd (?f _)) => unfold f; simpl
  | _ => idtac
  end;
  match goal with
  | |- logs_one _ ?h (_log_error ?e ?h) => exact (log_error_logs_one e h)
  end.

Lemma missing_sheet_logs field sheet available h :
  logs_one MISSING_SHEET h (snd (handle_missing_sheet field sheet available h)).
Proof. unfold handle_missing_sheet; simpl. handler_logs. Qed.

Lemma invalid_cell_address_logs field sheet address msg h :
  logs_one INVALID_CELL_ADDRESS h (snd (handle_invalid_cell_address field sheet address msg h)).
Proof. unfold handle_invalid_cell_address; simpl. handler_logs. Qed.

Lemma cell_not_found_logs field sheet address size h :
  logs_one CELL_NOT_FOUND h (snd (handle_cell_not_found field sheet address size h)).
Proof. unfold handle_cell_not_found; simpl. handler_logs. Qed.

Lemma formula_error_logs field sheet address code h :
  logs_one FORMULA_ERROR h (snd (handle_formula_error field sheet address code h)).
Proof. unfold handle_formula_error; simpl. handler_logs. Qed.

Lemma parsing_error_logs field sheet address msg h :
  logs_one PARSING_ERROR h (snd (handle_parsing_error field sheet address msg h)).
Proof. unfold handle_parsing_error; simpl. handler_logs. Qed.

Lemma file_access_error_logs field msg h :
  logs_one FILE_ACCESS_ERROR h (snd (handle_file_access_error field msg h)).
Proof. unfold handle_file_access_error; simpl. handler_logs. Qed.

Lemma unknown_error_logs field sheet address msg h :
  logs_one UNKNOWN_ERROR h (snd (handle_unknown_error field sheet address msg h)).
Proof. unfold handle_unknown_error; simpl. handler_logs. Qed.

Lemma empty_value_as_error_logs field sheet address h :
  logs_one EMPTY_VALUE h (snd (handle_empty_value field sheet address true h)).
Proof. unfold handle_empty_value; simpl. handler_logs. Qed.

Lemma data_type_error_logs field sheet address value expected h text :
  py_str value = Ok text ->
  fst (handle_data_type_error field sheet address value expected h) = Ok np_nan /\
  logs_one DATA_TYPE_ERROR h (snd (handle_data_type_error field sheet address value expected h)).
Proof.
  intro Hstr. unfold handle_data_type_error. rewrite Hstr. simpl.
  split; [reflexivity | handler_logs].
Qed.

(** What a call of [process_cell_value] can do: return the marker or a value
    that is there, having recorded at most one diagnostic; or raise, having
    recorded nothing. *)
Lemma process_cell_value_outcome value field sheet address h :
  match process_cell_value value field sheet address h with
  | (Ok out, h') => (out = np_nan \/ is_present out = true) /\ logs_at_most_one h h'
  | (Raise _, h') => h' = h
  end.
Proof.
  destruct value as [| s | z | f | b | iso | [text|]]; unfold process_cell_value.
  - split; [left; reflexivity | left; reflexivity].
  - destruct (String.eqb s "").
    + simpl. split; left; reflexivity.
    + destruct (find (fun error_code => contains error_code s) excel_errors) as [code|].
      * split; [left; reflexivity|].
        right. exists FORMULA_ERROR.
        exact (formula_error_logs field sheet address code h).
      * destruct (str_in (strip (lower s)) missing_indicators).
        -- split; left; reflexivity.
        -- split; [right; reflexivity | left; reflexivity].
  - split; [right; reflexivity | left; reflexivity].
  - destruct (float_non_finite f) eqn:E.
    + split; left; reflexivity.
    + split; [right; simpl; now rewrite E | left; reflexivity].
  - split; [right; reflexivity | left; reflexivity].
  - split; [right; reflexivity | left; reflexivity].
  - split; [right; reflexivity | left; reflexivity].
  - reflexivity.
Qed.

(** ** The resolver *)

Lemma returned_handler_outcome (cat : ErrorCategory) (r : PyValue * ErrorHandler)
    (h : ErrorHandler) :
  fst r = np_nan -> logs_one cat h (snd r) ->
  match returned r with
  | (Ok out, h') => (out = np_nan \/ is_present out = true) /\ logs_at_most_one h h'
  | (Raise _, h') => h' = h
  end.
Proof.
  intros Hnan Hlog. unfold returned. split.
  - left. exact Hnan.
  - right. exists cat. exact Hlog.
Qed.

(** The [try] block returns the marker or a value that is there, with at
    most one new diagnostic, or raises with the handler untouched. *)
Lemma extract_cell_try_outcome workbook sheet address field h :
  match extract_cell_try workbook sheet address field h with
  | (Ok out, h') => (out = np_nan \/ is_present out = true) /\ logs_at_most_one h h'
  | (Raise _, h') => h' = h
  end.
Proof.
  destruct workbook as [wb | wb]; unfold extract_cell_try.
  - unfold extract_xlsb.
    destruct (negb (str_in sheet (pyxlsb.sheets wb))).
    { apply (returned_handler_outcome MISSING_SHEET);
        [reflexivity | apply missing_sheet_logs]. }
    destruct (match_address (upper (replace "$" "" address))) as [[col_str row_str]|].
    2:{ apply (returned_handler_outcome INVALID_CELL_ADDRESS);
          [reflexivity | apply invalid_cell_address_logs]. }
    unfold native_target.
    destruct (pyxlsb.get_sheet wb sheet) as [opened | msg]; [|reflexivity].
    destruct (first_scan _ _ (pyxlsb.rows opened) 0) as [[found|] rows_checked].
    { apply process_cell_value_outcome. }
    destruct (pyxlsb.rows_raise opened); [reflexivity|].
    destruct (second_scan _ _ (pyxlsb.rows opened)).
    { apply process_cell_value_outcome. }
    apply (returned_handler_outcome CELL_NOT_FOUND);
      [reflexivity | apply cell_not_found_logs].
  - unfold extract_xlsx.
    destruct (negb (str_in sheet (openpyxl.sheetnames wb))).
    { apply (returned_handler_outcome MISSING_SHEET);
        [reflexivity | apply missing_sheet_logs]. }
    destruct (openpyxl.cell_value wb sheet address); [|reflexivity].
    apply process_cell_value_outcome.
Qed.

(** [_extract_cell_value] always returns. *)
Lemma extract_cell_value_returns workbook sheet address field h :
  exists out h',
    _extract_cell_value workbook sheet address field h = (Ok out, h') /\
    (out = np_nan \/ is_present out = true) /\
    logs_at_most_one h h'.
Proof.
  unfold _extract_cell_value.
  pose proof (extract_cell_try_outcome workbook sheet address field h) as H.
  destruct (extract_cell_try workbook sheet address field h) as [[out | msg] h'].
  - exists out, h'. destruct H as [Hv Hl]. repeat split; assumption.
  - subst h'. eexists. eexists. split; [reflexivity|]. split.
    + left. reflexivity.
    + right. exists UNKNOWN_ERROR. apply unknown_error_logs.
Qed.

(** When the [try] block raises, the caller gets the marker and one
    [UNKNOWN_ERROR] diagnostic carrying the text of the exception. *)
Lemma extract_cell_value_catches workbook sheet address field h msg h0 :
  extract_cell_try workbook sheet address field h = (Raise msg, h0) ->
  _extract_cell_value workbook sheet address field h
    = returned (handle_unknown_error field sheet address msg h).
Proof.
  intro Htry. unfold _extract_cell_value.
  pose proof (extract_cell_try_outcome workbook sheet address field h) as H.
  rewrite Htry in *. subst h0. reflexivity.
Qed.

(** ** One workbook *)

(** The loop over the mapping entries never takes its [except] branch:
    every entry adds one to [successful_extractions]. *)
Lemma extract_fields_counts workbook items :
  forall st h,
    successful_extractions (fst (extract_fields workbook items st h))
      = successful_extractions st + List.length items /\
    failed_extractions (fst (extract_fields workbook items st h))
      = failed_extractions st /\
    ls_errors (fst (extract_fields workbook items st h)) = ls_errors st.
Proof.
  induction items as [| [field mapping] rest IH]; intros st h; simpl.
  - repeat split. lia.
  - destruct (extract_cell_value_returns workbook (Mapping.sheet_name mapping)
                (Mapping.cell_address mapping) field h) as (out & h' & Hrun & _).
    rewrite Hrun.
    match goal with
    | |- context [extract_fields workbook rest ?st1 h'] =>
        destruct (IH st1 h') as (Hs & Hf & He)
    end.
    rewrite Hs, Hf, He. simpl. repeat split. lia.
Qed.

(** C10. For every workbook that opens, [extract_from_file] returns a record
    whose [_extraction_metadata] has [successful] equal to the number of
    mapping entries (which is [total_fields]) and [failed] equal to 0, and
    whose [_extraction_errors] list is empty, whatever the fields were
    classified as: the resolver returns the NaN marker instead of raising,
    so field-level failures show in the attached error summary only. *)
Theorem opened_workbook_reports_every_field_successful
    (self : ExcelDataExtractor) (file_path : string) (workbook : Workbook) :
  exists record self',
    extract_from_file self file_path (Ok workbook) = (Ok record, self') /\
    total_fields (_extraction_metadata record) = List.length (mappings self) /\
    successful (_extraction_metadata record) = List.length (mappings self) /\
    failed (_extraction_metadata record) = 0 /\
    _extraction_errors record = [].
Proof.
  unfold extract_from_file.
  pose proof (extract_fields_counts workbook (mappings self)
                {| ls_values := []; ls_errors := [];
                   successful_extractions := 0; failed_extractions := 0 |}
                (error_handler self)) as (Hs & Hf & He).
  destruct (extract_fields workbook (mappings self) _ (error_handler self)) as [st h].
  simpl in *. eexists. eexists. split; [reflexivity|]. simpl.
  repeat split; assumption.
Qed.

(** ** Strings *)

Lemma isspace_lower_char (ch : ascii) : isspace (lower_char ch) = isspace ch.
Proof. destruct ch as [[] [] [] [] [] [] [] []]; reflexivity. Qed.

Lemma lstrip_map_chars (f : ascii -> ascii) :
  (forall ch, isspace (f ch) = isspace ch) ->
  forall s, lstrip (map_chars f s) = map_chars f (lstrip s).
Proof.
  intros Hf s. induction s as [| ch s IH]; simpl; [reflexivity|].
  rewrite Hf. destruct (isspace ch); [exact IH | reflexivity].
Qed.

Lemma rstrip_map_chars (f : ascii -> ascii) :
  (forall ch, isspace (f ch) = isspace ch) ->
  forall s, rstrip (map_chars f s) = map_chars f (rstrip s).
Proof.
  intros Hf s. induction s as [| ch s IH]; simpl; [reflexivity|].
  rewrite IH, Hf.
  destruct (rstrip s); simpl; [destruct (isspace ch)|]; reflexivity.
Qed.

(** Trimming and lower-casing commute. *)
Lemma lower_strip (s : string) : lower (strip s) = strip (lower s).
Proof.
  unfold lower, strip.
  rewrite (lstrip_map_chars _ isspace_lower_char).
  rewrite (rstrip_map_chars _ isspace_lower_char). reflexivity.
Qed.

Lemma occurs_lstrip (x : ascii) (s : string) :
  isspace x = false -> occurs x (lstrip s) = occurs x s.
Proof.
  intro Hx. induction s as [| ch s IH]; simpl; [reflexivity|].
  destruct (isspace ch) eqn:Hch; [|reflexivity].
  rewrite IH. destruct (Ascii.eqb ch x) eqn:E; [|reflexivity].
  apply Ascii.eqb_eq in E. congruence.
Qed.

Lemma occurs_rstrip (x : ascii) (s : string) :
  isspace x = false -> occurs x (rstrip s) = occurs x s.
Proof.
  intro Hx. induction s as [| ch s IH]; simpl; [reflexivity|].
  destruct (rstrip s) as [| ch' t] eqn:Hr.
  - simpl in IH. rewrite <- IH. rewrite orb_false_r.
    destruct (isspace ch) eqn:Hch; simpl.
    + destruct (Ascii.eqb ch x) eqn:E; [|reflexivity].
      apply Ascii.eqb_eq in E. congruence.
    + now rewrite orb_false_r.
  - cbn [occurs]. cbn [occurs] in IH. now rewrite IH.
Qed.

Lemma occurs_strip (x : ascii) (s : string) :
  isspace x = false -> occurs x (strip s) = occurs x s.
Proof.
  intro Hx. unfold strip. now rewrite occurs_rstrip, occurs_lstrip.
Qed.

Lemma lower_char_hash (ch : ascii) :
  Ascii.eqb (lower_char ch) "#" = Ascii.eqb ch "#".
Proof. destruct ch as [[] [] [] [] [] [] [] []]; reflexivity. Qed.

Lemma occurs_hash_lower (s : string) : occurs "#" (lower s) = occurs "#" s.
Proof.
  induction s as [| ch s IH]; simpl; [reflexivity|].
  fold (lower s). now rewrite IH, lower_char_hash.
Qed.

Lemma prefix_occurs (x : ascii) (rest s : string) :
  prefix (String x rest) s = true -> occurs x s = true.
Proof.
  destruct s as [| ch s]; simpl; [discriminate|].
  destruct (ascii_dec x ch) as [<- | Hneq]; [|discriminate].
  intros _. now rewrite Ascii.eqb_refl.
Qed.

Lemma contains_occurs (x : ascii) (rest s : string) :
  contains (String x rest) s = true -> occurs x s = true.
Proof.
  induction s as [| ch s IH].
  - simpl. discriminate.
  - cbn [contains]. intro H. apply orb_true_iff in H. destruct H as [H | H].
    + now apply (prefix_occurs x rest).
    + cbn [occurs]. rewrite (IH H). apply orb_true_r.
Qed.

Lemma prefix_app (n post : string) : prefix n (n ++ post) = true.
Proof.
  induction n as [| ch n IH]; simpl.
  - destruct post; reflexivity.
  - destruct (ascii_dec ch ch); [exact IH | contradiction].
Qed.

Lemma prefix_inv (n s : string) :
  prefix n s = true -> exists post, s = n ++ post.
Proof.
  revert s. induction n as [| ch n IH]; intros s H.
  - exists s. reflexivity.
  - destruct s as [| ch' s]; simpl in H; [discriminate|].
    destruct (ascii_dec ch ch') as [<- |]; [|discriminate].
    destruct (IH s H) as [post ->]. exists post. reflexivity.
Qed.

(** [contains] decides "occurs anywhere in the string". *)
Lemma contains_spec (n s : string) :
  contains n s = true <-> exists pre post, s = pre ++ n ++ post.
Proof.
  split.
  - induction s as [| ch s IH]; cbn [contains]; intro H.
    + rewrite orb_false_r in H. destruct (prefix_inv _ _ H) as [post Hp].
      exists "", post. exact Hp.
    + apply orb_true_iff in H. destruct H as [H | H].
      * destruct (prefix_inv _ _ H) as [post Hp]. exists "", post. exact Hp.
      * destruct (IH H) as (pre & post & ->).
        exists (String ch pre), post. reflexivity.
  - intros (pre & post & ->). induction pre as [| ch pre IH].
    + simpl append at 1.
      destruct (n ++ post) eqn:E; cbn [contains]; rewrite <- E;
        now rewrite prefix_app.
    + simpl append. cbn [contains]. rewrite IH. apply orb_true_r.
Qed.

(** ** The value classifier *)

Lemma no_occurs_no_contains (x : ascii) (rest s : string) :
  occurs x s = false -> contains (String x rest) s = false.
Proof.
  intro H. destruct (contains (String x rest) s) eqn:E; [|reflexivity].
  apply contains_occurs in E. congruence.
Qed.

(** None of the missing-value texts holds the character [#]. *)
Lemma missing_indicator_no_hash (t : string) :
  str_in t missing_indicators = true -> occurs "#" t = false.
Proof.
  unfold str_in. intro H. apply existsb_exists in H.
  destruct H as (m & Hin & Heq). apply String.eqb_eq in Heq. subst m.
  simpl in Hin.
  repeat (destruct Hin as [<- | Hin]; [reflexivity|]). contradiction.
Qed.

(** A string that trims and lower-cases to a missing-value text holds no
    formula error code, so the loop over [excel_errors] lets it through. *)
Lemma missing_indicator_no_formula_code (s : string) :
  str_in (strip (lower s)) missing_indicators = true ->
  find (fun error_code => contains error_code s) excel_errors = None.
Proof.
  intro H. apply missing_indicator_no_hash in H.
  rewrite occurs_strip in H by reflexivity.
  rewrite occurs_hash_lower in H.
  unfold excel_errors. cbn [find].
  now rewrite !(no_occurs_no_contains _ _ _ H).
Qed.

Lemma str_in_In (x : string) (l : list string) : str_in x l = true <-> In x l.
Proof.
  unfold str_in. rewrite existsb_exists. split.
  - intros (y & Hin & Heq). apply String.eqb_eq in Heq. now subst.
  - intro Hin. exists x. split; [exact Hin | apply String.eqb_refl].
Qed.

(** [process_cell_value] on an empty input goes to [handle_empty_value]
    with the default [treat_as_error=False]. *)
Lemma missing_input_to_empty_value value field sheet address h :
  MissingInput value ->
  process_cell_value value field sheet address h
    = returned (handle_empty_value field sheet address false h).
Proof.
  intro Hm. destruct Hm as [| s Hin | | sign]; unfold process_cell_value.
  - reflexivity.
  - destruct (String.eqb s ""); [reflexivity|].
    rewrite lower_strip in Hin. change null_sentinels with missing_indicators in Hin.
    apply str_in_In in Hin.
    rewrite (missing_indicator_no_formula_code s Hin).
    now rewrite Hin.
  - reflexivity.
  - reflexivity.
Qed.

(** C7. For every raw value that is null, or a string which after trimming
    and lower-casing is one of n/a, na, null, none, the empty string, -, tbd,
    tba, or a NaN or infinite number, [process_cell_value] takes the
    EmptyValue path ([handle_empty_value]) and returns the NaN marker, never
    a string. *)
Theorem null_sentinel_normalization value field sheet address h :
  MissingInput value ->
  process_cell_value value field sheet address h
    = returned (handle_empty_value field sheet address false h) /\
  fst (process_cell_value value field sheet address h) = Ok np_nan /\
  (forall text, fst (process_cell_value value field sheet address h) <> Ok (VStr text)).
Proof.
  intro Hm. rewrite (missing_input_to_empty_value _ _ _ _ _ Hm).
  repeat split. intros text H. discriminate H.
Qed.

Lemma null_sentinel_normalization_witness :
  fst (process_cell_value (VStr "  N/A ") "UNITS" "Summary" "G6" ErrorHandler_init)
    = Ok np_nan.
Proof.
  apply (null_sentinel_normalization (VStr "  N/A ") "UNITS" "Summary" "G6"
           ErrorHandler_init).
  apply missing_sentinel. vm_compute. tauto.
Defined.

Lemma find_finds {A : Type} (f : A -> bool) (l : list A) (x : A) :
  In x l -> f x = true -> exists y, find f l = Some y.
Proof.
  intros Hin Hf. destruct (find f l) as [y|] eqn:E.
  - exists y. reflexivity.
  - pose proof (find_none f l E x Hin). congruence.
Qed.

(** C8. For every string cell value that holds one of the seven formula
    error codes anywhere, [process_cell_value] takes the FormulaError path
    ([handle_formula_error], with a code the string holds), records one
    [FORMULA_ERROR] diagnostic and returns the NaN marker, never the string. *)
Theorem formula_error_normalization s field sheet address h :
  (exists code pre post, In code formula_error_codes /\ s = pre ++ code ++ post) ->
  exists code,
    In code formula_error_codes /\
    (exists pre post, s = pre ++ code ++ post) /\
    process_cell_value (VStr s) field sheet address h
      = returned (handle_formula_error field sheet address code h) /\
    fst (process_cell_value (VStr s) field sheet address h) = Ok np_nan /\
    logs_one FORMULA_ERROR h (snd (process_cell_value (VStr s) field sheet address h)).
Proof.
  intros (code & pre & post & Hin & Hs).
  assert (Hc : contains code s = true).
  { apply contains_spec. exists pre, post. exact Hs. }
  assert (Hne : String.eqb s "" = false).
  { destruct s; [|reflexivity].
    simpl in Hin.
    repeat (destruct Hin as [<- | Hin]; [discriminate Hc|]). contradiction. }
  destruct (find_finds (fun error_code => contains error_code s) excel_errors code Hin Hc)
    as [found Hfind].
  destruct (find_some _ _ Hfind) as [Hfin Hfc].
  exists found. split; [exact Hfin|].
  split; [apply contains_spec; exact Hfc|].
  assert (Hrun : process_cell_value (VStr s) field sheet address h
                 = returned (handle_formula_error field sheet address found h)).
  { unfold process_cell_value. rewrite Hne, Hfind. reflexivity. }
  rewrite Hrun. split; [reflexivity|]. split; [reflexivity|].
  apply formula_error_logs.
Qed.

Lemma formula_error_normalization_witness :
  exists code,
    In code formula_error_codes /\
    process_cell_value (VStr "x = #DIV/0! here") "NOI" "Summary" "B2" ErrorHandler_init
      = returned (handle_formula_error "NOI" "Summary" "B2" code ErrorHandler_init).
Proof.
  destruct (formula_error_normalization "x = #DIV/0! here" "NOI" "Summary" "B2"
              ErrorHandler_init) as (code & Hin & _ & Hrun & _).
  - exists "#DIV/0!", "x = ", " here". split; [simpl; tauto | reflexivity].
  - exists code. split; assumption.
Defined.

(** ** Classification and the diagnostic list *)

(** A null cell read on a fresh handler leaves the diagnostic list empty. *)
Lemma empty_classification_not_recorded :
  MissingInput VNone /\
  ~ empty_classification_recorded VNone "UNITS" "Summary" "G6" ErrorHandler_init.
Proof.
  split; [constructor|].
  unfold empty_classification_recorded, logs_one. simpl.
  intros [_ [Hcount _]]. discriminate Hcount.
Qed.

(** C3 (amended). Every classification that records - missing sheet,
    invalid cell address, cell not found, formula error, parsing error, file
    access error, unknown error, empty value with [treat_as_error=True], and
    data type error on a value that can be formatted - returns the NaN
    marker, appends exactly one diagnostic of its category and adds one to
    the counter of that category and to no other.  The EmptyValue
    classification that [process_cell_value] performs on a null, empty,
    null-sentinel or non-finite value calls [handle_empty_value] with the
    default [treat_as_error=False]: it returns the NaN marker and leaves the
    diagnostic list and every counter as they were. *)
Theorem classification_records_one_except_empty
    (field sheet address msg code expected : string)
    (available : list string) (size : option (nat * Z)) (other : PyValue)
    (h : ErrorHandler) :
  (forall value,
      MissingInput value ->
      process_cell_value value field sheet address h = (Ok np_nan, h)) /\
  handle_empty_value field sheet address false h = (np_nan, h) /\
  classifies MISSING_SHEET h (handle_missing_sheet field sheet available h) /\
  classifies INVALID_CELL_ADDRESS h (handle_invalid_cell_address field sheet address msg h) /\
  classifies CELL_NOT_FOUND h (handle_cell_not_found field sheet address size h) /\
  classifies FORMULA_ERROR h (handle_formula_error field sheet address code h) /\
  classifies PARSING_ERROR h (handle_parsing_error field sheet address msg h) /\
  classifies FILE_ACCESS_ERROR h (handle_file_access_error field msg h) /\
  classifies UNKNOWN_ERROR h (handle_unknown_error field sheet address msg h) /\
  classifies EMPTY_VALUE h (handle_empty_value field sheet address true h) /\
  match py_str other with
  | Ok _ =>
      fst (handle_data_type_error field sheet address other expected h) = Ok np_nan /\
      logs_one DATA_TYPE_ERROR h
        (snd (handle_data_type_error field sheet address other expected h))
  | Raise _ => True
  end.
Proof.
  split.
  { intros value Hm. now rewrite (missing_input_to_empty_value _ _ _ _ _ Hm). }
  split; [reflexivity|].
  split; [split; [reflexivity | apply missing_sheet_logs]|].
  split; [split; [reflexivity | apply invalid_cell_address_logs]|].
  split; [split; [reflexivity | apply cell_not_found_logs]|].
  split; [split; [reflexivity | apply formula_error_logs]|].
  split; [split; [reflexivity | apply parsing_error_logs]|].
  split; [split; [reflexivity | apply file_access_error_logs]|].
  split; [split; [reflexivity | apply unknown_error_logs]|].
  split; [split; [reflexivity | apply empty_value_as_error_logs]|].
  destruct (py_str other) as [text|] eqn:E; [|exact I].
  exact (data_type_error_logs field sheet address other expected h text E).
Qed.

Lemma classification_records_one_except_empty_witness :
  process_cell_value (VStr "TBD") "UNITS" "Summary" "G6" ErrorHandler_init
    = (Ok np_nan, ErrorHandler_init) /\
  classifies MISSING_SHEET ErrorHandler_init
    (handle_missing_sheet "UNITS" "Summary" ["Rent Roll"] ErrorHandler_init).
Proof.
  destruct (classification_records_one_except_empty
              "UNITS" "Summary" "G6" "bad" "#REF!" "string"
              ["Rent Roll"] None (VInt 1) ErrorHandler_init) as (Hp & _ & Hs & _).
  split; [|exact Hs].
  apply Hp. apply missing_sentinel. vm_compute. tauto.
Defined.

(** ** Addresses *)

Lemma append_empty (s : string) : s ++ "" = s.
Proof. induction s as [| ch t IH]; simpl; [reflexivity | now rewrite IH]. Qed.

Lemma span_app (p : ascii -> bool) (a b : string) :
  all_chars p a = true ->
  match b with EmptyString => True | String ch _ => p ch = false end ->
  span p (a ++ b) = (a, b).
Proof.
  intros Ha Hb. induction a as [| ch a IH]; simpl.
  - destruct b as [| ch b]; simpl; [reflexivity|]. now rewrite Hb.
  - simpl in Ha. apply andb_true_iff in Ha. destruct Ha as [Hch Ha].
    rewrite Hch, (IH Ha). reflexivity.
Qed.

Lemma span_split (p : ascii -> bool) (s : string) :
  s = fst (span p s) ++ snd (span p s) /\
  all_chars p (fst (span p s)) = true /\
  match snd (span p s) with EmptyString => True | String ch _ => p ch = false end.
Proof.
  induction s as [| ch s IH]; simpl.
  - repeat split.
  - destruct (p ch) eqn:Hch.
    + destruct (span p s) as [a b]. simpl in *.
      destruct IH as (Hs & Ha & Hb). repeat split.
      * now rewrite <- Hs.
      * now rewrite Hch, Ha.
      * exact Hb.
    + simpl. repeat split. exact Hch.
Qed.

Lemma AZ_not_digit (ch : ascii) : is_AZ ch = true -> isdigit ch = false.
Proof.
  unfold is_AZ, isdigit. intro H. apply andb_true_iff in H. destruct H as [H _].
  apply Nat.leb_le in H. apply andb_false_iff. right. apply Nat.leb_gt. lia.
Qed.

Lemma digit_not_AZ (ch : ascii) : isdigit ch = true -> is_AZ ch = false.
Proof.
  intro H. destruct (is_AZ ch) eqn:E; [|reflexivity].
  apply AZ_not_digit in E. congruence.
Qed.

Lemma match_address_complete (s col_str row_str : string) :
  well_formed_address s col_str row_str ->
  match_address s = Some (col_str, row_str).
Proof.
  intros (Hc & Hcs & Hr & Hrs & Hs).
  assert (Hspan : forall tail, tail = "" \/ tail = newline ->
            match_address (col_str ++ row_str ++ tail) = Some (col_str, row_str)).
  { intros tail Htail. unfold match_address.
    rewrite (span_app is_AZ col_str (row_str ++ tail) Hcs).
    - rewrite (span_app isdigit row_str tail Hrs).
      + destruct col_str; [contradiction|]. destruct row_str; [contradiction|].
        destruct Htail as [-> | ->]; reflexivity.
      + destruct Htail as [-> | ->]; [exact I | reflexivity].
    - destruct row_str as [| ch row_str]; [contradiction|]. simpl.
      simpl in Hrs. apply andb_true_iff in Hrs. now apply digit_not_AZ. }
  destruct Hs as [-> | ->].
  - specialize (Hspan "" (or_introl eq_refl)).
    now rewrite append_empty in Hspan.
  - apply Hspan. right. reflexivity.
Qed.

Lemma match_address_sound (s col_str row_str : string) :
  match_address s = Some (col_str, row_str) ->
  well_formed_address s col_str row_str.
Proof.
  unfold match_address, well_formed_address.
  pose proof (span_split is_AZ s) as (Hs & Ha & _).
  destruct (span is_AZ s) as [a rest]. simpl in *.
  pose proof (span_split isdigit rest) as (Hrest & Hd & _).
  destruct (span isdigit rest) as [d tail]. simpl in *.
  destruct a as [| ca a]; [discriminate|].
  destruct d as [| cd d]; [discriminate|].
  destruct (String.eqb tail "" || String.eqb tail newline) eqn:Htail; [|discriminate].
  intro H. injection H as <- <-.
  repeat split; try assumption; try discriminate.
  apply orb_true_iff in Htail. destruct Htail as [E | E]; apply String.eqb_eq in E; subst tail.
  - left. rewrite append_empty in Hrest. now rewrite <- Hrest.
  - right. now rewrite <- Hrest.
Qed.


(** ** The scan of a sheet *)

Lemma find_in_row_app row col (a b : list pyxlsb.Cell) :
  find_in_row row col (a ++ b)
    = match find_in_row row col a with
      | Some value => Some value
      | None => find_in_row row col b
      end.
Proof.
  induction a as [| cell a IH]; simpl; [reflexivity|].
  destruct ((pyxlsb.r cell =? row)%Z && (pyxlsb.c cell =? col)%Z); [reflexivity | exact IH].
Qed.

Lemma first_scan_cell_at row col rows :
  forall n, fst (first_scan row col rows n) = cell_at row col rows.
Proof.
  unfold cell_at. induction rows as [| row_data rest IH]; intro n; [reflexivity|].
  cbn [concat]. rewrite find_in_row_app.
  destruct row_data as [| cell cells].
  - simpl. apply IH.
  - cbn [first_scan].
    destruct (find_in_row row col (cell :: cells)); [reflexivity | apply IH].
Qed.

Lemma first_scan_rows_checked row col rows :
  forall n,
    cell_at row col rows = None ->
    snd (first_scan row col rows n) = n + nonempty_rows rows.
Proof.
  unfold cell_at, nonempty_rows.
  induction rows as [| row_data rest IH]; intros n Hnone.
  - simpl. lia.
  - cbn [concat] in Hnone. rewrite find_in_row_app in Hnone.
    destruct row_data as [| cell cells].
    + simpl in *. now apply IH.
    + cbn [first_scan filter List.length].
      destruct (find_in_row row col (cell :: cells)); [discriminate|].
      rewrite (IH (S n) Hnone). lia.
Qed.

Lemma second_scan_cell_at row col rows :
  second_scan row col rows = cell_at row col rows.
Proof.
  unfold cell_at. induction rows as [| row_data rest IH]; [reflexivity|].
  cbn [concat second_scan]. rewrite find_in_row_app.
  destruct (find_in_row row col row_data); [reflexivity | exact IH].
Qed.

(** What the [pyxlsb] branch does once the sheet is there, the address is
    matched and the sheet opens: it looks for the cell at the native target,
    hands the first one found to [process_cell_value], and reports
    [CELL_NOT_FOUND] with the number of non-empty rows and the 1-based
    column when there is none. *)
Lemma extract_xlsb_scan wb sheet address field h col_str row_str opened :
  str_in sheet (pyxlsb.sheets wb) = true ->
  match_address (upper (replace "$" "" address)) = Some (col_str, row_str) ->
  pyxlsb.get_sheet wb sheet = Ok opened ->
  extract_xlsb wb sheet address field h =
    match cell_at (fst (native_target col_str row_str))
                  (snd (native_target col_str row_str)) (pyxlsb.rows opened) with
    | Some value => process_cell_value value field sheet address h
    | None =>
        match pyxlsb.rows_raise opened with
        | Some msg => (Raise msg, h)
        | None =>
            returned (handle_cell_not_found field sheet address
                        (Some (nonempty_rows (pyxlsb.rows opened),
                               (snd (native_target col_str row_str) + 1)%Z)) h)
        end
    end.
Proof.
  intros Hsheet Hmatch Hopen. unfold extract_xlsb.
  rewrite Hsheet, Hmatch. cbn [negb]. unfold native_target. cbn [fst snd].
  rewrite Hopen.
  set (row := (int_of_digits row_str - 1)%Z).
  set (col := (column_from 0 col_str - 1)%Z).
  pose proof (first_scan_cell_at row col (pyxlsb.rows opened) 0) as Hfst.
  pose proof (first_scan_rows_checked row col (pyxlsb.rows opened) 0) as Hsnd.
  destruct (first_scan row col (pyxlsb.rows opened) 0) as [found rows_checked].
  simpl in Hfst, Hsnd. subst found.
  rewrite second_scan_cell_at.
  destruct (cell_at row col (pyxlsb.rows opened)); [reflexivity|].
  rewrite (Hsnd eq_refl). destruct (pyxlsb.rows_raise opened); reflexivity.
Qed.



(** ** Invalid addresses *)

(** [process_cell_value] records nothing or one [FORMULA_ERROR]. *)
Lemma process_cell_value_records value field sheet address h :
  snd (process_cell_value value field sheet address h) = h \/
  logs_one FORMULA_ERROR h (snd (process_cell_value value field sheet address h)).
Proof.
  destruct value as [| s | z | f | b | iso | [text|]]; unfold process_cell_value;
    try (left; reflexivity).
  - destruct (String.eqb s ""); [left; reflexivity|].
    destruct (find (fun error_code => contains error_code s) excel_errors) as [code|].
    + right. apply formula_error_logs.
    + destruct (str_in (strip (lower s)) missing_indicators); left; reflexivity.
  - destruct (float_non_finite f); left; reflexivity.
Qed.

Lemma logs_one_last (cat : ErrorCategory) (h h' : ErrorHandler) (error : ExtractionError) :
  logs_one cat h h' -> errors h' = (errors h ++ [error])%list -> category error = cat.
Proof.
  intros [(e & He & Hcat) _] Herr. rewrite He in Herr.
  apply app_inv_head in Herr. injection Herr as <-. exact Hcat.
Qed.

Lemma unchanged_not_appended (h : ErrorHandler) (error : ExtractionError) :
  errors h <> (errors h ++ [error])%list.
Proof.
  intro H. apply (f_equal (@List.length _)) in H.
  rewrite length_app in H. simpl in H. lia.
Qed.

(** On a workbook of the second kind whose sheet is there, the resolver
    records nothing, or one [FORMULA_ERROR], or one [UNKNOWN_ERROR]. *)
Lemma extract_xlsx_records wb sheet address field h :
  str_in sheet (openpyxl.sheetnames wb) = true ->
  let h' := snd (_extract_cell_value (Xlsx wb) sheet address field h) in
  h' = h \/ logs_one FORMULA_ERROR h h' \/ logs_one UNKNOWN_ERROR h h'.
Proof.
  intro Hsheet. unfold _extract_cell_value, extract_cell_try, extract_xlsx.
  rewrite Hsheet. cbn [negb].
  destruct (openpyxl.cell_value wb sheet address) as [value | msg].
  - pose proof (process_cell_value_records value field sheet address h) as Hrec.
    pose proof (process_cell_value_outcome value field sheet address h) as Hout.
    destruct (process_cell_value value field sheet address h) as [[out | msg] h1].
    + simpl in *. destruct Hrec as [-> | Hrec]; [left; reflexivity | right; left; exact Hrec].
    + simpl in *. subst h1. right. right. apply unknown_error_logs.
  - right. right. apply unknown_error_logs.
Qed.

(** C6. On a workbook of the second kind ([openpyxl]) whose sheet
    ["Summary"] exists, the address ["6D"], which fails the match, is
    classified [UNKNOWN_ERROR] and not [INVALID_CELL_ADDRESS]: the branch
    hands the address to the library as it is, and the exception of the
    library reaches the [except] clause.  On a workbook of the first kind
    ([pyxlsb]) the same address in the same sheet is classified
    [INVALID_CELL_ADDRESS]. *)
Lemma xlsx_invalid_address_is_unknown_error :
  str_in "Summary" (openpyxl.sheetnames summary_xlsx) = true /\
  match_address (upper (replace "$" "" "6D")) = None /\
  map category
    (errors (snd (_extract_cell_value (Xlsx summary_xlsx) "Summary" "6D" "UNITS"
                    ErrorHandler_init))) = [UNKNOWN_ERROR] /\
  map category
    (errors (snd (_extract_cell_value (Xlsb summary_xlsb) "Summary" "6D" "UNITS"
                    ErrorHandler_init))) = [INVALID_CELL_ADDRESS] /\
  invalid_address_classified (Xlsb summary_xlsb) "Summary" "6D" "UNITS"
    ErrorHandler_init /\
  ~ invalid_address_classified (Xlsx summary_xlsx) "Summary" "6D" "UNITS"
      ErrorHandler_init.
Proof.
  split; [reflexivity|]. split; [reflexivity|]. split; [reflexivity|].
  split; [reflexivity|]. split; [eexists; split; reflexivity|].
  intros (error & Herr & Hcat). simpl in Herr.
  injection Herr as <-. discriminate Hcat.
Qed.

(** What each branch does with an address that fails the match.  On a
    workbook of the first kind ([pyxlsb]) whose target sheet exists, the
    address is stripped of [$], upper-cased and matched against
    [^([A-Z]+)(\d+)$]; an address that fails the match is classified
    [INVALID_CELL_ADDRESS] and no other category.  The branch for the second
    kind ([openpyxl]) has no such check: it hands the address to the library
    as it is, never records an [INVALID_CELL_ADDRESS] diagnostic, and an
    address the library rejects by raising ends as [UNKNOWN_ERROR]. *)
Lemma invalid_address_classification workbook sheet address field h :
  (forall col_str row_str,
      ~ well_formed_address (upper (replace "$" "" address)) col_str row_str) ->
  match workbook with
  | Xlsb wb =>
      str_in sheet (pyxlsb.sheets wb) = true ->
      _extract_cell_value workbook sheet address field h
        = returned (handle_invalid_cell_address field sheet address
                      invalid_format_text h) /\
      classifies INVALID_CELL_ADDRESS h
        (handle_invalid_cell_address field sheet address invalid_format_text h)
  | Xlsx wb =>
      str_in sheet (openpyxl.sheetnames wb) = true ->
      (forall error,
          errors (snd (_extract_cell_value workbook sheet address field h))
            = (errors h ++ [error])%list ->
          category error <> INVALID_CELL_ADDRESS) /\
      error_counts (snd (_extract_cell_value workbook sheet address field h))
          INVALID_CELL_ADDRESS
        = error_counts h INVALID_CELL_ADDRESS /\
      (forall msg,
          openpyxl.cell_value wb sheet address = Raise msg ->
          _extract_cell_value workbook sheet address field h
            = returned (handle_unknown_error field sheet address msg h))
  end.
Proof.
  intro Hbad.
  assert (Hmatch : match_address (upper (replace "$" "" address)) = None).
  { destruct (match_address (upper (replace "$" "" address))) as [[col_str row_str]|] eqn:E;
      [|reflexivity].
    exfalso. exact (Hbad col_str row_str (match_address_sound _ _ _ E)). }
  destruct workbook as [wb | wb]; intro Hsheet.
  - split.
    + unfold _extract_cell_value, extract_cell_try, extract_xlsb.
      rewrite Hsheet, Hmatch. reflexivity.
    + split; [reflexivity | apply invalid_cell_address_logs].
  - pose proof (extract_xlsx_records wb sheet address field h Hsheet) as Hrec.
    cbv zeta in Hrec.
    split; [|split].
    + intros error Herr Hcat.
      destruct Hrec as [Hrec | [Hrec | Hrec]].
      * rewrite Hrec in Herr. exact (unchanged_not_appended _ _ Herr).
      * rewrite (logs_one_last _ _ _ _ Hrec Herr) in Hcat. discriminate.
      * rewrite (logs_one_last _ _ _ _ Hrec Herr) in Hcat. discriminate.
    + destruct Hrec as [Hrec | [Hrec | Hrec]].
      * now rewrite Hrec.
      * destruct Hrec as (_ & _ & Hother). apply Hother. discriminate.
      * destruct Hrec as (_ & _ & Hother). apply Hother. discriminate.
    + intros msg Hraise.
      unfold _extract_cell_value, extract_cell_try, extract_xlsx.
      rewrite Hsheet, Hraise. reflexivity.
Qed.

Lemma invalid_address_classification_witness :
  _extract_cell_value (Xlsb summary_xlsb) "Summary" "6D" "UNITS" ErrorHandler_init
    = returned (handle_invalid_cell_address "UNITS" "Summary" "6D"
                  invalid_format_text ErrorHandler_init) /\
  _extract_cell_value (Xlsx summary_xlsx) "Summary" "6D" "UNITS" ErrorHandler_init
    = returned (handle_unknown_error "UNITS" "Summary" "6D"
                  "6D is not a valid coordinate or range" ErrorHandler_init).
Proof.
  assert (Hbad : forall col_str row_str,
             ~ well_formed_address (upper (replace "$" "" "6D")) col_str row_str).
  { intros col_str row_str Hwf. apply match_address_complete in Hwf.
    vm_compute in Hwf. discriminate Hwf. }
  split.
  - apply (invalid_address_classification (Xlsb summary_xlsb) "Summary" "6D" "UNITS"
             ErrorHandler_init Hbad eq_refl).
  - apply (invalid_address_classification (Xlsx summary_xlsx) "Summary" "6D" "UNITS"
             ErrorHandler_init Hbad eq_refl).
    reflexivity.
Defined.

(** ** The handler across runs *)

Lemma logs_at_most_one_extends (h h' : ErrorHandler) :
  logs_at_most_one h h' -> exists new, errors h' = (errors h ++ new)%list.
Proof.
  intros [-> | (cat & (error & Herr & _) & _)].
  - exists []. now rewrite app_nil_r.
  - exists [error]. exact Herr.
Qed.

(** The loop over the mapping entries only ever appends to the diagnostic
    list it starts from. *)
Lemma extract_fields_extends workbook items :
  forall st h,
    exists new,
      errors (snd (extract_fields workbook items st h)) = (errors h ++ new)%list.
Proof.
  induction items as [| [field mapping] rest IH]; intros st h; simpl.
  - exists []. now rewrite app_nil_r.
  - destruct (extract_cell_value_returns workbook (Mapping.sheet_name mapping)
                (Mapping.cell_address mapping) field h) as (out & h' & Hrun & _ & Hlog).
    rewrite Hrun.
    destruct (logs_at_most_one_extends h h' Hlog) as [new1 H1].
    match goal with
    | |- context [extract_fields workbook rest ?st1 h'] =>
        destruct (IH st1 h') as [new2 H2]
    end.
    exists (new1 ++ new2)%list. rewrite H2, H1. now rewrite app_assoc.
Qed.

(** [extract_from_file] never resets the handler of the extractor: the
    summary it attaches lists every diagnostic the handler held before the
    run, followed by those of the run. *)
Lemma summary_lists_earlier_diagnostics self file_path workbook :
  exists record self' new,
    extract_from_file self file_path (Ok workbook) = (Ok record, self') /\
    errors (error_handler self') = (errors (error_handler self) ++ new)%list /\
    summary_details (error_summary (_extraction_metadata record))
      = map detail_of (errors (error_handler self) ++ new)%list.
Proof.
  unfold extract_from_file.
  destruct (extract_fields_extends workbook (mappings self)
              {| ls_values := []; ls_errors := [];
                 successful_extractions := 0; failed_extractions := 0 |}
              (error_handler self)) as [new Hnew].
  destruct (extract_fields workbook (mappings self) _ (error_handler self)) as [st h].
  simpl in Hnew.
  eexists. eexists. exists new. split; [reflexivity|]. simpl.
  split; [exact Hnew|].
  unfold get_error_summary. rewrite <- Hnew.
  destruct (errors h); reflexivity.
Qed.

(** C4 (as the code runs). Running [extract_from_file] twice on the same
    extractor and the same workbook, whose sheet ["Summary"] is missing:
    the field values agree, but the first record reports one diagnostic and
    the second reports two, the first run's diagnostic and its own. *)
Theorem second_run_repeats_first_run_diagnostics :
  exists record1 self1 record2 self2,
    extract_from_file (ExcelDataExtractor_init units_mapping) "a.xlsb"
      (Ok (Xlsb rent_roll_xlsb)) = (Ok record1, self1) /\
    extract_from_file self1 "a.xlsb" (Ok (Xlsb rent_roll_xlsb)) = (Ok record2, self2) /\
    field_values record1 = field_values record2 /\
    diagnostic_content record1
      = [("missing_sheet", "Sheet 'Summary' not found in workbook")] /\
    diagnostic_content record2
      = [("missing_sheet", "Sheet 'Summary' not found in workbook");
         ("missing_sheet", "Sheet 'Summary' not found in workbook")] /\
    summary_total (error_summary (_extraction_metadata record1)) = 1 /\
    summary_total (error_summary (_extraction_metadata record2)) = 2.
Proof.
  eexists. eexists. eexists. eexists.
  split; [reflexivity|]. split; [reflexivity|].
  repeat split.
Qed.

(** C5 (as the code runs). A batch of two workbooks through one extractor:
    the first lacks the sheet ["Summary"], the second resolves every field.
    Resolved on its own the second workbook gives a summary without
    diagnostics; in the batch its record carries the diagnostic produced
    while the first workbook was resolved. *)
Theorem batch_record_carries_earlier_workbook_diagnostics :
  let first := {| fi_file_path := "a.xlsb"; fi_loaded := Ok (Xlsb rent_roll_xlsb);
                  fi_deal_name := None; fi_deal_stage := None;
                  fi_modified_date := None |} in
  let second := {| fi_file_path := "b.xlsb"; fi_loaded := Ok (Xlsb summary_xlsb);
                   fi_deal_name := None; fi_deal_stage := None;
                   fi_modified_date := None |} in
  (exists alone,
      process_files (ExcelDataExtractor_init units_mapping) [second] = [alone] /\
      error_summary (_extraction_metadata (extracted_data alone)) = NoErrorsSummary) /\
  (exists result1 result2,
      process_files (ExcelDataExtractor_init units_mapping) [first; second]
        = [result1; result2] /\
      _file_path (extracted_data result2) = "b.xlsb" /\
      field_values (extracted_data result2)
        = [("UNITS", VFloat (S754_finite false 77 1))] /\
      map (fun d => (de_category d, de_sheet_name d, de_error_message d))
          (summary_details (error_summary (_extraction_metadata (extracted_data result2))))
        = [("missing_sheet", "Summary", "Sheet 'Summary' not found in workbook")]).
Proof.
  split.
  - eexists. split; reflexivity.
  - eexists. eexists. split; [reflexivity|]. repeat split.
Qed.

(** ** The mapping table loader *)

(** The loop of [_clean_field_name] is run with enough rounds: each round
    that finds ["__"] shortens the name. *)
Lemma replace_from_length (old new : string) (s : string) :
  String.length new <= 1 -> 2 <= String.length old ->
  forall skip,
    String.length (replace_from old new skip s) + Nat.min skip (String.length s)
      <= String.length s.
Proof.
  intros Hnew Hold. induction s as [| ch s IH]; intro skip.
  - simpl. lia.
  - cbn [replace_from]. destruct skip as [| k].
    + destruct (prefix old (String ch s)) eqn:Hp.
      * assert (Hlen : forall a b, String.length (a ++ b) = String.length a + String.length b).
        { clear. intros a b. induction a as [| c a IHa]; simpl; [reflexivity | now rewrite IHa]. }
        rewrite Hlen.
        pose proof (IH (String.length old - 1)) as H1.
        destruct (prefix_inv _ _ Hp) as [post Hpost].
        apply (f_equal String.length) in Hpost. rewrite Hlen in Hpost.
        cbn [String.length] in *. lia.
      * pose proof (IH 0) as H0. cbn [String.length] in *. lia.
    + pose proof (IH k) as Hk. cbn [String.length]. lia.
Qed.

Lemma replace_double_underscore_shorter (s : string) :
  contains "__" s = true ->
  String.length (replace "__" "_" s) < String.length s.
Proof.
  unfold replace. induction s as [| ch s IH]; cbn [contains]; intro H.
  - discriminate H.
  - cbn [replace_from]. destruct (prefix "__" (String ch s)) eqn:Hp.
    + pose proof (replace_from_length "__" "_" s (le_n 1) (le_n 2) 1) as H1.
      destruct (prefix_inv _ _ Hp) as [post Hpost].
      injection Hpost as _ Hs. subst s.
      change (String.length "__" - 1) with 1.
      cbn [String.length append Nat.min] in *. lia.
    + cbn [orb] in H. specialize (IH H). cbn [String.length]. lia.
Qed.

Lemma collapse_underscores_done (fuel : nat) :
  forall s, String.length s <= fuel ->
    contains "__" (collapse_underscores fuel s) = false.
Proof.
  induction fuel as [| fuel IH]; intros s Hlen.
  - destruct s; [reflexivity | simpl in Hlen; lia].
  - cbn [collapse_underscores]. destruct (contains "__" s) eqn:Hc; [|exact Hc].
    apply IH. pose proof (replace_double_underscore_shorter s Hc). lia.
Qed.

(** [_clean_field_name] returns a name in which no two underscores are
    adjacent: its loop has terminated. *)
Lemma clean_field_name_collapsed (description : string) :
  contains "__" (_clean_field_name description) = false.
Proof. unfold _clean_field_name. apply collapse_underscores_done. lia. Qed.






(** A row without a sheet name is stored as well: its mapping names the
    sheet ["nan"], the text of the missing value. *)
Lemma sheetless_row_is_loaded_as_nan :
  load_mappings (Ok [sheetless_row])
    = Ok [("UNITS",
           {| Mapping.category := "General";
              Mapping.description := "Units";
              Mapping.sheet_name := "nan";
              Mapping.cell_address := "D6";
              Mapping.field_name := "UNITS" |})].
Proof. reflexivity. Qed.

(** ** The outcomes of a cell resolution *)

(** What [process_cell_value] does with a raw value: a value that is not
    empty comes back as a value that is there; an empty value comes back as
    the NaN marker, nothing recorded; a formula error code comes back as the
    NaN marker with one [FORMULA_ERROR] diagnostic; or the call raises,
    nothing recorded. *)
Lemma process_value_trichotomy value field sheet address h :
  match process_cell_value value field sheet address h with
  | (Ok out, h') =>
      (is_present out = true /\ h' = h /\ ~ MissingInput value) \/
      (out = np_nan /\ h' = h /\ MissingInput value) \/
      (out = np_nan /\ logs_one FORMULA_ERROR h h' /\
       exists s error_code,
         value = VStr s /\ In error_code excel_errors /\ contains error_code s = true)
  | (Raise _, h') => h' = h
  end.
Proof.
  destruct value as [| s | z | f | b | iso | [text|]]; unfold process_cell_value.
  - right; left. repeat split. constructor.
  - destruct (String.eqb s "") eqn:Hempty.
    + apply String.eqb_eq in Hempty. subst s. right; left. repeat split.
      apply missing_sentinel. simpl. tauto.
    + destruct (find (fun error_code => contains error_code s) excel_errors)
        as [code|] eqn:Hfind.
      * apply find_some in Hfind. destruct Hfind as [Hin Hcode].
        right; right. split; [reflexivity|]. split; [apply formula_error_logs|].
        exists s, code. repeat split; assumption.
      * destruct (str_in (strip (lower s)) missing_indicators) eqn:Hm.
        -- right; left. repeat split. apply missing_sentinel.
           rewrite lower_strip. change null_sentinels with missing_indicators.
           now apply str_in_In.
        -- left. repeat split. intro HM.
           inversion HM as [| s' Hin | |]; subst.
           rewrite lower_strip in Hin. change null_sentinels with missing_indicators in Hin.
           apply str_in_In in Hin. congruence.
  - left. repeat split. intro HM. inversion HM.
  - destruct (float_non_finite f) eqn:E.
    + right; left. repeat split. destruct f; try discriminate E; constructor.
    + left. split; [simpl; now rewrite E|]. split; [reflexivity|].
      intro HM. inversion HM; subst; discriminate E.
  - left. repeat split. intro HM. inversion HM.
  - left. repeat split. intro HM. inversion HM.
  - left. repeat split. intro HM. inversion HM.
  - reflexivity.
Qed.

(** Once a raw value is read, the [try] block is the classification of that
    value. *)
Lemma extract_cell_try_of_read workbook sheet address field h value :
  cell_read workbook sheet address value ->
  extract_cell_try workbook sheet address field h
    = process_cell_value value field sheet address h.
Proof.
  intro Hread. destruct Hread as [wb sheet address col_str row_str opened value
                                   Hsheet Hmatch Hopen Hcell
                                 | wb sheet address value Hsheet Hcell].
  - unfold extract_cell_try.
    rewrite (extract_xlsb_scan wb sheet address field h col_str row_str opened
               Hsheet Hmatch Hopen).
    now rewrite Hcell.
  - unfold extract_cell_try, extract_xlsx. now rewrite Hsheet, Hcell.
Qed.

(** An exception raised inside the [try] block ends as the NaN marker with
    one [UNKNOWN_ERROR] diagnostic. *)
Lemma resolution_after_raise workbook sheet address field h msg h0 :
  extract_cell_try workbook sheet address field h = (Raise msg, h0) ->
  exists out h',
    _extract_cell_value workbook sheet address field h = (Ok out, h') /\
    resolution_outcome workbook sheet address field h out h'.
Proof.
  intro Htry.
  exists np_nan, (snd (handle_unknown_error field sheet address msg h)).
  split; [rewrite (extract_cell_value_catches _ _ _ _ _ _ _ Htry); reflexivity|].
  apply (outcome_diagnostic _ _ _ _ _ UNKNOWN_ERROR);
    [exact (failure_exception _ _ _ _ _ _ _ Htry)
    | apply category_enumerated | apply unknown_error_logs].
Qed.

Lemma resolution_after_read workbook sheet address field h value :
  cell_read workbook sheet address value ->
  exists out h',
    _extract_cell_value workbook sheet address field h = (Ok out, h') /\
    resolution_outcome workbook sheet address field h out h'.
Proof.
  intro Hread.
  pose proof (extract_cell_try_of_read _ _ _ field h _ Hread) as Htry.
  pose proof (process_value_trichotomy value field sheet address h) as Htri.
  destruct (process_cell_value value field sheet address h) as [[out | msg] h1].
  - exists out, h1. split; [unfold _extract_cell_value; rewrite Htry; reflexivity|].
    destruct Htri as [(Hp & -> & Hnot) | [(-> & -> & Hm)
                                          | (-> & Hlog & s & code & -> & Hin & Hcode)]].
    + exact (outcome_value _ _ _ _ _ value out Hread Hnot Hp).
    + exact (outcome_empty _ _ _ _ _ value Hread Hm).
    + apply (outcome_diagnostic _ _ _ _ _ FORMULA_ERROR);
        [exact (failure_formula _ _ _ _ _ s code Hread Hin Hcode)
        | apply category_enumerated | exact Hlog].
  - exact (resolution_after_raise _ _ _ _ _ _ _ Htry).
Qed.

(** Every lookup ends in one of the three ways. *)
Lemma resolution_ends workbook sheet address field h :
  exists out h',
    _extract_cell_value workbook sheet address field h = (Ok out, h') /\
    resolution_outcome workbook sheet address field h out h'.
Proof.
  assert (Hdiag : forall cat h1,
             lookup_failure field h workbook sheet address cat -> logs_one cat h h1 ->
             _extract_cell_value workbook sheet address field h = (Ok np_nan, h1) ->
             exists out h',
               _extract_cell_value workbook sheet address field h = (Ok out, h') /\
               resolution_outcome workbook sheet address field h out h').
  { intros cat h1 Hfail Hlog Hrun. exists np_nan, h1. split; [exact Hrun|].
    exact (outcome_diagnostic _ _ _ _ _ cat h1 Hfail (category_enumerated cat) Hlog). }
  destruct workbook as [wb | wb].
  - destruct (str_in sheet (pyxlsb.sheets wb)) eqn:Hsheet.
    2:{ apply (Hdiag MISSING_SHEET
                 (snd (handle_missing_sheet field sheet (pyxlsb.sheets wb) h)));
          [now constructor | apply missing_sheet_logs|].
        unfold _extract_cell_value, extract_cell_try, extract_xlsb.
        rewrite Hsheet. reflexivity. }
    destruct (match_address (upper (replace "$" "" address)))
      as [[col_str row_str]|] eqn:Hmatch.
    2:{ apply (Hdiag INVALID_CELL_ADDRESS
                 (snd (handle_invalid_cell_address field sheet address
                         invalid_format_text h)));
          [now constructor | apply invalid_cell_address_logs|].
        unfold _extract_cell_value, extract_cell_try, extract_xlsb.
        rewrite Hsheet, Hmatch. reflexivity. }
    destruct (pyxlsb.get_sheet wb sheet) as [opened | msg] eqn:Hopen.
    2:{ apply (resolution_after_raise _ _ _ _ _ msg h).
        unfold extract_cell_try, extract_xlsb.
        rewrite Hsheet, Hmatch. cbn [negb]. unfold native_target. rewrite Hopen.
        reflexivity. }
    destruct (cell_at (fst (native_target col_str row_str))
                (snd (native_target col_str row_str)) (pyxlsb.rows opened))
      as [value|] eqn:Hcell.
    { apply (resolution_after_read _ _ _ _ _ value).
      exact (read_xlsb wb sheet address col_str row_str opened value
               Hsheet Hmatch Hopen Hcell). }
    destruct (pyxlsb.rows_raise opened) as [msg|] eqn:Hraise.
    + apply (resolution_after_raise _ _ _ _ _ msg h).
      unfold extract_cell_try.
      rewrite (extract_xlsb_scan wb sheet address field h col_str row_str opened
                 Hsheet Hmatch Hopen).
      rewrite Hcell, Hraise. reflexivity.
    + apply (Hdiag CELL_NOT_FOUND
               (snd (handle_cell_not_found field sheet address
                       (Some (nonempty_rows (pyxlsb.rows opened),
                              (snd (native_target col_str row_str) + 1)%Z)) h)));
        [exact (failure_cell_not_found _ _ wb sheet address col_str row_str opened
                  Hsheet Hmatch Hopen Hcell Hraise)
        | apply cell_not_found_logs|].
      unfold _extract_cell_value, extract_cell_try.
      rewrite (extract_xlsb_scan wb sheet address field h col_str row_str opened
                 Hsheet Hmatch Hopen).
      rewrite Hcell, Hraise. reflexivity.
  - destruct (str_in sheet (openpyxl.sheetnames wb)) eqn:Hsheet.
    2:{ apply (Hdiag MISSING_SHEET
                 (snd (handle_missing_sheet field sheet (openpyxl.sheetnames wb) h)));
          [now constructor | apply missing_sheet_logs|].
        unfold _extract_cell_value, extract_cell_try, extract_xlsx.
        rewrite Hsheet. reflexivity. }
    destruct (openpyxl.cell_value wb sheet address) as [value | msg] eqn:Hcell.
    + apply (resolution_after_read _ _ _ _ _ value).
      exact (read_xlsx wb sheet address value Hsheet Hcell).
    + apply (resolution_after_raise _ _ _ _ _ msg h).
      unfold extract_cell_try, extract_xlsx.
      rewrite Hsheet, Hcell. reflexivity.
Qed.

(** Each of the failures ends as the NaN marker with exactly one diagnostic
    of its category. *)
Lemma failure_is_recorded workbook sheet address field h cat :
  lookup_failure field h workbook sheet address cat ->
  exists h',
    _extract_cell_value workbook sheet address field h = (Ok np_nan, h') /\
    logs_one cat h h'.
Proof.
  intro Hfail.
  destruct Hfail as [wb sheet address Hsheet
                    | wb sheet address Hsheet
                    | wb sheet address Hsheet Hmatch
                    | wb sheet address col_str row_str opened
                        Hsheet Hmatch Hopen Hcell Hraise
                    | workbook sheet address s code Hread Hin Hcode
                    | workbook sheet address msg h0 Htry].
  - eexists. split; [|apply (missing_sheet_logs field sheet (pyxlsb.sheets wb) h)].
    unfold _extract_cell_value, extract_cell_try, extract_xlsb.
    rewrite Hsheet. reflexivity.
  - eexists. split; [|apply (missing_sheet_logs field sheet (openpyxl.sheetnames wb) h)].
    unfold _extract_cell_value, extract_cell_try, extract_xlsx.
    rewrite Hsheet. reflexivity.
  - eexists.
    split; [|apply (invalid_cell_address_logs field sheet address invalid_format_text h)].
    unfold _extract_cell_value, extract_cell_try, extract_xlsb.
    rewrite Hsheet, Hmatch. reflexivity.
  - eexists.
    split; [|apply (cell_not_found_logs field sheet address
                      (Some (nonempty_rows (pyxlsb.rows opened),
                             (snd (native_target col_str row_str) + 1)%Z)) h)].
    unfold _extract_cell_value, extract_cell_try.
    rewrite (extract_xlsb_scan wb sheet address field h col_str row_str opened
               Hsheet Hmatch Hopen).
    rewrite Hcell, Hraise. reflexivity.
  - assert (Hne : String.eqb s "" = false).
    { destruct s; [|reflexivity].
      simpl in Hin.
      repeat (destruct Hin as [<- | Hin]; [discriminate Hcode|]). contradiction. }
    destruct (find_finds (fun error_code => contains error_code s) excel_errors
                code Hin Hcode) as [found Hfind].
    eexists. split; [|apply (formula_error_logs field sheet address found h)].
    unfold _extract_cell_value.
    rewrite (extract_cell_try_of_read _ _ _ field h _ Hread).
    unfold process_cell_value. rewrite Hne, Hfind. reflexivity.
  - eexists. split; [|apply (unknown_error_logs field sheet address msg h)].
    rewrite (extract_cell_value_catches _ _ _ _ _ _ _ Htry). reflexivity.
Qed.

(** An empty value that is read ends as the NaN marker, nothing recorded. *)
Lemma empty_read_is_not_recorded workbook sheet address field h value :
  cell_read workbook sheet address value ->
  MissingInput value ->
  _extract_cell_value workbook sheet address field h = (Ok np_nan, h).
Proof.
  intros Hread Hmissing. unfold _extract_cell_value.
  rewrite (extract_cell_try_of_read _ _ _ field h _ Hread).
  rewrite (missing_input_to_empty_value value field sheet address h Hmissing).
  reflexivity.
Qed.

(** On the second kind of workbook the cell [Summary!D6], which is read and
    holds no value, resolves to the NaN marker and nothing is recorded. *)
Lemma empty_cell_returns_marker_without_diagnostic :
  cell_read (Xlsx summary_xlsx) "Summary" "D6" VNone /\
  MissingInput VNone /\
  _extract_cell_value (Xlsx summary_xlsx) "Summary" "D6" "UNITS" ErrorHandler_init
    = (Ok np_nan, ErrorHandler_init) /\
  ~ marker_comes_with_diagnostic (Xlsx summary_xlsx) "Summary" "D6" "UNITS"
      ErrorHandler_init.
Proof.
  split; [constructor; reflexivity|]. split; [constructor|]. split; [reflexivity|].
  intro H. destruct (H np_nan ErrorHandler_init eq_refl eq_refl) as (cat & _ & Hcount & _).
  simpl in Hcount. discriminate Hcount.
Qed.

(** C1 (amended). For every workbook handle of either kind, sheet name,
    cell address and handler state, [_extract_cell_value] (with the
    [process_cell_value] it calls) returns to its caller and never raises,
    and the call ends in one of three ways.  A value was read that is not
    empty: a value that is there comes back and nothing is recorded.  An
    empty value (null, null sentinel, NaN or infinite number) was read: the
    NaN marker comes back and nothing is recorded.  Every failure other than
    an empty value - missing sheet, address that fails the match, cell not
    found, formula error code in the text read, exception raised inside the
    [try] block - gives the NaN marker together with exactly one new
    diagnostic, filed under the category of that failure, which is one of
    the nine enumerated kinds; for an exception the diagnostic is an
    [UNKNOWN_ERROR] one that carries the text of the exception.  Which way
    the call ends is fixed by the input: each of those failures ends in the
    third way, with its own category, and an empty value that is read ends
    in the second. *)
Theorem cell_resolution_outcomes workbook sheet address field h :
  exists out h',
    _extract_cell_value workbook sheet address field h = (Ok out, h') /\
    resolution_outcome workbook sheet address field h out h' /\
    (forall cat,
        lookup_failure field h workbook sheet address cat ->
        out = np_nan /\ logs_one cat h h') /\
    (forall value,
        cell_read workbook sheet address value -> MissingInput value ->
        out = np_nan /\ h' = h) /\
    (forall msg h0,
        extract_cell_try workbook sheet address field h = (Raise msg, h0) ->
        out = np_nan /\
        exists error,
          errors h' = (errors h ++ [error])%list /\
          category error = UNKNOWN_ERROR /\
          error_message error = "Unexpected error: " ++ msg).
Proof.
  destruct (resolution_ends workbook sheet address field h) as (out & h' & Hrun & Hout).
  exists out, h'. split; [exact Hrun|]. split; [exact Hout|].
  split; [|split].
  - intros cat Hfail.
    destruct (failure_is_recorded _ _ _ _ _ _ Hfail) as (h1 & Hrun1 & Hlog).
    rewrite Hrun in Hrun1. injection Hrun1 as -> ->.
    split; [reflexivity | exact Hlog].
  - intros value Hread Hmissing.
    rewrite (empty_read_is_not_recorded _ _ _ field h _ Hread Hmissing) in Hrun.
    injection Hrun as <- <-. split; reflexivity.
  - intros msg h0 Htry.
    rewrite (extract_cell_value_catches _ _ _ _ _ _ _ Htry) in Hrun.
    injection Hrun as <- <-.
    split; [reflexivity|]. eexists. repeat split.
Qed.

(* ===================================================================== *)
(** * Further properties of the engine *)
(* ===================================================================== *)

(** ** Counters and the diagnostic list *)

Lemma recorded_app (cat : ErrorCategory) (a b : list ExtractionError) :
  recorded cat (a ++ b) = recorded cat a + recorded cat b.
Proof. unfold recorded. now rewrite filter_app, length_app. Qed.

Lemma logs_one_keeps_agreement (cat : ErrorCategory) (h h' : ErrorHandler) :
  logs_one cat h h' -> counters_agree h -> counters_agree h'.
Proof.
  intros [(error & Herr & Hcat) [Hcount Hother]] Hagree c.
  rewrite Herr, recorded_app. unfold recorded at 2. simpl.
  destruct (category_eqb (category error) c) eqn:E.
  - apply category_eqb_eq in E. rewrite Hcat in E. subst c.
    rewrite Hcount, Hagree. reflexivity.
  - rewrite Hother.
    + rewrite Hagree. simpl. lia.
    + intros ->. rewrite Hcat, category_eqb_refl in E. discriminate.
Qed.

(** What one call of [_extract_cell_value] does to the handler. *)
Lemma extract_cell_value_step workbook sheet address field h :
  lookup_step h (snd (_extract_cell_value workbook sheet address field h)).
Proof.
  assert (Hproc : forall value,
             match process_cell_value value field sheet address h with
             | (Ok _, h') => lookup_step h h'
             | (Raise _, h') => h' = h
             end).
  { intro value.
    pose proof (process_cell_value_records value field sheet address h) as Hrec.
    pose proof (process_cell_value_outcome value field sheet address h) as Hout.
    destruct (process_cell_value value field sheet address h) as [[out | msg] h1];
      simpl in *; [|exact Hout].
    destruct Hrec as [-> | Hrec]; [left; reflexivity|].
    right. exists FORMULA_ERROR. split; [simpl; tauto | exact Hrec]. }
  assert (Hunknown : forall msg,
             lookup_step h (snd (returned (handle_unknown_error field sheet address msg h)))).
  { intro msg. right. exists UNKNOWN_ERROR. split; [simpl; tauto|].
    apply unknown_error_logs. }
  assert (Hvalue : forall value,
             lookup_step h
               (snd (match process_cell_value value field sheet address h with
                     | (Raise msg, h') =>
                         returned (handle_unknown_error field sheet address msg h')
                     | done => done
                     end))).
  { intro value. specialize (Hproc value).
    destruct (process_cell_value value field sheet address h) as [[out | msg] h1].
    - exact Hproc.
    - subst h1. apply Hunknown. }
  unfold _extract_cell_value, extract_cell_try.
  destruct workbook as [wb | wb].
  - unfold extract_xlsb.
    destruct (negb (str_in sheet (pyxlsb.sheets wb))).
    { right. exists MISSING_SHEET. split; [simpl; tauto | apply missing_sheet_logs]. }
    destruct (match_address (upper (replace "$" "" address))) as [[col_str row_str]|].
    2:{ right. exists INVALID_CELL_ADDRESS. split; [simpl; tauto|].
        apply invalid_cell_address_logs. }
    unfold native_target.
    destruct (pyxlsb.get_sheet wb sheet) as [opened | msg]; [|apply Hunknown].
    destruct (first_scan _ _ (pyxlsb.rows opened) 0) as [[found|] rows_checked].
    { apply Hvalue. }
    destruct (pyxlsb.rows_raise opened); [apply Hunknown|].
    destruct (second_scan _ _ (pyxlsb.rows opened)).
    { apply Hvalue. }
    right. exists CELL_NOT_FOUND. split; [simpl; tauto | apply cell_not_found_logs].
  - unfold extract_xlsx.
    destruct (negb (str_in sheet (openpyxl.sheetnames wb))).
    { right. exists MISSING_SHEET. split; [simpl; tauto | apply missing_sheet_logs]. }
    destruct (openpyxl.cell_value wb sheet address); [apply Hvalue | apply Hunknown].
Qed.

Lemma lookup_steps_trans (h1 h2 h3 : ErrorHandler) :
  lookup_steps h1 h2 -> lookup_steps h2 h3 -> lookup_steps h1 h3.
Proof.
  induction 1 as [| h h1 h2 Hstep _ IH]; intro H23; [exact H23|].
  eapply lookup_steps_next; [exact Hstep | exact (IH H23)].
Qed.

(** The loop over the mapping entries is a sequence of cell lookups. *)
Lemma extract_fields_steps workbook items :
  forall st h, lookup_steps h (snd (extract_fields workbook items st h)).
Proof.
  induction items as [| [field mapping] rest IH]; intros st h; simpl.
  - constructor.
  - pose proof (extract_cell_value_step workbook (Mapping.sheet_name mapping)
                  (Mapping.cell_address mapping) field h) as Hstep.
    destruct (_extract_cell_value workbook (Mapping.sheet_name mapping)
                (Mapping.cell_address mapping) field h) as [[out | msg] h'];
      simpl in Hstep; (eapply lookup_steps_next; [exact Hstep | apply IH]).
Qed.

(** So is a call of [extract_from_file], whatever the file does. *)
Lemma extract_from_file_steps self file_path loaded :
  mappings (snd (extract_from_file self file_path loaded)) = mappings self /\
  lookup_steps (error_handler self)
    (error_handler (snd (extract_from_file self file_path loaded))).
Proof.
  unfold extract_from_file. destruct loaded as [workbook | msg].
  - pose proof (extract_fields_steps workbook (mappings self)
                  {| ls_values := []; ls_errors := [];
                     successful_extractions := 0; failed_extractions := 0 |}
                  (error_handler self)) as Hsteps.
    destruct (extract_fields workbook (mappings self) _ (error_handler self)) as [st h].
    simpl in *. split; [reflexivity | exact Hsteps].
  - simpl. split; [reflexivity | constructor].
Qed.

(** And so is a whole batch. *)
Lemma process_files_steps file_list :
  forall extractor processed failed_files,
    mappings (snd (process_files_from extractor file_list processed failed_files))
      = mappings extractor /\
    lookup_steps (error_handler extractor)
      (error_handler (snd (process_files_from extractor file_list processed failed_files))).
Proof.
  induction file_list as [| file_info rest IH]; intros extractor processed failed_files.
  - simpl. split; [reflexivity | constructor].
  - cbn [process_files_from]. unfold _process_single_file.
    destruct (extract_from_file_steps extractor (fi_file_path file_info)
                (fi_loaded file_info)) as [Hm Hs].
    destruct (extract_from_file extractor (fi_file_path file_info) (fi_loaded file_info))
      as [[data | msg] extractor'];
      simpl in Hm, Hs;
      match goal with
      | |- context [process_files_from extractor' rest ?p ?f] =>
          destruct (IH extractor' p f) as [Hm' Hs']
      end;
      (split; [now rewrite Hm' | exact (lookup_steps_trans _ _ _ Hs Hs')]).
Qed.

Lemma lookup_steps_keep_agreement (h h' : ErrorHandler) :
  lookup_steps h h' -> counters_agree h -> counters_agree h'.
Proof.
  induction 1 as [| h h1 h2 Hstep _ IH]; intro Hagree; [exact Hagree|].
  apply IH. destruct Hstep as [-> | (cat & _ & Hlog)]; [exact Hagree|].
  exact (logs_one_keeps_agreement cat h h1 Hlog Hagree).
Qed.

(** X1. The counters of the handler stay equal to the number of recorded
    diagnostics of each category: this holds for a new and for a reset
    handler, and it is kept by every call of [extract_from_file] that runs
    on its own, whatever the file does. *)
Theorem counters_agree_with_diagnostics
    (self : ExcelDataExtractor) (file_path : string) (loaded : Result Workbook)
    (h : ErrorHandler) :
  counters_agree ErrorHandler_init /\
  counters_agree (reset h) /\
  (counters_agree (error_handler self) ->
   counters_agree (error_handler (snd (extract_from_file self file_path loaded)))).
Proof.
  split; [intro cat; reflexivity|].
  split; [intro cat; reflexivity|].
  intro Hagree.
  exact (lookup_steps_keep_agreement _ _
           (proj2 (extract_from_file_steps self file_path loaded)) Hagree).
Qed.

Lemma counters_agree_with_diagnostics_witness :
  error_counts
    (error_handler
       (snd (extract_from_file (ExcelDataExtractor_init units_mapping) "a.xlsb"
               (Ok (Xlsb rent_roll_xlsb))))) MISSING_SHEET
  = recorded MISSING_SHEET
      (errors
         (error_handler
            (snd (extract_from_file (ExcelDataExtractor_init units_mapping) "a.xlsb"
                    (Ok (Xlsb rent_roll_xlsb)))))).
Proof.
  apply (counters_agree_with_diagnostics (ExcelDataExtractor_init units_mapping)
           "a.xlsb" (Ok (Xlsb rent_roll_xlsb)) ErrorHandler_init).
  intro cat. reflexivity.
Defined.

Lemma recorded_total (l : list ExtractionError) :
  recorded MISSING_SHEET l + recorded INVALID_CELL_ADDRESS l
  + recorded CELL_NOT_FOUND l + recorded FORMULA_ERROR l
  + recorded DATA_TYPE_ERROR l + recorded EMPTY_VALUE l
  + recorded FILE_ACCESS_ERROR l + recorded PARSING_ERROR l
  + recorded UNKNOWN_ERROR l = List.length l.
Proof.
  induction l as [| error l IH]; [reflexivity|].
  unfold recorded in *. cbn [filter].
  destruct (category error); cbn [category_eqb List.length]; lia.
Qed.

Lemma breakdown_sum (f : ErrorCategory -> nat) (l : list ErrorCategory) :
  fold_right Nat.add 0
    (map snd (flat_map (fun cat => if 0 <? f cat
                                   then [(category_value cat, f cat)] else []) l))
  = fold_right Nat.add 0 (map f l).
Proof.
  induction l as [| cat l IH]; [reflexivity|].
  cbn [flat_map map fold_right]. rewrite map_app, fold_right_app.
  destruct (0 <? f cat) eqn:E; cbn [map fold_right snd].
  - rewrite IH. lia.
  - apply Nat.ltb_ge in E. rewrite IH. lia.
Qed.

Lemma breakdown_entries (f : ErrorCategory -> nat) (l : list ErrorCategory)
    (name : string) (n : nat) :
  In (name, n)
     (flat_map (fun cat => if 0 <? f cat
                           then [(category_value cat, f cat)] else []) l) ->
  0 < n /\ exists cat, In cat l /\ name = category_value cat /\ n = f cat.
Proof.
  intro Hin. apply in_flat_map in Hin. destruct Hin as (cat & Hcat & Hin).
  destruct (0 <? f cat) eqn:E; [|contradiction].
  destruct Hin as [Heq | []]. injection Heq as <- <-.
  apply Nat.ltb_lt in E. split; [exact E|]. exists cat. repeat split. exact Hcat.
Qed.

(** X2. When the counters agree with the diagnostic list, the summary is
    the "no errors" summary exactly when nothing was recorded; otherwise
    [total_errors] is the number of diagnostics, [detailed_errors] lists
    them all in the order recorded, every entry of the breakdown by
    category is a category with at least one diagnostic together with their
    number, and the counts of the breakdown add up to [total_errors]. *)
Theorem summary_breakdown_adds_up (h : ErrorHandler) :
  counters_agree h ->
  match get_error_summary h with
  | NoErrorsSummary => errors h = []
  | FullSummary total breakdown _ _ details =>
      errors h <> [] /\
      total = List.length (errors h) /\
      details = map detail_of (errors h) /\
      fold_right Nat.add 0 (map snd breakdown) = total /\
      forall name n,
        In (name, n) breakdown ->
        0 < n /\
        exists cat, name = category_value cat /\ n = recorded cat (errors h)
  end.
Proof.
  intro Hagree. unfold get_error_summary.
  destruct (errors h) as [| error rest] eqn:Herr; [reflexivity|].
  rewrite <- Herr.
  split; [rewrite Herr; discriminate|].
  split; [reflexivity|]. split; [reflexivity|]. split.
  - rewrite breakdown_sum. unfold all_categories. cbn [map fold_right].
    rewrite !Hagree. rewrite <- (recorded_total (errors h)). lia.
  - intros name n Hin.
    destruct (breakdown_entries _ _ _ _ Hin) as (Hpos & cat & _ & Hname & Hn).
    split; [exact Hpos|]. exists cat. split; [exact Hname|].
    rewrite Hn. apply Hagree.
Qed.

Lemma summary_breakdown_adds_up_witness :
  match get_error_summary
          (error_handler
             (snd (extract_from_file (ExcelDataExtractor_init units_mapping) "a.xlsb"
                     (Ok (Xlsb rent_roll_xlsb))))) with
  | NoErrorsSummary => False
  | FullSummary total breakdown _ _ _ =>
      fold_right Nat.add 0 (map snd breakdown) = total
  end.
Proof.
  assert (Hagree : counters_agree
                     (error_handler
                        (snd (extract_from_file (ExcelDataExtractor_init units_mapping)
                                "a.xlsb" (Ok (Xlsb rent_roll_xlsb)))))).
  { intro cat. destruct cat; reflexivity. }
  pose proof (summary_breakdown_adds_up
                (error_handler
                   (snd (extract_from_file (ExcelDataExtractor_init units_mapping)
                           "a.xlsb" (Ok (Xlsb rent_roll_xlsb)))))
                Hagree) as H.
  destruct (get_error_summary _) as [| total breakdown common recs details].
  - discriminate H.
  - exact (proj1 (proj2 (proj2 (proj2 H)))).
Defined.

(** ** What an extraction can record *)

Lemma lookup_steps_appended (h h' : ErrorHandler) :
  lookup_steps h h' ->
  exists new,
    errors h' = (errors h ++ new)%list /\
    Forall (fun error => In (category error) lookup_categories) new /\
    forall cat, ~ In cat lookup_categories ->
                error_counts h' cat = error_counts h cat.
Proof.
  induction 1 as [h | h h1 h2 Hstep _ IH].
  - exists []. rewrite app_nil_r. repeat split. constructor.
  - destruct IH as (new2 & Herr2 & Hcat2 & Hcount2).
    destruct Hstep as [-> | (cat & Hin & (error & Herr1 & Hcat1) & _ & Hother)].
    + exists new2. repeat split; assumption.
    + exists (error :: new2). split; [|split].
      * rewrite Herr2, Herr1, <- app_assoc. reflexivity.
      * constructor; [now rewrite Hcat1 | exact Hcat2].
      * intros c Hc. rewrite (Hcount2 c Hc). apply Hother.
        intros ->. exact (Hc Hin).
Qed.

(** X3. Resolving a workbook, or a whole batch, only appends diagnostics,
    and only of the five categories a cell lookup produces (missing sheet,
    invalid cell address, cell not found, formula error, unknown error):
    the counters of the data type, empty value, file access and parsing
    categories are left as they were. *)
Theorem extraction_records_lookup_categories_only
    (self : ExcelDataExtractor) (file_list : list FileInfo) :
  exists new,
    errors (error_handler (snd (process_files_from self file_list [] [])))
      = (errors (error_handler self) ++ new)%list /\
    Forall (fun error => In (category error) lookup_categories) new /\
    Forall (fun cat =>
              error_counts (error_handler (snd (process_files_from self file_list [] [])))
                cat = error_counts (error_handler self) cat)
           [DATA_TYPE_ERROR; EMPTY_VALUE; FILE_ACCESS_ERROR; PARSING_ERROR].
Proof.
  destruct (lookup_steps_appended _ _ (proj2 (process_files_steps file_list self [] [])))
    as (new & Herr & Hcat & Hcount).
  exists new. split; [exact Herr|]. split; [exact Hcat|].
  repeat constructor; apply Hcount; simpl; intuition discriminate.
Qed.

Lemma extraction_records_lookup_categories_only_aux
    (cell_mappings : list (string * Mapping.CellMapping)) (file_list : list FileInfo) :
  error_counts
    (error_handler
       (snd (process_files_from (ExcelDataExtractor_init cell_mappings) file_list [] [])))
    EMPTY_VALUE = 0 /\
  error_counts
    (error_handler
       (snd (process_files_from (ExcelDataExtractor_init cell_mappings) file_list [] [])))
    DATA_TYPE_ERROR = 0.
Proof.
  destruct (lookup_steps_appended _ _
              (proj2 (process_files_steps file_list
                        (ExcelDataExtractor_init cell_mappings) [] [])))
    as (new & _ & _ & Hcount).
  split; rewrite Hcount; try reflexivity; simpl; intuition discriminate.
Qed.

(** X4. After any batch run on a newly built extractor, the recommendations
    never include the one about many empty values nor the one about data
    type issues: the counters they are keyed on are never raised by an
    extraction. *)
Theorem batch_never_recommends_empty_or_data_type
    (cell_mappings : list (string * Mapping.CellMapping)) (file_list : list FileInfo) :
  let h := error_handler
             (snd (process_files_from (ExcelDataExtractor_init cell_mappings)
                     file_list [] [])) in
  ~ In RecManyEmptyValues (_generate_recommendations h) /\
  ~ In RecDataTypeIssues (_generate_recommendations h).
Proof.
  intro h.
  destruct (extraction_records_lookup_categories_only_aux cell_mappings file_list)
    as [He Hd].
  fold h in Hd, He.
  unfold _generate_recommendations. rewrite Hd, He.
  change (5 <? 0) with false. change (0 <? 0) with false.
  split; intro Hin; rewrite !in_app_iff in Hin;
    repeat match type of Hin with
           | context [if ?b then _ else _] => destruct b
           end;
    simpl in Hin; intuition discriminate.
Qed.

(** ** Dicts *)

Lemma dict_set_keys_old {V : Type} (key : string) (value : V) (d : list (string * V)) :
  In key (dict_keys d) -> dict_keys (dict_set key value d) = dict_keys d.
Proof.
  unfold dict_keys. induction d as [| [k x] rest IH]; simpl; [contradiction|].
  intro Hin. destruct (String.eqb k key) eqn:E; [reflexivity|].
  simpl. f_equal. apply IH. destruct Hin as [-> | Hin]; [|exact Hin].
  rewrite String.eqb_refl in E. discriminate.
Qed.

Lemma dict_set_keys_new {V : Type} (key : string) (value : V) (d : list (string * V)) :
  ~ In key (dict_keys d) -> dict_keys (dict_set key value d) = (dict_keys d ++ [key])%list.
Proof.
  unfold dict_keys. induction d as [| [k x] rest IH]; simpl; [reflexivity|].
  intro Hnot. destruct (String.eqb k key) eqn:E.
  - apply String.eqb_eq in E. exfalso. apply Hnot. left. exact E.
  - simpl. f_equal. apply IH. intro Hin. apply Hnot. right. exact Hin.
Qed.

Lemma dict_set_keys_nodup {V : Type} (key : string) (value : V) (d : list (string * V)) :
  NoDup (dict_keys d) -> NoDup (dict_keys (dict_set key value d)).
Proof.
  intro Hnd. destruct (in_dec string_dec key (dict_keys d)) as [Hin | Hnot].
  - now rewrite dict_set_keys_old.
  - rewrite dict_set_keys_new by exact Hnot.
    apply NoDup_app; [exact Hnd | repeat constructor; intros [] |].
    intros a Ha [<- | []]. exact (Hnot Ha).
Qed.

Lemma dict_set_keys_in {V : Type} (key : string) (value : V) (d : list (string * V))
    (k : string) :
  In k (dict_keys (dict_set key value d)) <-> k = key \/ In k (dict_keys d).
Proof.
  destruct (in_dec string_dec key (dict_keys d)) as [Hin | Hnot].
  - rewrite dict_set_keys_old by exact Hin. split; [tauto|].
    intros [-> | H]; assumption.
  - rewrite dict_set_keys_new by exact Hnot. rewrite in_app_iff. simpl.
    split; intros [H | H]; auto; destruct H as [H | []]; auto.
Qed.

Lemma dict_get_set_same {V : Type} (key : string) (value : V) (d : list (string * V)) :
  dict_get key (dict_set key value d) = Some value.
Proof.
  induction d as [| [k x] rest IH]; simpl.
  - now rewrite String.eqb_refl.
  - destruct (String.eqb k key) eqn:E; simpl; rewrite E; [reflexivity | exact IH].
Qed.

Lemma dict_get_set_other {V : Type} (key other : string) (value : V)
    (d : list (string * V)) :
  other <> key -> dict_get other (dict_set key value d) = dict_get other d.
Proof.
  intro Hneq. induction d as [| [k x] rest IH]; simpl.
  - destruct (String.eqb key other) eqn:E; [|reflexivity].
    apply String.eqb_eq in E. congruence.
  - destruct (String.eqb k key) eqn:E; simpl.
    + apply String.eqb_eq in E. subst k.
      destruct (String.eqb key other) eqn:E'; [|reflexivity].
      apply String.eqb_eq in E'. congruence.
    + destruct (String.eqb k other); [reflexivity | exact IH].
Qed.

Lemma dict_set_values {V : Type} (P : V -> Prop) (key : string) (value : V)
    (d : list (string * V)) :
  P value -> Forall (fun entry => P (snd entry)) d ->
  Forall (fun entry => P (snd entry)) (dict_set key value d).
Proof.
  intros Hv Hd. induction Hd as [| [k x] rest Hx Hrest IH]; simpl.
  - repeat constructor. exact Hv.
  - destruct (String.eqb k key); constructor; assumption.
Qed.

(** ** Every field gets a value *)

Lemma extract_fields_values workbook items :
  forall st h,
    NoDup (dict_keys items) ->
    (forall k, In k (dict_keys items) -> ~ In k (dict_keys (ls_values st))) ->
    Forall (fun entry => snd entry = np_nan \/ is_present (snd entry) = true)
           (ls_values st) ->
    dict_keys (ls_values (fst (extract_fields workbook items st h)))
      = (dict_keys (ls_values st) ++ dict_keys items)%list /\
    Forall (fun entry => snd entry = np_nan \/ is_present (snd entry) = true)
           (ls_values (fst (extract_fields workbook items st h))).
Proof.
  induction items as [| [field mapping] rest IH]; intros st h Hnd Hfresh Hvals.
  - simpl. rewrite app_nil_r. split; [reflexivity | exact Hvals].
  - cbn [extract_fields].
    destruct (extract_cell_value_returns workbook (Mapping.sheet_name mapping)
                (Mapping.cell_address mapping) field h) as (out & h' & Hrun & Hout & _).
    rewrite Hrun.
    unfold dict_keys in Hnd. cbn [map fst] in Hnd. inversion Hnd as [| ? ? Hnotin Hnd']; subst.
    match goal with
    | |- context [extract_fields workbook rest ?st1 h'] =>
        destruct (IH st1 h') as [Hkeys Hforall]
    end.
    + exact Hnd'.
    + cbn [ls_values]. intros k Hk Hin.
      apply dict_set_keys_in in Hin. destruct Hin as [-> | Hin].
      * exact (Hnotin Hk).
      * apply (Hfresh k); [right; exact Hk | exact Hin].
    + cbn [ls_values].
      apply (dict_set_values (fun v => v = np_nan \/ is_present v = true));
        assumption.
    + split; [|exact Hforall].
      rewrite Hkeys. cbn [ls_values].
      rewrite dict_set_keys_new.
      * rewrite <- app_assoc. reflexivity.
      * apply Hfresh. left. reflexivity.
Qed.

(** X5. For an extractor whose mapping table has no field name twice (it is
    a dict) and every workbook that opens, the record holds exactly one
    entry per mapping entry, under the same field names in table order, and
    every entry is the NaN marker or a value that is there: no field is
    left out and none holds [None]. *)
Theorem every_field_gets_a_value
    (self : ExcelDataExtractor) (file_path : string) (workbook : Workbook) :
  NoDup (dict_keys (mappings self)) ->
  exists record self',
    extract_from_file self file_path (Ok workbook) = (Ok record, self') /\
    dict_keys (field_values record) = dict_keys (mappings self) /\
    List.length (field_values record) = total_fields (_extraction_metadata record) /\
    Forall (fun entry => snd entry = np_nan \/ is_present (snd entry) = true)
           (field_values record).
Proof.
  intro Hnd. unfold extract_from_file.
  destruct (extract_fields_values workbook (mappings self)
              {| ls_values := []; ls_errors := [];
                 successful_extractions := 0; failed_extractions := 0 |}
              (error_handler self) Hnd) as [Hkeys Hvals].
  { intros k _ []. }
  { constructor. }
  destruct (extract_fields workbook (mappings self) _ (error_handler self)) as [st h].
  simpl in Hkeys, Hvals.
  eexists. eexists. split; [reflexivity|]. simpl.
  split; [exact Hkeys|]. split; [|exact Hvals].
  apply (f_equal (@List.length _)) in Hkeys. unfold dict_keys in Hkeys.
  now rewrite !length_map in Hkeys.
Qed.

Lemma every_field_gets_a_value_witness :
  exists record self',
    extract_from_file (ExcelDataExtractor_init units_mapping) "b.xlsb"
      (Ok (Xlsb summary_xlsb)) = (Ok record, self') /\
    dict_keys (field_values record) = ["UNITS"].
Proof.
  assert (Hnd : NoDup (dict_keys (mappings (ExcelDataExtractor_init units_mapping)))).
  { repeat constructor. intros []. }
  destruct (every_field_gets_a_value (ExcelDataExtractor_init units_mapping) "b.xlsb"
              (Xlsb summary_xlsb) Hnd) as (record & self' & Hrun & Hkeys & _).
  exists record, self'. split; [exact Hrun | exact Hkeys].
Defined.

(** ** The loaded table as a dict *)

Lemma load_rows_app (a b : list ReferenceRow) :
  forall mappings, load_rows (a ++ b) mappings = load_rows b (load_rows a mappings).
Proof.
  induction a as [| row a IH]; intro mappings; [reflexivity|].
  simpl. destruct (row_loaded row); apply IH.
Qed.

Lemma load_rows_keys (rows : list ReferenceRow) :
  forall mappings,
    NoDup (dict_keys mappings) ->
    NoDup (dict_keys (load_rows rows mappings)) /\
    forall k,
      In k (dict_keys (load_rows rows mappings)) <->
      In k (dict_keys mappings) \/
      exists row, In row rows /\ row_loaded row = true /\ row_field_name row = k.
Proof.
  induction rows as [| row rest IH]; intros mappings Hnd.
  - simpl. split; [exact Hnd|]. intro k. split; [tauto|].
    intros [H | (row & [] & _)]. exact H.
  - cbn [load_rows]. destruct (row_loaded row) eqn:Hrow.
    + destruct (IH (dict_set (Mapping.field_name (mapping_of_row row))
                      (mapping_of_row row) mappings)
                   (dict_set_keys_nodup _ _ _ Hnd)) as [Hnd' Hin'].
      split; [exact Hnd'|]. intro k. rewrite Hin', dict_set_keys_in.
      change (Mapping.field_name (mapping_of_row row)) with (row_field_name row).
      split.
      * intros [[-> | H] | (r & Hr & Hl & Hk)].
        -- right. exists row. repeat split; [left; reflexivity | exact Hrow].
        -- left. exact H.
        -- right. exists r. repeat split; [right; exact Hr | exact Hl | exact Hk].
      * intros [H | (r & [<- | Hr] & Hl & Hk)].
        -- left. right. exact H.
        -- left. left. now symmetry.
        -- right. exists r. repeat split; assumption.
    + destruct (IH mappings Hnd) as [Hnd' Hin'].
      split; [exact Hnd'|]. intro k. rewrite Hin'. split.
      * intros [H | (r & Hr & Hl & Hk)]; [left; exact H|].
        right. exists r. repeat split; [right; exact Hr | exact Hl | exact Hk].
      * intros [H | (r & [<- | Hr] & Hl & Hk)]; [left; exact H | congruence |].
        right. exists r. repeat split; assumption.
Qed.

(** X6. The table [load_mappings] builds is a dict keyed by field name: no
    field name occurs twice, the field names are exactly those derived from
    the rows that were not skipped, and so the table never has more entries
    than rows were taken. *)
Theorem loaded_table_is_keyed_by_field_name (rows : list ReferenceRow) :
  NoDup (dict_keys (load_rows rows [])) /\
  (forall k,
      In k (dict_keys (load_rows rows [])) <->
      exists row, In row rows /\ row_loaded row = true /\ row_field_name row = k) /\
  List.length (load_rows rows []) <= List.length (filter row_loaded rows).
Proof.
  destruct (load_rows_keys rows [] (NoDup_nil _)) as [Hnd Hin].
  split; [exact Hnd|]. split.
  - intro k. rewrite Hin. simpl. tauto.
  - assert (Hincl : incl (dict_keys (load_rows rows []))
                         (map row_field_name (filter row_loaded rows))).
    { intros k Hk. apply Hin in Hk. destruct Hk as [[] | (row & Hr & Hl & <-)].
      apply in_map. apply filter_In. split; assumption. }
    pose proof (NoDup_incl_length Hnd Hincl) as Hlen.
    unfold dict_keys in Hlen. now rewrite !length_map in Hlen.
Qed.

Lemma load_rows_keeps_entry (rows : list ReferenceRow) (key : string) :
  (forall row, In row rows -> row_loaded row = true -> row_field_name row <> key) ->
  forall mappings, dict_get key (load_rows rows mappings) = dict_get key mappings.
Proof.
  induction rows as [| row rest IH]; intros Hother mappings; [reflexivity|].
  cbn [load_rows]. destruct (row_loaded row) eqn:Hrow.
  - rewrite IH by (intros r Hr; apply Hother; right; exact Hr).
    apply dict_get_set_other. intro Heq.
    apply (Hother row (or_introl eq_refl) Hrow). now symmetry.
  - apply IH. intros r Hr. apply Hother. right. exact Hr.
Qed.

(** X7. When several rows derive the same field name, the last of them
    wins: looking a field name up in the loaded table gives the mapping
    built from the last row taken with that name, and the mappings of the
    earlier ones are gone without notice. *)
Theorem later_row_overwrites_same_field_name
    (before after : list ReferenceRow) (row : ReferenceRow) :
  row_loaded row = true ->
  (forall later, In later after -> row_loaded later = true ->
                 row_field_name later <> row_field_name row) ->
  dict_get (row_field_name row) (load_rows (before ++ row :: after) [])
    = Some (mapping_of_row row).
Proof.
  intros Hrow Hlast. rewrite load_rows_app. cbn [load_rows]. rewrite Hrow.
  rewrite (load_rows_keeps_entry after (row_field_name row) Hlast).
  apply dict_get_set_same.
Qed.

Lemma later_row_overwrites_same_field_name_witness :
  row_field_name units_row_first = row_field_name units_row_second /\
  dict_get "UNITS" (load_rows [units_row_first; units_row_second] [])
    = Some (mapping_of_row units_row_second).
Proof.
  split; [reflexivity|].
  apply (later_row_overwrites_same_field_name [units_row_first] [] units_row_second).
  - reflexivity.
  - intros later [].
Defined.

(** ** Rows skipped and rows stored *)









(** ** Field names *)

Lemma occurs_append (x : ascii) (a b : string) :
  occurs x (a ++ b) = occurs x a || occurs x b.
Proof.
  induction a as [| ch a IH]; simpl; [reflexivity|].
  now rewrite IH, orb_assoc.
Qed.

Lemma all_chars_append (p : ascii -> bool) (a b : string) :
  all_chars p (a ++ b) = all_chars p a && all_chars p b.
Proof.
  induction a as [| ch a IH]; simpl; [reflexivity|].
  now rewrite IH, andb_assoc.
Qed.

(** A replacement brings in no character that is neither in the string nor
    in the replacement text. *)
Lemma occurs_replace_from (x : ascii) (old new : string) (s : string) :
  forall skip,
    occurs x s = false -> occurs x new = false ->
    occurs x (replace_from old new skip s) = false.
Proof.
  induction s as [| ch s IH]; intros skip Hs Hnew; [reflexivity|].
  cbn [occurs] in Hs. apply orb_false_iff in Hs. destruct Hs as [Hch Hs].
  cbn [replace_from]. destruct skip as [| k]; [|now apply IH].
  destruct (prefix old (String ch s)).
  - rewrite occurs_append, Hnew. now apply IH.
  - cbn [occurs]. rewrite Hch. now apply IH.
Qed.

(** Replacing a single character removes it when the replacement text does
    not hold it. *)
Lemma occurs_replace_char (x : ascii) (new s : string) :
  occurs x new = false ->
  occurs x (replace (String x EmptyString) new s) = false.
Proof.
  intro Hnew. unfold replace. induction s as [| ch s IH]; [reflexivity|].
  assert (Hp : prefix (String x EmptyString) (String ch s)
               = if ascii_dec x ch then true else false).
  { simpl. destruct (ascii_dec x ch); [destruct s|]; reflexivity. }
  cbn [replace_from]. rewrite Hp.
  destruct (ascii_dec x ch) as [<- | Hneq].
  - change (String.length (String x EmptyString) - 1) with 0.
    rewrite occurs_append, Hnew. exact IH.
  - cbn [occurs]. rewrite IH, orb_false_r.
    apply Ascii.eqb_neq. intro H. apply Hneq. now symmetry.
Qed.

Lemma all_chars_replace_from (p : ascii -> bool) (old new : string) (s : string) :
  all_chars p new = true ->
  forall skip,
    all_chars p s = true -> all_chars p (replace_from old new skip s) = true.
Proof.
  intro Hnew. induction s as [| ch s IH]; intros skip Hs; [reflexivity|].
  cbn [all_chars] in Hs. apply andb_true_iff in Hs. destruct Hs as [Hch Hs].
  cbn [replace_from]. destruct skip as [| k]; [|now apply IH].
  destruct (prefix old (String ch s)).
  - rewrite all_chars_append, Hnew. now apply IH.
  - cbn [all_chars]. rewrite Hch. now apply IH.
Qed.

Lemma ord_ascii_of_nat (n : nat) : n < 256 -> ord (ascii_of_nat n) = n.
Proof. intro H. unfold ord. now apply nat_ascii_embedding. Qed.

Lemma ord_bound (ch : ascii) : ord ch < 256.
Proof. unfold ord. apply nat_ascii_bounded. Qed.

Lemma ord_inj (a b : ascii) : ord a = ord b -> a = b.
Proof.
  unfold ord. intro H.
  rewrite <- (ascii_nat_embedding a), <- (ascii_nat_embedding b). now rewrite H.
Qed.

(** Upper-casing neither creates nor removes a character that is not a
    letter. *)
Lemma upper_char_other (x ch : ascii) :
  is_AZ x = false -> is_az x = false ->
  Ascii.eqb (upper_char ch) x = Ascii.eqb ch x.
Proof.
  intros HAZ Haz. unfold upper_char. destruct (is_az ch) eqn:Hch; [|reflexivity].
  assert (Hne : ch <> x) by (intros ->; congruence).
  apply Ascii.eqb_neq in Hne. rewrite Hne. apply Ascii.eqb_neq. intros <-.
  unfold is_az in Hch. apply andb_true_iff in Hch. destruct Hch as [Hlo Hhi].
  apply Nat.leb_le in Hlo. apply Nat.leb_le in Hhi.
  unfold is_AZ in HAZ. rewrite ord_ascii_of_nat in HAZ by lia.
  apply andb_false_iff in HAZ. destruct HAZ as [H | H]; apply Nat.leb_gt in H; lia.
Qed.

Lemma occurs_upper_other (x : ascii) (s : string) :
  is_AZ x = false -> is_az x = false -> occurs x (upper s) = occurs x s.
Proof.
  intros HAZ Haz. induction s as [| ch s IH]; simpl; [reflexivity|].
  fold (upper s). now rewrite IH, upper_char_other.
Qed.

Lemma upper_char_not_az (ch : ascii) : is_az (upper_char ch) = false.
Proof. destruct ch as [[] [] [] [] [] [] [] []]; reflexivity. Qed.

Lemma upper_no_az (s : string) :
  all_chars (fun ch => negb (is_az ch)) (upper s) = true.
Proof.
  induction s as [| ch s IH]; simpl; [reflexivity|].
  fold (upper s). now rewrite upper_char_not_az, IH.
Qed.

Lemma occurs_collapse_underscores (x : ascii) (fuel : nat) :
  Ascii.eqb "_" x = false ->
  forall s, occurs x s = false -> occurs x (collapse_underscores fuel s) = false.
Proof.
  intro Hx. induction fuel as [| fuel IH]; intros s Hs; [exact Hs|].
  cbn [collapse_underscores]. destruct (contains "__" s); [|exact Hs].
  apply IH. unfold replace. apply occurs_replace_from; [exact Hs|].
  cbn [occurs]. now rewrite Hx.
Qed.

Lemma all_chars_collapse_underscores (p : ascii -> bool) (fuel : nat) :
  p "_"%char = true ->
  forall s, all_chars p s = true -> all_chars p (collapse_underscores fuel s) = true.
Proof.
  intro Hp. induction fuel as [| fuel IH]; intros s Hs; [exact Hs|].
  cbn [collapse_underscores]. destruct (contains "__" s); [|exact Hs].
  apply IH. unfold replace. apply all_chars_replace_from; [|exact Hs].
  cbn [all_chars]. now rewrite Hp.
Qed.

(** The seven steps of [_clean_field_name] before the loop leave none of the
    six characters they replace or delete. *)
Lemma clean_steps_remove (x : ascii) (s : string) :
  In x [" "; "-"; "("; ")"; "/"; "."]%char ->
  occurs x
    (upper (replace "." "" (replace "/" "_" (replace ")" "" (replace "(" ""
       (replace "-" "_" (replace " " "_" s))))))) = false.
Proof.
  intro Hin.
  assert (Hkeep : forall old new t,
             occurs x new = false -> occurs x t = false ->
             occurs x (replace old new t) = false).
  { intros old new t Hnew Ht. unfold replace. now apply occurs_replace_from. }
  assert (Hus : occurs x "_" = false /\ occurs x "" = false).
  { simpl in Hin.
    repeat (destruct Hin as [<- | Hin]; [split; reflexivity|]). contradiction. }
  destruct Hus as [Hu He].
  rewrite occurs_upper_other.
  2,3: simpl in Hin;
       repeat (destruct Hin as [<- | Hin]; [reflexivity|]); contradiction.
  simpl in Hin.
  destruct Hin as [<- | [<- | [<- | [<- | [<- | [<- | []]]]]]].
  - do 5 (apply Hkeep; [reflexivity|]). now apply occurs_replace_char.
  - do 4 (apply Hkeep; [reflexivity|]). now apply occurs_replace_char.
  - do 3 (apply Hkeep; [reflexivity|]). now apply occurs_replace_char.
  - do 2 (apply Hkeep; [reflexivity|]). now apply occurs_replace_char.
  - apply Hkeep; [reflexivity|]. now apply occurs_replace_char.
  - now apply occurs_replace_char.
Qed.

(** X8. The field name [_clean_field_name] derives from a description has
    no two adjacent underscores (its loop has run to the end), holds none
    of the characters blank, [-], [(], [)], [/] and [.], and holds no
    lower-case letter. *)
Theorem clean_field_name_shape (description : string) :
  contains "__" (_clean_field_name description) = false /\
  Forall (fun x => occurs x (_clean_field_name description) = false)
         [" "; "-"; "("; ")"; "/"; "."]%char /\
  all_chars (fun ch => negb (is_az ch)) (_clean_field_name description) = true.
Proof.
  split; [apply clean_field_name_collapsed|]. split.
  - apply Forall_forall. intros x Hin. unfold _clean_field_name.
    apply occurs_collapse_underscores.
    + simpl in Hin.
      repeat (destruct Hin as [<- | Hin]; [reflexivity|]). contradiction.
    + now apply clean_steps_remove.
  - unfold _clean_field_name.
    apply all_chars_collapse_underscores; [reflexivity | apply upper_no_az].
Qed.

(** ** Trimming *)

Lemma append_assoc (a b c : string) : (a ++ b) ++ c = a ++ (b ++ c).
Proof. induction a as [| ch a IH]; simpl; [reflexivity | now rewrite IH]. Qed.

Lemma lstrip_suffix (s : string) : exists a, s = a ++ lstrip s.
Proof.
  induction s as [| ch s [a IH]]; simpl.
  - exists "". reflexivity.
  - destruct (isspace ch).
    + exists (String ch a). simpl. now rewrite <- IH.
    + exists "". reflexivity.
Qed.

Lemma rstrip_prefix (s : string) : exists b, s = rstrip s ++ b.
Proof.
  induction s as [| ch s [b IH]]; simpl.
  - exists "". reflexivity.
  - destruct (rstrip s) as [| ch' t] eqn:E.
    + destruct (isspace ch).
      * exists (String ch s). reflexivity.
      * exists s. reflexivity.
    + exists b. simpl. simpl in IH. now rewrite <- IH.
Qed.

(** The trimmed string sits inside the string. *)
Lemma strip_inside (s : string) : exists a b, s = a ++ strip s ++ b.
Proof.
  unfold strip. destruct (lstrip_suffix s) as [a Ha].
  destruct (rstrip_prefix (lstrip s)) as [b Hb].
  exists a, b. now rewrite <- Hb.
Qed.

Lemma contains_strip (n s : string) :
  contains n (strip s) = true -> contains n s = true.
Proof.
  intro H. apply contains_spec in H. destruct H as (pre & post & Hs).
  destruct (strip_inside s) as (a & b & Hab).
  apply contains_spec. exists (a ++ pre), (post ++ b).
  rewrite Hab at 1. rewrite Hs. now rewrite !append_assoc.
Qed.

Lemma rstrip_rstrip (s : string) : rstrip (rstrip s) = rstrip s.
Proof.
  induction s as [| ch s IH]; [reflexivity|].
  cbn [rstrip]. destruct (rstrip s) as [| ch' t] eqn:E.
  - destruct (isspace ch) eqn:Hch; [reflexivity|].
    cbn [rstrip]. now rewrite Hch.
  - cbn [rstrip]. cbn [rstrip] in IH. rewrite IH. reflexivity.
Qed.

Lemma lstrip_head (s : string) :
  match lstrip s with
  | EmptyString => True
  | String ch _ => isspace ch = false
  end.
Proof.
  induction s as [| ch s IH]; simpl; [exact I|].
  destruct (isspace ch) eqn:E; [exact IH | exact E].
Qed.

Lemma rstrip_keeps_head (ch : ascii) (s : string) :
  isspace ch = false -> exists t, rstrip (String ch s) = String ch t.
Proof.
  intro Hch. cbn [rstrip]. destruct (rstrip s) as [| ch' t'].
  - rewrite Hch. now exists "".
  - now exists (String ch' t').
Qed.

(** Trimming twice is trimming once. *)
Lemma strip_strip (s : string) : strip (strip s) = strip s.
Proof.
  unfold strip. pose proof (lstrip_head s) as Hhead.
  destruct (lstrip s) as [| ch u]; [reflexivity|].
  destruct (rstrip_keeps_head ch u Hhead) as [t Ht].
  rewrite Ht. cbn [lstrip]. rewrite Hhead. rewrite <- Ht. apply rstrip_rstrip.
Qed.

Lemma lower_empty (s : string) : lower s = "" -> s = "".
Proof. destruct s; [reflexivity | discriminate]. Qed.

(** ** The value classifier, continued *)

(** What [process_cell_value] does with a string it lets through. *)
Lemma process_string_returned s field sheet address h text h' :
  process_cell_value (VStr s) field sheet address h = (Ok (VStr text), h') ->
  text = strip s /\ h' = h /\
  find (fun error_code => contains error_code s) excel_errors = None /\
  str_in (strip (lower s)) missing_indicators = false.
Proof.
  unfold process_cell_value.
  destruct (String.eqb s ""); [discriminate|].
  destruct (find (fun error_code => contains error_code s) excel_errors) as [code|];
    [discriminate|].
  destruct (str_in (strip (lower s)) missing_indicators) eqn:E; [discriminate|].
  intro H. injection H as <- <-. repeat split.
Qed.

Lemma no_code_in_strip (s : string) :
  find (fun error_code => contains error_code s) excel_errors = None ->
  find (fun error_code => contains error_code (strip s)) excel_errors = None.
Proof.
  intro Hnone.
  destruct (find (fun error_code => contains error_code (strip s)) excel_errors)
    as [code|] eqn:E; [|reflexivity].
  destruct (find_some _ _ E) as [Hin Hc]. apply contains_strip in Hc.
  pose proof (find_none _ _ Hnone code Hin) as Hn. simpl in Hn. congruence.
Qed.

(** X9. A string that [process_cell_value] returns as a value is the cell
    text trimmed: it is not empty, has no white space at either end (trimming
    it again changes nothing), holds no formula error code and is no
    missing-value text; and nothing was recorded for it. *)
Theorem returned_string_is_trimmed s field sheet address h text h' :
  process_cell_value (VStr s) field sheet address h = (Ok (VStr text), h') ->
  text = strip s /\ text <> "" /\ strip text = text /\
  (forall code, In code excel_errors -> contains code text = false) /\
  ~ In (lower text) missing_indicators /\
  h' = h.
Proof.
  intro Hrun.
  destruct (process_string_returned _ _ _ _ _ _ _ Hrun) as (-> & -> & Hcodes & Hmiss).
  rewrite <- lower_strip in Hmiss.
  assert (Hnot : ~ In (lower (strip s)) missing_indicators).
  { intro Hin. apply str_in_In in Hin. congruence. }
  repeat split.
  - intro Hempty. apply Hnot. rewrite Hempty. simpl. tauto.
  - apply strip_strip.
  - intros code Hin.
    exact (find_none _ _ (no_code_in_strip s Hcodes) code Hin).
  - exact Hnot.
Qed.

Lemma returned_string_is_trimmed_witness :
  process_cell_value (VStr "  Phoenix ") "CITY" "Summary" "D8" ErrorHandler_init
    = (Ok (VStr "Phoenix"), ErrorHandler_init) /\
  strip "Phoenix" = "Phoenix".
Proof.
  split; [reflexivity|].
  apply (returned_string_is_trimmed "  Phoenix " "CITY" "Summary" "D8"
           ErrorHandler_init "Phoenix" ErrorHandler_init eq_refl).
Defined.

(** X10. Handing a returned value to [process_cell_value] again changes
    nothing: for every raw value of a spreadsheet type (null, string,
    number, boolean, date-time), the value returned comes back as it is,
    and the second call records no diagnostic. *)
Theorem process_cell_value_idempotent
    value field sheet address h out h' field2 sheet2 address2 :
  (forall text, value <> VOther text) ->
  process_cell_value value field sheet address h = (Ok out, h') ->
  process_cell_value out field2 sheet2 address2 h' = (Ok out, h').
Proof.
  intros Hother Hrun.
  destruct value as [| s | z | f | b | iso | text].
  - unfold process_cell_value in Hrun. injection Hrun as <- <-. reflexivity.
  - destruct out as [| t | z | f | b | iso | text];
      try (unfold process_cell_value in Hrun;
           destruct (String.eqb s ""); [discriminate Hrun|];
           destruct (find (fun error_code => contains error_code s) excel_errors);
             [discriminate Hrun|];
           destruct (str_in (strip (lower s)) missing_indicators);
             discriminate Hrun).
    + destruct (process_string_returned _ _ _ _ _ _ _ Hrun) as (-> & -> & Hcodes & Hmiss).
      unfold process_cell_value.
      assert (Hne : String.eqb (strip s) "" = false).
      { apply String.eqb_neq. intro Hempty.
        rewrite <- lower_strip, Hempty in Hmiss. discriminate Hmiss. }
      rewrite Hne, (no_code_in_strip s Hcodes).
      rewrite <- lower_strip, strip_strip, lower_strip, Hmiss. reflexivity.
    + unfold process_cell_value in Hrun.
      destruct (String.eqb s "").
      { injection Hrun as <- <-. reflexivity. }
      destruct (find (fun error_code => contains error_code s) excel_errors).
      { injection Hrun as <- <-. reflexivity. }
      destruct (str_in (strip (lower s)) missing_indicators);
        [injection Hrun as <- <-; reflexivity | discriminate Hrun].
  - unfold process_cell_value in Hrun. injection Hrun as <- <-. reflexivity.
  - unfold process_cell_value in Hrun.
    destruct (float_non_finite f) eqn:E; injection Hrun as <- <-.
    + reflexivity.
    + unfold process_cell_value. now rewrite E.
  - unfold process_cell_value in Hrun. injection Hrun as <- <-. reflexivity.
  - unfold process_cell_value in Hrun. injection Hrun as <- <-. reflexivity.
  - exfalso. exact (Hother text eq_refl).
Qed.

Lemma process_cell_value_idempotent_witness :
  process_cell_value (VStr "Phoenix") "X" "Y" "Z1" ErrorHandler_init
    = (Ok (VStr "Phoenix"), ErrorHandler_init).
Proof.
  apply (process_cell_value_idempotent (VStr "  Phoenix ") "CITY" "Summary" "D8"
           ErrorHandler_init (VStr "Phoenix") ErrorHandler_init "X" "Y" "Z1").
  - intros text H. discriminate H.
  - reflexivity.
Defined.

(** X11. The value [process_cell_value] returns depends on the raw value
    alone, not on the field name, the sheet, the address or the state of
    the handler; so the module-level function returns the same value with
    and without a handler, and without one the diagnostic is not kept
    anywhere. *)
Theorem returned_value_ignores_context
    value field sheet address h field2 sheet2 address2 h2 :
  fst (process_cell_value value field sheet address h)
    = fst (process_cell_value value field2 sheet2 address2 h2) /\
  fst (process_cell_value_with_error_handling value field sheet address None)
    = fst (process_cell_value_with_error_handling value field sheet address (Some h)) /\
  snd (process_cell_value_with_error_handling value field sheet address None) = None.
Proof.
  assert (Hfst : forall f1 s1 a1 h1 f2 s2 a2 h2',
             fst (process_cell_value value f1 s1 a1 h1)
               = fst (process_cell_value value f2 s2 a2 h2')).
  { intros. destruct value as [| s | z | f | b | iso | [text|]];
      unfold process_cell_value; try reflexivity.
    - destruct (String.eqb s ""); [reflexivity|].
      destruct (find (fun error_code => contains error_code s) excel_errors);
        [reflexivity|].
      destruct (str_in (strip (lower s)) missing_indicators); reflexivity.
    - destruct (float_non_finite f); reflexivity. }
  split; [apply Hfst|]. split; [apply Hfst | reflexivity].
Qed.

Lemma existsb_find {A : Type} (f : A -> bool) (l : list A) :
  existsb f l = true -> exists x, find f l = Some x.
Proof.
  intro H. apply existsb_exists in H. destruct H as (x & Hin & Hx).
  exact (find_finds f l x Hin Hx).
Qed.

(** X12. Whatever the earlier cleaner [_process_cell_value] of the extractor
    turns into the NaN marker, [process_cell_value] turns into the NaN
    marker too; and a string that [process_cell_value] returns as a value is
    one the earlier cleaner returns untrimmed. *)
Theorem handler_at_least_as_strict_as_cleaner value field sheet address h :
  (_process_cell_value value = np_nan ->
   fst (process_cell_value value field sheet address h) = Ok np_nan) /\
  (forall s text,
      value = VStr s ->
      fst (process_cell_value value field sheet address h) = Ok (VStr text) ->
      _process_cell_value value = VStr s /\ text = strip s).
Proof.
  split.
  - destruct value as [| s | z | f | b | iso | text];
      unfold _process_cell_value, process_cell_value; try discriminate.
    + reflexivity.
    + destruct (String.eqb s ""); [reflexivity|].
      destruct (existsb (fun err => contains err s) excel_errors) eqn:E;
        [|discriminate].
      destruct (existsb_find _ _ E) as [code Hfind]. now rewrite Hfind.
    + intro H. injection H as ->. reflexivity.
  - intros s text -> Hrun.
    destruct (process_cell_value (VStr s) field sheet address h) as [r h'] eqn:Hp.
    simpl in Hrun. subst r.
    destruct (process_string_returned _ _ _ _ _ _ _ Hp) as (-> & _ & Hcodes & _).
    split; [|reflexivity].
    unfold _process_cell_value.
    assert (Hne : String.eqb s "" = false).
    { unfold process_cell_value in Hp. destruct (String.eqb s ""); [discriminate | reflexivity]. }
    rewrite Hne.
    destruct (existsb (fun err => contains err s) excel_errors) eqn:E; [|reflexivity].
    destruct (existsb_find _ _ E) as [code Hfind]. congruence.
Qed.

Lemma handler_at_least_as_strict_as_cleaner_witness :
  fst (process_cell_value (VStr "#REF!") "NOI" "Summary" "B2" ErrorHandler_init)
    = Ok np_nan.
Proof.
  apply (handler_at_least_as_strict_as_cleaner (VStr "#REF!") "NOI" "Summary" "B2"
           ErrorHandler_init).
  reflexivity.
Defined.

(** ** Addresses, continued *)

(** X13. The address match of the [pyxlsb] branch accepts exactly a
    non-empty run of letters A-Z followed by a non-empty run of digits and,
    as Python's [$] allows, one optional final line feed; the two groups it
    returns are those runs. *)
Theorem address_match_characterised (s col_str row_str : string) :
  match_address s = Some (col_str, row_str) <-> well_formed_address s col_str row_str.
Proof.
  split; [apply match_address_sound | apply match_address_complete].
Qed.

Lemma process_value_context_free value f1 s1 a1 h1 f2 s2 a2 h2 :
  fst (process_cell_value value f1 s1 a1 h1)
    = fst (process_cell_value value f2 s2 a2 h2).
Proof.
  destruct value as [| s | z | f | b | iso | [text|]];
    unfold process_cell_value; try reflexivity.
  - destruct (String.eqb s ""); [reflexivity|].
    destruct (find (fun error_code => contains error_code s) excel_errors);
      [reflexivity|].
    destruct (str_in (strip (lower s)) missing_indicators); reflexivity.
  - destruct (float_non_finite f); reflexivity.
Qed.

Lemma extract_cell_value_fst workbook sheet address field h :
  fst (_extract_cell_value workbook sheet address field h)
    = match fst (extract_cell_try workbook sheet address field h) with
      | Ok value => Ok value
      | Raise _ => Ok np_nan
      end.
Proof.
  unfold _extract_cell_value.
  destruct (extract_cell_try workbook sheet address field h) as [[value | msg] h'];
    reflexivity.
Qed.

(** X14. On a [pyxlsb] workbook the value resolved for an address does not
    depend on its [$] signs or on the case of its letters, nor on the field
    name or the state of the handler: two addresses that clean to the same
    text resolve to the same value. *)
Theorem xlsb_value_ignores_dollars_and_case
    wb sheet address1 address2 field1 field2 h1 h2 :
  upper (replace "$" "" address1) = upper (replace "$" "" address2) ->
  fst (_extract_cell_value (Xlsb wb) sheet address1 field1 h1)
    = fst (_extract_cell_value (Xlsb wb) sheet address2 field2 h2).
Proof.
  intro Hclean. rewrite !extract_cell_value_fst.
  assert (Htry : fst (extract_cell_try (Xlsb wb) sheet address1 field1 h1)
                 = fst (extract_cell_try (Xlsb wb) sheet address2 field2 h2)).
  { unfold extract_cell_try, extract_xlsb. rewrite Hclean.
    destruct (negb (str_in sheet (pyxlsb.sheets wb))); [reflexivity|].
    destruct (match_address (upper (replace "$" "" address2))) as [[col_str row_str]|];
      [|reflexivity].
    unfold native_target.
    destruct (pyxlsb.get_sheet wb sheet) as [opened | msg]; [|reflexivity].
    destruct (first_scan _ _ (pyxlsb.rows opened) 0) as [[found|] rows_checked].
    { apply process_value_context_free. }
    destruct (pyxlsb.rows_raise opened); [reflexivity|].
    destruct (second_scan _ _ (pyxlsb.rows opened)).
    { apply process_value_context_free. }
    reflexivity. }
  now rewrite Htry.
Qed.

Lemma xlsb_value_ignores_dollars_and_case_witness :
  fst (_extract_cell_value (Xlsb summary_xlsb) "Summary" "$d$6" "UNITS" ErrorHandler_init)
    = fst (_extract_cell_value (Xlsb summary_xlsb) "Summary" "D6" "UNITS" ErrorHandler_init).
Proof.
  apply (xlsb_value_ignores_dollars_and_case summary_xlsb "Summary" "$d$6" "D6"
           "UNITS" "UNITS" ErrorHandler_init ErrorHandler_init).
  reflexivity.
Defined.

(** ** Column numbers *)

Lemma string_snoc_cases (s : string) :
  s = "" \/ exists init last, s = init ++ String last EmptyString.
Proof.
  induction s as [| ch s IH]; [left; reflexivity|]. right.
  destruct IH as [-> | (init & last & ->)].
  - exists "", ch. reflexivity.
  - exists (String ch init), last. reflexivity.
Qed.

Lemma append_length (a b : string) :
  String.length (a ++ b) = String.length a + String.length b.
Proof. induction a as [| ch a IH]; simpl; [reflexivity | now rewrite IH]. Qed.

Lemma column_from_snoc (s : string) (last : ascii) :
  forall acc,
    column_from acc (s ++ String last EmptyString)
      = (column_from acc s * 26 + (Z.of_nat (ord last) - 64))%Z.
Proof.
  induction s as [| ch s IH]; intro acc.
  - cbn [append column_from]. change (Z.of_nat (ord "A"%char)) with 65%Z. lia.
  - cbn [append column_from]. apply IH.
Qed.

Lemma AZ_range (ch : ascii) :
  is_AZ ch = true -> (1 <= Z.of_nat (ord ch) - 64 <= 26)%Z.
Proof.
  unfold is_AZ. intro H. apply andb_true_iff in H. destruct H as [Hlo Hhi].
  apply Nat.leb_le in Hlo. apply Nat.leb_le in Hhi. lia.
Qed.

Lemma column_from_nonneg (s : string) :
  all_chars is_AZ s = true -> (0 <= column_from 0 s)%Z.
Proof.
  intro Hs. remember (String.length s) as n eqn:Hn. revert s Hs Hn.
  induction n as [| n IH]; intros s Hs Hn.
  - destruct s; [simpl; lia | discriminate].
  - destruct (string_snoc_cases s) as [-> | (init & last & ->)]; [simpl; lia|].
    rewrite all_chars_append in Hs. apply andb_true_iff in Hs. destruct Hs as [Hi Hl].
    cbn [all_chars] in Hl. rewrite andb_true_r in Hl.
    rewrite append_length in Hn. cbn [String.length] in Hn.
    rewrite column_from_snoc. pose proof (AZ_range last Hl).
    assert (0 <= column_from 0 init)%Z by (apply (IH init Hi); lia). lia.
Qed.

Lemma column_from_positive (s : string) :
  s <> "" -> all_chars is_AZ s = true -> (1 <= column_from 0 s)%Z.
Proof.
  intros Hne Hs.
  destruct (string_snoc_cases s) as [-> | (init & last & ->)]; [contradiction|].
  rewrite all_chars_append in Hs. apply andb_true_iff in Hs. destruct Hs as [Hi Hl].
  cbn [all_chars] in Hl. rewrite andb_true_r in Hl.
  rewrite column_from_snoc. pose proof (AZ_range last Hl).
  pose proof (column_from_nonneg init Hi). lia.
Qed.

Lemma column_from_injective (n : nat) :
  forall s1 s2,
    String.length s1 <= n ->
    all_chars is_AZ s1 = true -> all_chars is_AZ s2 = true ->
    column_from 0 s1 = column_from 0 s2 -> s1 = s2.
Proof.
  induction n as [| n IH]; intros s1 s2 Hlen H1 H2 Heq.
  - destruct s1; [|simpl in Hlen; lia].
    destruct s2 as [| ch s2]; [reflexivity|].
    pose proof (column_from_positive (String ch s2) ltac:(discriminate) H2) as Hpos.
    change (column_from 0 "") with 0%Z in Heq. lia.
  - destruct (string_snoc_cases s1) as [-> | (i1 & l1 & ->)].
    + destruct s2 as [| ch s2]; [reflexivity|].
      pose proof (column_from_positive (String ch s2) ltac:(discriminate) H2) as Hpos.
      change (column_from 0 "") with 0%Z in Heq. lia.
    + destruct (string_snoc_cases s2) as [-> | (i2 & l2 & ->)].
      * assert (Hne : i1 ++ String l1 EmptyString <> "") by (destruct i1; discriminate).
        pose proof (column_from_positive (i1 ++ String l1 EmptyString) Hne H1) as Hpos.
        change (column_from 0 "") with 0%Z in Heq. lia.
      * rewrite all_chars_append in H1, H2.
        apply andb_true_iff in H1. destruct H1 as [Hi1 Hl1].
        apply andb_true_iff in H2. destruct H2 as [Hi2 Hl2].
        cbn [all_chars] in Hl1, Hl2. rewrite andb_true_r in Hl1, Hl2.
        rewrite !column_from_snoc in Heq.
        pose proof (AZ_range l1 Hl1). pose proof (AZ_range l2 Hl2).
        rewrite append_length in Hlen. cbn [String.length] in Hlen.
        assert (Hcols : column_from 0 i1 = column_from 0 i2) by lia.
        assert (Hlast : ord l1 = ord l2) by lia.
        rewrite (IH i1 i2 ltac:(lia) Hi1 Hi2 Hcols), (ord_inj _ _ Hlast). reflexivity.
Qed.

(** X15. The column loop numbers the column letter runs one to one: every
    non-empty run of letters A-Z gets a number of at least 1 (so the native
    column is never negative), and two different runs never get the same
    number. *)
Theorem column_numbering_one_to_one (letters1 letters2 : string) :
  all_chars is_AZ letters1 = true -> all_chars is_AZ letters2 = true ->
  (letters1 <> "" -> (0 <= snd (native_target letters1 "1"))%Z) /\
  (column_from 0 letters1 = column_from 0 letters2 -> letters1 = letters2).
Proof.
  intros H1 H2. split.
  - intro Hne. unfold native_target. cbn [snd].
    pose proof (column_from_positive letters1 Hne H1). lia.
  - apply (column_from_injective (String.length letters1)); [lia | exact H1 | exact H2].
Qed.

Lemma column_numbering_one_to_one_witness :
  (0 <= snd (native_target "AZ" "1"))%Z.
Proof.
  apply (column_numbering_one_to_one "AZ" "B" eq_refl eq_refl).
  discriminate.
Defined.

(** ** The scan of a sheet, continued *)

(** X16. The second pass over the sheet never changes the outcome: it
    finds a cell exactly when the first pass has found it, and then the
    same one. *)
Theorem second_pass_finds_nothing_new
    (target_row target_col : Z) (rows : list (list pyxlsb.Cell)) :
  (forall n,
      second_scan target_row target_col rows
        = fst (first_scan target_row target_col rows n)) /\
  (fst (first_scan target_row target_col rows 0) = None ->
   second_scan target_row target_col rows = None).
Proof.
  assert (Hsame : forall n,
             second_scan target_row target_col rows
               = fst (first_scan target_row target_col rows n)).
  { induction rows as [| row_data rest IH]; intro n; [reflexivity|].
    destruct row_data as [| cell cells].
    - cbn [second_scan first_scan find_in_row]. apply IH.
    - cbn [second_scan first_scan].
      destruct (find_in_row target_row target_col (cell :: cells));
        [reflexivity | apply IH]. }
  split; [exact Hsame|].
  intro Hnone. now rewrite (Hsame 0).
Qed.

Lemma cell_at_absent (row col : Z) (rows : list (list pyxlsb.Cell)) :
  Forall (Forall (fun cell => pyxlsb.r cell <> row)) rows ->
  cell_at row col rows = None.
Proof.
  unfold cell_at. intro H. induction H as [| row_data rest Hrow _ IH]; [reflexivity|].
  cbn [concat]. rewrite find_in_row_app, IH.
  induction Hrow as [| cell cells Hcell _ IHc]; [reflexivity|].
  cbn [find_in_row]. apply Z.eqb_neq in Hcell. now rewrite Hcell.
Qed.

(** X17. An address whose row number is 0, such as ["A0"], passes the
    address match; on a sheet that opens and enumerates its cells with
    native rows from 0 on, it is never found: the lookup returns the NaN
    marker and records a cell-not-found diagnostic, not an invalid-address
    one. *)
Theorem row_zero_is_cell_not_found wb sheet address field h L R opened :
  well_formed_address (upper (replace "$" "" address)) L R ->
  int_of_digits R = 0%Z ->
  str_in sheet (pyxlsb.sheets wb) = true ->
  pyxlsb.get_sheet wb sheet = Ok opened ->
  pyxlsb.rows_raise opened = None ->
  Forall (Forall (fun cell => (0 <= pyxlsb.r cell)%Z)) (pyxlsb.rows opened) ->
  fst (_extract_cell_value (Xlsb wb) sheet address field h) = Ok np_nan /\
  logs_one CELL_NOT_FOUND h (snd (_extract_cell_value (Xlsb wb) sheet address field h)).
Proof.
  intros Hwf Hzero Hsheet Hopen Hraise Hrows.
  apply match_address_complete in Hwf.
  unfold _extract_cell_value, extract_cell_try.
  rewrite (extract_xlsb_scan wb sheet address field h L R opened Hsheet Hwf Hopen).
  unfold native_target. cbn [fst snd]. rewrite Hzero.
  rewrite cell_at_absent.
  - rewrite Hraise. split; [reflexivity | apply cell_not_found_logs].
  - eapply Forall_impl; [|exact Hrows]. intros row_data Hrow.
    eapply Forall_impl; [|exact Hrow]. intros cell Hcell. simpl in Hcell. lia.
Qed.

Lemma row_zero_is_cell_not_found_witness :
  fst (_extract_cell_value (Xlsb summary_xlsb) "Summary" "A0" "UNITS" ErrorHandler_init)
    = Ok np_nan.
Proof.
  assert (Hwf : well_formed_address (upper (replace "$" "" "A0")) "A" "0").
  { repeat split; try discriminate. left. reflexivity. }
  apply (row_zero_is_cell_not_found summary_xlsb "Summary" "A0" "UNITS"
           ErrorHandler_init "A" "0"
           {| pyxlsb.rows :=
                [[]; [{| pyxlsb.r := 5%Z; pyxlsb.c := 3%Z;
                         pyxlsb.v := VFloat (S754_finite false 77 1) |}]];
              pyxlsb.rows_raise := None |}
           Hwf eq_refl eq_refl eq_refl eq_refl).
  repeat constructor; simpl; lia.
Defined.

(** ** The most common errors *)

Lemma insert_by_count_permutation (x : CommonError) (l : list CommonError) :
  Permutation (insert_by_count x l) (x :: l).
Proof.
  induction l as [| y ys IH]; simpl; [apply Permutation_refl|].
  destruct (ce_count y <=? ce_count x); [apply Permutation_refl|].
  eapply Permutation_trans; [apply perm_skip; exact IH | apply perm_swap].
Qed.

Lemma sort_by_count_permutation (l : list CommonError) :
  Permutation (sort_by_count l) l.
Proof.
  unfold sort_by_count. induction l as [| x l IH]; simpl; [constructor|].
  eapply Permutation_trans; [apply insert_by_count_permutation|].
  now apply perm_skip.
Qed.

Lemma insert_by_count_sorted (x : CommonError) (l : list CommonError) :
  StronglySorted by_count_desc l -> StronglySorted by_count_desc (insert_by_count x l).
Proof.
  induction 1 as [| y ys Hsorted IH Hall]; simpl.
  - repeat constructor.
  - destruct (ce_count y <=? ce_count x) eqn:E.
    + apply Nat.leb_le in E. constructor.
      * now constructor.
      * constructor; [exact E|].
        eapply Forall_impl; [|exact Hall]. unfold by_count_desc. intros z Hz. lia.
    + apply Nat.leb_gt in E. constructor; [exact IH|].
      apply (Permutation_Forall (Permutation_sym (insert_by_count_permutation x ys))).
      constructor; [unfold by_count_desc; lia | exact Hall].
Qed.

Lemma sort_by_count_sorted (l : list CommonError) :
  StronglySorted by_count_desc (sort_by_count l).
Proof.
  unfold sort_by_count. induction l as [| x l IH]; simpl; [constructor|].
  now apply insert_by_count_sorted.
Qed.

Lemma firstn_incl {A : Type} (n : nat) (l : list A) : incl (firstn n l) l.
Proof.
  revert l. induction n as [| n IH]; intros l x Hin; [destruct Hin|].
  destruct l as [| y l]; [destruct Hin|].
  destruct Hin as [<- | Hin]; [left; reflexivity | right; now apply IH].
Qed.

Lemma firstn_sorted {A : Type} (R : A -> A -> Prop) (n : nat) (l : list A) :
  StronglySorted R l -> StronglySorted R (firstn n l).
Proof.
  intro H. revert n. induction H as [| x l Hsorted IH Hall]; intro n.
  - destruct n; constructor.
  - destruct n as [| n]; [constructor|]. cbn [firstn]. constructor; [apply IH|].
    apply Forall_forall. intros y Hy.
    exact (proj1 (Forall_forall _ _) Hall y (firstn_incl n l y Hy)).
Qed.

(** X18. In a summary with diagnostics, [most_common_errors] holds at most
    ten entries, ordered so that the count never increases; every entry is
    one of the groups of diagnostics with the same category and message,
    and when there are at most ten groups it holds them all. *)
Theorem most_common_errors_ordered (h : ErrorHandler) :
  match get_error_summary h with
  | NoErrorsSummary => errors h = []
  | FullSummary _ _ most_common _ _ =>
      List.length most_common <= 10 /\
      StronglySorted by_count_desc most_common /\
      incl most_common (map snd (group_messages (errors h))) /\
      (List.length (group_messages (errors h)) <= 10 ->
       Permutation most_common (map snd (group_messages (errors h))))
  end.
Proof.
  unfold get_error_summary.
  destruct (errors h) as [| error rest] eqn:Herr; [reflexivity|].
  rewrite <- Herr.
  split; [apply firstn_le_length|].
  split; [apply firstn_sorted, sort_by_count_sorted|]. split.
  - intros x Hx. apply firstn_incl in Hx.
    exact (Permutation_in x (sort_by_count_permutation _) Hx).
  - intro Hlen. rewrite firstn_all2; [apply sort_by_count_permutation|].
    rewrite (Permutation_length (sort_by_count_permutation _)).
    now rewrite length_map.
Qed.

(** ** The groups of diagnostics *)

Lemma count_message_keys (key : string) (error : ExtractionError)
    (groups : list (string * CommonError)) (x : CommonError) :
  dict_keys (count_message key error groups) = dict_keys (dict_set key x groups).
Proof.
  unfold dict_keys. induction groups as [| [k e] rest IH]; simpl; [reflexivity|].
  destruct (String.eqb k key); simpl; [reflexivity | now rewrite IH].
Qed.

Lemma count_message_total (key : string) (error : ExtractionError)
    (groups : list (string * CommonError)) :
  total_count (map snd (count_message key error groups))
    = total_count (map snd groups) + 1.
Proof.
  unfold total_count. induction groups as [| [k e] rest IH]; simpl; [reflexivity|].
  destruct (String.eqb k key); simpl; [lia | rewrite IH; lia].
Qed.

Lemma count_message_get_other (key other : string) (error : ExtractionError)
    (groups : list (string * CommonError)) :
  other <> key ->
  dict_get other (count_message key error groups) = dict_get other groups.
Proof.
  intro Hneq. induction groups as [| [k e] rest IH]; simpl.
  - destruct (String.eqb key other) eqn:E; [|reflexivity].
    apply String.eqb_eq in E. congruence.
  - destruct (String.eqb k key) eqn:E; simpl.
    + apply String.eqb_eq in E. subst k.
      destruct (String.eqb key other) eqn:E'; [|reflexivity].
      apply String.eqb_eq in E'. congruence.
    + destruct (String.eqb k other); [reflexivity | exact IH].
Qed.

Lemma count_message_get_same (key : string) (error : ExtractionError)
    (groups : list (string * CommonError)) :
  exists e',
    dict_get key (count_message key error groups) = Some e' /\
    match dict_get key groups with
    | Some e =>
        ce_count e' = ce_count e + 1 /\
        ce_category e' = ce_category e /\ ce_message e' = ce_message e
    | None =>
        ce_count e' = 1 /\
        ce_category e' = category_value (category error) /\
        ce_message e' = error_message error
    end.
Proof.
  induction groups as [| [k e] rest IH]; simpl.
  - rewrite String.eqb_refl. eexists. split; [reflexivity|]. repeat split.
  - destruct (String.eqb k key) eqn:E; simpl; rewrite E.
    + eexists. split; [reflexivity|]. repeat split.
    + exact IH.
Qed.

Lemma with_key_snoc (key : string) (done : list ExtractionError)
    (error : ExtractionError) :
  with_key key (done ++ [error])
    = (with_key key done
       ++ if String.eqb (message_key error) key then [error] else [])%list.
Proof. unfold with_key. rewrite filter_app. reflexivity. Qed.

Lemma groups_count_step (groups : list (string * CommonError))
    (done : list ExtractionError) (error : ExtractionError) :
  groups_count groups done ->
  groups_count (count_message (message_key error) error groups) (done ++ [error]).
Proof.
  intros (Hnd & Htotal & Hkeys). split; [|split].
  - rewrite (count_message_keys _ _ _
               {| ce_category := ""; ce_message := ""; ce_count := 0;
                  ce_example_field := ""; ce_suggested_fix := None |}).
    now apply dict_set_keys_nodup.
  - rewrite count_message_total, Htotal, length_app. reflexivity.
  - intro key. rewrite with_key_snoc.
    destruct (String.eqb (message_key error) key) eqn:E.
    + apply String.eqb_eq in E. subst key.
      destruct (count_message_get_same (message_key error) error groups)
        as (e' & Hget & Hfields).
      rewrite Hget. specialize (Hkeys (message_key error)).
      destruct (dict_get (message_key error) groups) as [e|].
      * destruct Hfields as (Hc & Hcat & Hmsg). destruct Hkeys as (Hcount & Hpos & Hkey).
        rewrite length_app, Hc, Hcat, Hmsg. simpl. repeat split; try lia. exact Hkey.
      * destruct Hfields as (Hc & Hcat & Hmsg).
        rewrite Hkeys, Hc, Hcat, Hmsg. simpl. repeat split. lia.
    + apply String.eqb_neq in E.
      rewrite count_message_get_other by (intro H; apply E; now symmetry).
      rewrite app_nil_r. apply Hkeys.
Qed.

Lemma groups_count_fold (l : list ExtractionError) :
  forall groups done,
    groups_count groups done ->
    groups_count
      (fold_left (fun acc error => count_message (message_key error) error acc) l groups)
      (done ++ l).
Proof.
  induction l as [| error l IH]; intros groups done Hinv; simpl.
  - now rewrite app_nil_r.
  - replace (done ++ error :: l)%list with ((done ++ [error]) ++ l)%list
      by (rewrite <- app_assoc; reflexivity).
    apply IH. now apply groups_count_step.
Qed.

(** X19. The groups behind [most_common_errors] partition the diagnostics
    by category and message: no key stands twice, the counts of the groups
    add up to the number of diagnostics, and the group under a key counts
    exactly the diagnostics with that key and carries their category and
    message; a key without diagnostics has no group. *)
Theorem message_groups_count_diagnostics (l : list ExtractionError) :
  groups_count (group_messages l) l.
Proof.
  unfold group_messages.
  apply (groups_count_fold l [] []).
  split; [constructor|]. split; [reflexivity|]. intro key. reflexivity.
Qed.

(** ** Similar sheet names *)

Lemma find_similar_loop_incl (target_lower : string) (available : list string) :
  forall similar,
    incl (find_similar_loop target_lower available similar) (similar ++ available).
Proof.
  induction available as [| sheet rest IH]; intro similar.
  - simpl. rewrite app_nil_r. apply incl_refl.
  - assert (Hadd : incl (find_similar_loop target_lower rest (similar ++ [sheet]))
                        (similar ++ sheet :: rest)).
    { intros x Hx. apply IH in Hx. rewrite <- app_assoc in Hx. exact Hx. }
    assert (Hskip : incl (find_similar_loop target_lower rest similar)
                         (similar ++ sheet :: rest)).
    { intros x Hx. apply IH in Hx. apply in_app_iff in Hx. apply in_app_iff.
      destruct Hx as [Hx | Hx]; [left; exact Hx | right; right; exact Hx]. }
    cbn [find_similar_loop].
    destruct (String.eqb target_lower (lower sheet)).
    { intros x [<- | []]. apply in_app_iff. right. left. reflexivity. }
    destruct (contains target_lower (lower sheet) || contains (lower sheet) target_lower);
      [exact Hadd|].
    destruct (split target_lower); [exact Hskip|].
    destruct (split (lower sheet)); [exact Hskip|].
    match goal with |- context [if ?b then _ else _] => destruct b end;
      [exact Hadd | exact Hskip].
Qed.

Lemma find_similar_loop_exact (target_lower : string) (before after : list string)
    (sheet : string) :
  lower sheet = target_lower ->
  Forall (fun other => lower other <> target_lower) before ->
  forall similar,
    find_similar_loop target_lower (before ++ sheet :: after) similar = [sheet].
Proof.
  intros Hsheet Hbefore. induction Hbefore as [| other rest Hother _ IH]; intro similar.
  - cbn [app find_similar_loop]. rewrite Hsheet, String.eqb_refl. reflexivity.
  - cbn [app find_similar_loop].
    assert (E : String.eqb target_lower (lower other) = false).
    { apply String.eqb_neq. intro H. apply Hother. now symmetry. }
    rewrite E.
    destruct (contains target_lower (lower other) || contains (lower other) target_lower);
      [apply IH|].
    destruct (split target_lower); [apply IH|].
    destruct (split (lower other)); [apply IH|].
    match goal with |- context [if ?b then _ else _] => destruct b end; apply IH.
Qed.

(** X20. Every sheet [_find_similar_sheets] suggests is a sheet of the
    workbook; and when the workbook has a sheet whose name differs from the
    one asked for only in case, the suggestion is the first such sheet and
    nothing else, so the diagnostic of [handle_missing_sheet] names exactly
    it. *)
Theorem similar_sheets_come_from_workbook
    (target : string) (available before after : list string) (sheet field : string)
    (h : ErrorHandler) :
  incl (_find_similar_sheets target available) available /\
  (lower sheet = lower target ->
   Forall (fun other => lower other <> lower target) before ->
   _find_similar_sheets target (before ++ sheet :: after) = [sheet] /\
   exists error,
     errors (snd (handle_missing_sheet field target (before ++ sheet :: after) h))
       = (errors h ++ [error])%list /\
     suggested_fix error = Some ("Similar sheets found: " ++ sheet)).
Proof.
  split.
  - unfold _find_similar_sheets. intros x Hx.
    apply find_similar_loop_incl in Hx. exact Hx.
  - intros Hsheet Hbefore.
    assert (Hfind : _find_similar_sheets target (before ++ sheet :: after) = [sheet]).
    { unfold _find_similar_sheets. now apply find_similar_loop_exact. }
    split; [exact Hfind|].
    unfold handle_missing_sheet. rewrite Hfind. cbn [snd _log_error errors].
    eexists. split; [reflexivity|]. cbn [suggested_fix firstn join String.concat].
    reflexivity.
Qed.

Lemma similar_sheets_come_from_workbook_witness :
  _find_similar_sheets "summary" ["Rent Roll"; "Summary"; "SUMMARY"] = ["Summary"].
Proof.
  apply (similar_sheets_come_from_workbook "summary" [] ["Rent Roll"] ["SUMMARY"]
           "Summary" "UNITS" ErrorHandler_init).
  - reflexivity.
  - repeat constructor. discriminate.
Defined.

(** ** A batch *)

Lemma opened_workbook_counts workbook (self : ExcelDataExtractor) (file_path : string) :
  exists record self',
    extract_from_file self file_path (Ok workbook) = (Ok record, self') /\
    _file_path record = file_path /\
    mappings self' = mappings self /\
    successful (_extraction_metadata record) = List.length (mappings self) /\
    failed (_extraction_metadata record) = 0.
Proof.
  unfold extract_from_file.
  pose proof (extract_fields_counts workbook (mappings self)
                {| ls_values := []; ls_errors := [];
                   successful_extractions := 0; failed_extractions := 0 |}
                (error_handler self)) as (Hs & Hf & _).
  destruct (extract_fields workbook (mappings self) _ (error_handler self)) as [st h].
  simpl in *. eexists. eexists. split; [reflexivity|]. simpl.
  repeat split; assumption.
Qed.

Lemma process_files_from_results file_list :
  forall extractor processed failed_files,
    let out := process_files_from extractor file_list processed failed_files in
    exists new_results new_failed,
      fst (fst out) = (processed ++ new_results)%list /\
      snd (fst out) = (failed_files ++ new_failed)%list /\
      map (fun r => _file_path (extracted_data r)) new_results
        = map fi_file_path (filter opens file_list) /\
      map (fun f => fi_file_path (fst f)) new_failed
        = map fi_file_path (filter (fun f => negb (opens f)) file_list) /\
      Forall (fun r =>
                successful (_extraction_metadata (extracted_data r))
                  = List.length (mappings extractor) /\
                failed (_extraction_metadata (extracted_data r)) = 0)
             new_results.
Proof.
  induction file_list as [| file_info rest IH]; intros extractor processed failed_files.
  - exists [], []. simpl. rewrite !app_nil_r. repeat split. constructor.
  - cbn zeta. cbn [process_files_from]. unfold _process_single_file. cbn [filter].
    assert (Hopens : opens file_info
                     = match fi_loaded file_info with Ok _ => true | Raise _ => false end)
      by reflexivity.
    rewrite !Hopens. clear Hopens.
    destruct (fi_loaded file_info) as [workbook | msg] eqn:Hload.
    + destruct (opened_workbook_counts workbook extractor (fi_file_path file_info))
        as (record & extractor' & Hrun & Hpath & Hm & Hs & Hf).
      rewrite Hrun. cbn [negb].
      match goal with
      | |- context [process_files_from extractor' rest ?p ?f] =>
          destruct (IH extractor' p f) as (nr & nf & H1 & H2 & H3 & H4 & H5)
      end.
      eexists (_ :: nr), nf. cbn zeta in H1, H2.
      rewrite H1, H2, <- app_assoc. split; [reflexivity|]. split; [reflexivity|].
      cbn [map extracted_data]. rewrite Hpath, H3. split; [reflexivity|].
      split; [exact H4|]. constructor.
      * cbn [extracted_data]. split; assumption.
      * rewrite Hm in H5. exact H5.
    + unfold extract_from_file. cbn [negb].
      match goal with
      | |- context [process_files_from extractor rest ?p ?f] =>
          destruct (IH extractor p f) as (nr & nf & H1 & H2 & H3 & H4 & H5)
      end.
      exists nr. eexists (_ :: nf). cbn zeta in H1, H2.
      rewrite H1, H2, <- app_assoc. split; [reflexivity|]. split; [reflexivity|].
      split; [exact H3|]. cbn [map fst]. rewrite H4. split; [reflexivity | exact H5].
Qed.

(** The files that open, and those that do not, are the same up to order
    in every rearrangement of the list. *)
Lemma filter_rearranged (keep : FileInfo -> bool) (completed file_list : list FileInfo) :
  Permutation completed file_list ->
  Permutation (map fi_file_path (filter keep completed))
              (map fi_file_path (filter keep file_list)).
Proof.
  intro Hperm. apply Permutation_map.
  induction Hperm as [| x l l' _ IH | x y l | l l' l'' _ IH1 _ IH2].
  - constructor.
  - cbn [filter]. destruct (keep x); [now constructor | exact IH].
  - cbn [filter]. destruct (keep x), (keep y);
      try apply Permutation_refl. apply perm_swap.
  - exact (Permutation_trans IH1 IH2).
Qed.

Lemma filter_split_length (file_list : list FileInfo) :
  List.length (filter opens file_list)
  + List.length (filter (fun f => negb (opens f)) file_list)
  = List.length file_list.
Proof.
  induction file_list as [| f l IH]; [reflexivity|].
  cbn [filter]. destruct (opens f); cbn [negb List.length]; lia.
Qed.

(** X21. A batch never stops at a file that does not open.  In whatever
    order [completed] the files of [file_list] complete, the results are the
    records of the files that open and the failed files are the others, both
    up to order, so every file of the list is accounted for once; and every
    record reports all its fields as successful and none as failed. *)
Theorem batch_accounts_for_every_file
    (extractor : ExcelDataExtractor) (file_list completed : list FileInfo) :
  Permutation completed file_list ->
  let out := process_files_from extractor completed [] [] in
  Permutation (map (fun r => _file_path (extracted_data r)) (fst (fst out)))
              (map fi_file_path (filter opens file_list)) /\
  Permutation (map (fun f => fi_file_path (fst f)) (snd (fst out)))
              (map fi_file_path (filter (fun f => negb (opens f)) file_list)) /\
  List.length (fst (fst out)) + List.length (snd (fst out)) = List.length file_list /\
  Forall (fun r =>
            successful (_extraction_metadata (extracted_data r))
              = List.length (mappings extractor) /\
            failed (_extraction_metadata (extracted_data r)) = 0)
         (fst (fst out)).
Proof.
  intro Hperm. cbn zeta.
  destruct (process_files_from_results completed extractor [] [])
    as (nr & nf & H1 & H2 & H3 & H4 & H5).
  cbn zeta in *. simpl in H1, H2. rewrite H1, H2.
  split; [|split; [|split; [|exact H5]]].
  - rewrite H3. exact (filter_rearranged _ _ _ Hperm).
  - rewrite H4. exact (filter_rearranged _ _ _ Hperm).
  - apply (f_equal (@List.length _)) in H3. apply (f_equal (@List.length _)) in H4.
    rewrite !length_map in H3, H4. rewrite H3, H4, filter_split_length.
    exact (Permutation_length Hperm).
Qed.

Lemma batch_accounts_for_every_file_witness :
  Permutation [summary_file; unreadable_file; rent_roll_file]
              [rent_roll_file; unreadable_file; summary_file] /\
  Permutation
    (map (fun r => _file_path (extracted_data r))
       (process_files (ExcelDataExtractor_init units_mapping)
          [summary_file; unreadable_file; rent_roll_file]))
    ["a.xlsb"; "b.xlsx"].
Proof.
  assert (Hperm : Permutation [summary_file; unreadable_file; rent_roll_file]
                              [rent_roll_file; unreadable_file; summary_file]).
  { apply (perm_trans (l' := [unreadable_file; summary_file; rent_roll_file]));
      [apply perm_swap|].
    apply (perm_trans (l' := [unreadable_file; rent_roll_file; summary_file]));
      [apply perm_skip; apply perm_swap | apply perm_swap]. }
  split; [exact Hperm|].
  destruct (batch_accounts_for_every_file (ExcelDataExtractor_init units_mapping)
              [rent_roll_file; unreadable_file; summary_file]
              [summary_file; unreadable_file; rent_roll_file] Hperm) as [Hresults _].
  exact Hresults.
Defined.

(** X22. In the summary of a batch, in whatever order [completed] the files
    of [file_list] complete, [total_processed] and [total_failed] add up to
    the number of files, [failed_files] lists, up to order, the paths of the
    files that did not open, and [total_fields_extracted] is the number of
    processed files times the number of mapping entries: it counts every
    field of every opened file, resolved or not. *)
Theorem processing_summary_counts
    (extractor : ExcelDataExtractor) (file_list completed : list FileInfo) :
  Permutation completed file_list ->
  let out := process_files_from extractor completed [] [] in
  let summary := _generate_processing_summary (fst (fst out)) (snd (fst out)) in
  total_processed summary + total_failed summary = List.length file_list /\
  total_processed summary = List.length (filter opens file_list) /\
  total_failed summary = List.length (filter (fun f => negb (opens f)) file_list) /\
  Permutation (summary_failed_files summary)
              (map fi_file_path (filter (fun f => negb (opens f)) file_list)) /\
  total_fields_extracted summary
    = total_processed summary * List.length (mappings extractor).
Proof.
  intro Hperm. cbn zeta.
  destruct (process_files_from_results completed extractor [] [])
    as (nr & nf & H1 & H2 & H3 & H4 & H5).
  cbn zeta in *. simpl in H1, H2. rewrite H1, H2.
  unfold _generate_processing_summary.
  cbn [total_processed total_failed total_fields_extracted summary_failed_files].
  assert (Hnr : List.length nr = List.length (filter opens file_list)).
  { apply (f_equal (@List.length _)) in H3. rewrite !length_map in H3. rewrite H3.
    pose proof (Permutation_length (filter_rearranged opens _ _ Hperm)) as Hlen.
    now rewrite !length_map in Hlen. }
  assert (Hnf : List.length nf
                = List.length (filter (fun f => negb (opens f)) file_list)).
  { apply (f_equal (@List.length _)) in H4. rewrite !length_map in H4. rewrite H4.
    pose proof (Permutation_length
                  (filter_rearranged (fun f => negb (opens f)) _ _ Hperm)) as Hlen.
    now rewrite !length_map in Hlen. }
  split; [|split; [exact Hnr | split; [exact Hnf | split]]].
  - rewrite Hnr, Hnf. apply filter_split_length.
  - rewrite H4. exact (filter_rearranged _ _ _ Hperm).
  - clear - H5. induction H5 as [| r rest [Hs _] _ IH]; [reflexivity|].
    unfold list_sum in *. cbn [map fold_right List.length]. rewrite Hs, IH. lia.
Qed.

Lemma processing_summary_counts_witness :
  Permutation [unreadable_file; rent_roll_file] [rent_roll_file; unreadable_file] /\
  Permutation
    (summary_failed_files
       (_generate_processing_summary
          (fst (fst (process_files_from (ExcelDataExtractor_init units_mapping)
                       [unreadable_file; rent_roll_file] [] [])))
          (snd (fst (process_files_from (ExcelDataExtractor_init units_mapping)
                       [unreadable_file; rent_roll_file] [] [])))))
    ["c.xlsb"].
Proof.
  split; [apply perm_swap|].
  destruct (processing_summary_counts (ExcelDataExtractor_init units_mapping)
              [rent_roll_file; unreadable_file] [unreadable_file; rent_roll_file]
              (perm_swap _ _ _)) as (_ & _ & _ & Hfailed & _).
  exact Hfailed.
Defined.

(** ** Values and the handler *)

Lemma extract_cell_value_handler_free workbook sheet address field h1 h2 :
  fst (_extract_cell_value workbook sheet address field h1)
    = fst (_extract_cell_value workbook sheet address field h2).
Proof.
  rewrite !extract_cell_value_fst.
  assert (Htry : fst (extract_cell_try workbook sheet address field h1)
                 = fst (extract_cell_try workbook sheet address field h2)).
  { destruct workbook as [wb | wb]; unfold extract_cell_try.
    - unfold extract_xlsb.
      destruct (negb (str_in sheet (pyxlsb.sheets wb))); [reflexivity|].
      destruct (match_address (upper (replace "$" "" address))) as [[col_str row_str]|];
        [|reflexivity].
      unfold native_target.
      destruct (pyxlsb.get_sheet wb sheet) as [opened | msg]; [|reflexivity].
      destruct (first_scan _ _ (pyxlsb.rows opened) 0) as [[found|] rows_checked].
      { apply process_value_context_free. }
      destruct (pyxlsb.rows_raise opened); [reflexivity|].
      destruct (second_scan _ _ (pyxlsb.rows opened)).
      { apply process_value_context_free. }
      reflexivity.
    - unfold extract_xlsx.
      destruct (negb (str_in sheet (openpyxl.sheetnames wb))); [reflexivity|].
      destruct (openpyxl.cell_value wb sheet address); [|reflexivity].
      apply process_value_context_free. }
  now rewrite Htry.
Qed.

Lemma extract_fields_handler_free workbook items :
  forall st h1 h2,
    fst (extract_fields workbook items st h1) = fst (extract_fields workbook items st h2).
Proof.
  induction items as [| [field mapping] rest IH]; intros st h1 h2; [reflexivity|].
  cbn [extract_fields].
  pose proof (extract_cell_value_handler_free workbook (Mapping.sheet_name mapping)
                (Mapping.cell_address mapping) field h1 h2) as Hfst.
  destruct (_extract_cell_value workbook (Mapping.sheet_name mapping)
              (Mapping.cell_address mapping) field h1) as [[v1 | m1] h1'];
    destruct (_extract_cell_value workbook (Mapping.sheet_name mapping)
                (Mapping.cell_address mapping) field h2) as [[v2 | m2] h2'];
    simpl in Hfst; try discriminate Hfst; injection Hfst as <-; apply IH.
Qed.

(** X23. The values an extraction resolves do not depend on what the
    handler of the extractor already holds: two extractors with the same
    mapping table, whatever their handlers have recorded, give for the same
    workbook records with the same field values, the same counts and the
    same list of field errors. *)
Theorem field_values_ignore_handler_state
    (self1 self2 : ExcelDataExtractor) (file_path : string) (workbook : Workbook) :
  mappings self1 = mappings self2 ->
  exists record1 after1 record2 after2,
    extract_from_file self1 file_path (Ok workbook) = (Ok record1, after1) /\
    extract_from_file self2 file_path (Ok workbook) = (Ok record2, after2) /\
    field_values record1 = field_values record2 /\
    _extraction_errors record1 = _extraction_errors record2 /\
    successful (_extraction_metadata record1) = successful (_extraction_metadata record2) /\
    failed (_extraction_metadata record1) = failed (_extraction_metadata record2) /\
    total_fields (_extraction_metadata record1)
      = total_fields (_extraction_metadata record2).
Proof.
  intro Hm. unfold extract_from_file. rewrite Hm.
  pose proof (extract_fields_handler_free workbook (mappings self2)
                {| ls_values := []; ls_errors := [];
                   successful_extractions := 0; failed_extractions := 0 |}
                (error_handler self1) (error_handler self2)) as Hst.
  destruct (extract_fields workbook (mappings self2) _ (error_handler self1)) as [st1 h1].
  destruct (extract_fields workbook (mappings self2) _ (error_handler self2)) as [st2 h2].
  simpl in Hst. subst st2.
  eexists. eexists. eexists. eexists.
  split; [reflexivity|]. split; [reflexivity|]. repeat split.
Qed.

Lemma field_values_ignore_handler_state_witness :
  exists record1 after1 record2 after2,
    extract_from_file (ExcelDataExtractor_init units_mapping) "a.xlsb"
      (Ok (Xlsb rent_roll_xlsb)) = (Ok record1, after1) /\
    extract_from_file after1 "a.xlsb" (Ok (Xlsb rent_roll_xlsb)) = (Ok record2, after2) /\
    field_values record1 = field_values record2.
Proof.
  destruct (field_values_ignore_handler_state
              (ExcelDataExtractor_init units_mapping)
              (snd (extract_from_file (ExcelDataExtractor_init units_mapping) "a.xlsb"
                      (Ok (Xlsb rent_roll_xlsb))))
              "a.xlsb" (Xlsb rent_roll_xlsb) eq_refl)
    as (record1 & after1 & record2 & after2 & Hrun1 & Hrun2 & Hvalues & _).
  exists record1, after1, record2, after2.
  assert (Hafter : after1
                   = snd (extract_from_file (ExcelDataExtractor_init units_mapping)
                            "a.xlsb" (Ok (Xlsb rent_roll_xlsb)))).
  { now rewrite Hrun1. }
  split; [exact Hrun1|]. split; [|exact Hvalues].
  rewrite Hafter. exact Hrun2.
Defined.

(** X24. The summaries of consecutive runs of one extractor pile up: the
    list of diagnostics in the summary of the second record starts with the
    whole list of the first record, followed by the diagnostics of the
    second run, and its total is the sum of both. *)
Theorem summaries_pile_up_over_runs
    (self after1 after2 : ExcelDataExtractor) (path1 path2 : string)
    (workbook1 workbook2 : Workbook) (record1 record2 : ExtractionRecord) :
  extract_from_file self path1 (Ok workbook1) = (Ok record1, after1) ->
  extract_from_file after1 path2 (Ok workbook2) = (Ok record2, after2) ->
  exists new,
    errors (error_handler after2) = (errors (error_handler after1) ++ new)%list /\
    summary_details (error_summary (_extraction_metadata record2))
      = (summary_details (error_summary (_extraction_metadata record1))
         ++ map detail_of new)%list /\
    summary_total (error_summary (_extraction_metadata record2))
      = summary_total (error_summary (_extraction_metadata record1)) + List.length new.
Proof.
  intros Hrun1 Hrun2.
  assert (Hsummary : forall s path wb r s',
             extract_from_file s path (Ok wb) = (Ok r, s') ->
             error_summary (_extraction_metadata r) = get_error_summary (error_handler s')).
  { intros s path wb r s' Hrun. unfold extract_from_file in Hrun.
    destruct (extract_fields wb (mappings s) _ (error_handler s)) as [st h].
    injection Hrun as <- <-. reflexivity. }
  assert (Hdetails : forall h, summary_details (get_error_summary h) = map detail_of (errors h)).
  { intro h. unfold get_error_summary. destruct (errors h); reflexivity. }
  assert (Htotal : forall h, summary_total (get_error_summary h) = List.length (errors h)).
  { intro h. unfold get_error_summary. destruct (errors h); reflexivity. }
  destruct (summary_lists_earlier_diagnostics after1 path2 workbook2)
    as (r & s & new & Hrun & Herr & _).
  rewrite Hrun2 in Hrun. injection Hrun as <- <-.
  exists new. split; [exact Herr|].
  rewrite (Hsummary _ _ _ _ _ Hrun1), (Hsummary _ _ _ _ _ Hrun2).
  rewrite !Hdetails, !Htotal, Herr, map_app, length_app. split; reflexivity.
Qed.

Lemma summaries_pile_up_over_runs_witness :
  exists record1 after1 record2 after2,
    extract_from_file (ExcelDataExtractor_init units_mapping) "a.xlsb"
      (Ok (Xlsb rent_roll_xlsb)) = (Ok record1, after1) /\
    extract_from_file after1 "b.xlsb" (Ok (Xlsb summary_xlsb)) = (Ok record2, after2) /\
    summary_total (error_summary (_extraction_metadata record2))
      = summary_total (error_summary (_extraction_metadata record1)) + 0.
Proof.
  eexists. eexists. eexists. eexists.
  split; [reflexivity|]. split; [reflexivity|].
  destruct (summaries_pile_up_over_runs
              (ExcelDataExtractor_init units_mapping) _ _ "a.xlsb" "b.xlsb"
              (Xlsb rent_roll_xlsb) (Xlsb summary_xlsb) _ _ eq_refl eq_refl)
    as (new & Herr & _ & Htotal).
  assert (Hnew : new = []).
  { simpl in Herr. destruct new; [reflexivity | discriminate Herr]. }
  rewrite Hnew in Htotal. exact Htotal.
Defined.

(** ** Validation of a record *)

Lemma every_field_has_entry
    (self : ExcelDataExtractor) (file_path : string) (workbook : Workbook) :
  NoDup (dict_keys (mappings self)) ->
  exists record self',
    extract_from_file self file_path (Ok workbook) = (Ok record, self') /\
    dict_keys (field_values record) = dict_keys (mappings self) /\
    Forall (fun entry => snd entry = np_nan \/ is_present (snd entry) = true)
           (field_values record).
Proof.
  intro Hnd. unfold extract_from_file.
  destruct (extract_fields_values workbook (mappings self)
              {| ls_values := []; ls_errors := [];
                 successful_extractions := 0; failed_extractions := 0 |}
              (error_handler self) Hnd) as [Hkeys Hvals].
  { intros k _ []. }
  { constructor. }
  destruct (extract_fields workbook (mappings self) _ (error_handler self)) as [st h].
  simpl in Hkeys, Hvals.
  eexists. eexists. split; [reflexivity|]. simpl. split; assumption.
Qed.

Lemma dict_get_of_key {V : Type} (key : string) (d : list (string * V)) :
  In key (dict_keys d) -> exists value, dict_get key d = Some value /\ In (key, value) d.
Proof.
  unfold dict_keys. induction d as [| [k x] rest IH]; simpl; [contradiction|].
  intro Hin. destruct (String.eqb k key) eqn:E.
  - apply String.eqb_eq in E. subst k. exists x. split; [reflexivity | left; reflexivity].
  - destruct Hin as [-> | Hin]; [rewrite String.eqb_refl in E; discriminate|].
    destruct (IH Hin) as (value & Hget & Hv). exists value. split; [exact Hget | right; exact Hv].
Qed.

Lemma pd_isna_returned (value : PyValue) :
  value = np_nan \/ is_present value = true ->
  (pd_isna value = true <-> value = np_nan).
Proof.
  intros [-> | Hp]; [split; reflexivity|].
  destruct value as [| s | z | f | b | iso | text]; simpl in *;
    try (split; discriminate).
  destruct f; simpl in *; try (split; discriminate).
Qed.

(** X25. Validating the field entries of a record against required fields
    of the mapping table (whose field names are distinct): a required field
    is reported missing exactly when the resolver returned the NaN marker
    for it, and the record is valid exactly when no required field holds
    the marker; no required field is ever reported as absent from the
    record. *)
Theorem validation_flags_unresolved_fields
    (self : ExcelDataExtractor) (file_path : string) (workbook : Workbook)
    (required_fields : list string) :
  NoDup (dict_keys (mappings self)) ->
  incl required_fields (dict_keys (mappings self)) ->
  exists record self',
    extract_from_file self file_path (Ok workbook) = (Ok record, self') /\
    (forall field,
        In field (snd (validate_extracted_data (field_values record) required_fields))
        <-> In field required_fields /\
            dict_get field (field_values record) = Some np_nan) /\
    (fst (validate_extracted_data (field_values record) required_fields) = true
     <-> forall field, In field required_fields ->
                       dict_get field (field_values record) <> Some np_nan).
Proof.
  intros Hnd Hreq.
  destruct (every_field_has_entry self file_path workbook Hnd)
    as (record & self' & Hrun & Hkeys & Hvals).
  exists record, self'. split; [exact Hrun|].
  assert (Hfield : forall field,
             In field required_fields ->
             exists value,
               dict_get field (field_values record) = Some value /\
               (pd_isna value = true <-> value = np_nan)).
  { intros field Hin.
    assert (Hk : In field (dict_keys (field_values record))).
    { rewrite Hkeys. now apply Hreq. }
    destruct (dict_get_of_key _ _ Hk) as (value & Hget & Hentry).
    exists value. split; [exact Hget|]. apply pd_isna_returned.
    exact (proj1 (Forall_forall _ _) Hvals (field, value) Hentry). }
  assert (Hmissing : forall field,
             In field (snd (validate_extracted_data (field_values record) required_fields))
             <-> In field required_fields /\
                 dict_get field (field_values record) = Some np_nan).
  { intro field. unfold validate_extracted_data. cbn [snd]. rewrite filter_In.
    split.
    - intros [Hin Htest]. split; [exact Hin|].
      destruct (Hfield field Hin) as (value & Hget & Hna).
      rewrite Hget in *. f_equal. now apply Hna.
    - intros [Hin Hget]. split; [exact Hin|]. now rewrite Hget. }
  split; [exact Hmissing|].
  unfold validate_extracted_data in *. cbn [fst snd] in *. split.
  - intros Hvalid field Hin Hget. apply Nat.eqb_eq in Hvalid.
    apply length_zero_iff_nil in Hvalid.
    assert (Hf : In field (filter
                     (fun field0 => match dict_get field0 (field_values record) with
                                    | Some value => pd_isna value
                                    | None => true
                                    end) required_fields)).
    { apply Hmissing. split; assumption. }
    rewrite Hvalid in Hf. exact Hf.
  - intro Hnone. apply Nat.eqb_eq. apply length_zero_iff_nil.
    destruct (filter _ required_fields) as [| field rest] eqn:E; [reflexivity|].
    exfalso.
    assert (Hf : In field (field :: rest)) by (left; reflexivity).
    apply Hmissing in Hf. destruct Hf as [Hin Hget].
    exact (Hnone field Hin Hget).
Qed.

Lemma validation_flags_unresolved_fields_witness :
  exists record self',
    extract_from_file (ExcelDataExtractor_init units_mapping) "a.xlsb"
      (Ok (Xlsb rent_roll_xlsb)) = (Ok record, self') /\
    (In "UNITS" (snd (validate_extracted_data (field_values record) ["UNITS"]))
     <-> In "UNITS" ["UNITS"] /\ dict_get "UNITS" (field_values record) = Some np_nan).
Proof.
  assert (Hnd : NoDup (dict_keys (mappings (ExcelDataExtractor_init units_mapping)))).
  { repeat constructor. intros []. }
  assert (Hreq : incl ["UNITS"] (dict_keys (mappings (ExcelDataExtractor_init units_mapping)))).
  { intros x Hx. exact Hx. }
  destruct (validation_flags_unresolved_fields (ExcelDataExtractor_init units_mapping)
              "a.xlsb" (Xlsb rent_roll_xlsb) ["UNITS"] Hnd Hreq)
    as (record & self' & Hrun & Hmissing & _).
  exists record, self'. split; [exact Hrun | apply Hmissing].
Defined.

(** ** The stored metadata *)

(** X26. The metadata row the data loader stores for a record of
    [extract_from_file] always has a failed count of 0 and an error count
    of 0, and its successful count is the number of mapping entries, however
    many diagnostics the attached error summary lists. *)
Theorem stored_metadata_reports_no_failure
    (self : ExcelDataExtractor) (file_path : string) (workbook : Workbook) :
  exists record self',
    extract_from_file self file_path (Ok workbook) = (Ok record, self') /\
    let row := _insert_extraction_metadata (_extraction_metadata record) in
    failed_extractions_stored row = 0%Z /\
    error_count row = 0 /\
    successful_extractions_stored row = Z.of_nat (List.length (mappings self)) /\
    summary_total (error_summary (_extraction_metadata record))
      = List.length (errors (error_handler self')).
Proof.
  unfold extract_from_file.
  pose proof (extract_fields_counts workbook (mappings self)
                {| ls_values := []; ls_errors := [];
                   successful_extractions := 0; failed_extractions := 0 |}
                (error_handler self)) as (Hs & _ & _).
  destruct (extract_fields workbook (mappings self) _ (error_handler self)) as [st h].
  simpl in Hs. eexists. eexists. split; [reflexivity|].
  cbn zeta. unfold _insert_extraction_metadata.
  cbn [failed_extractions_stored error_count successful_extractions_stored
       _extraction_metadata total_fields successful error_summary error_handler].
  rewrite Hs. repeat split; try lia.
  unfold get_error_summary. destruct (errors h); reflexivity.
Qed.
